(** * Research paper tracker: listing, analytics and paper lifecycle

    A shallow embedding of the backend of the research paper tracker
    (apps/backend/src: services/paper.service.ts,
    services/analytics.service.ts, services/setup.service.ts,
    controllers/paper.controller.ts, controllers/analytics.controller.ts,
    controllers/setup.controller.ts, middleware/rateLimiter.ts,
    middleware/apiKeyAuth.ts) and the properties of its
    filtering-and-aggregation engine, its paper lifecycle and its
    middleware.

    Conventions of the embedding:
    - the persistent collection of papers is a list of rows, threaded
      explicitly through the operations that read or write it;
    - the clock reading [new Date()] is an argument [now] (a time value in
      milliseconds since the epoch);
    - a thrown [Error(msg)] is the outcome [Throws msg] of an operation;
    - JavaScript [Map]s are finite maps, arrays are lists. *)

From Stdlib Require Import ZArith QArith Lia Ascii.
From Stdlib Require DecimalString DecimalNat.
From stdpp Require Import base option list gmap strings sorting countable.

Local Open Scope Z_scope.

(** ** Enumerations (packages/shared/src/enums, @prisma/client) *)

Module Enums.

(** enums/readingStage.ts *)
Inductive ReadingStage :=
| ABSTRACT_READ
| INTRODUCTION_DONE
| METHODOLOGY_DONE
| RESULTS_ANALYZED
| FULLY_READ
| NOTES_COMPLETED.

(** The members [computeStackedBarData] and [computeSummaryMetrics] list
    (enums/researchDomain.ts is not among the sources). *)
Inductive ResearchDomain :=
| COMPUTER_SCIENCE
| BIOLOGY
| PHYSICS
| CHEMISTRY
| MATHEMATICS
| SOCIAL_SCIENCES.

(** Modelled from the spec: enums/impactScore.ts is not among the sources;
    the members are the four values of the data model's enumeration. *)
Inductive ImpactScore :=
| HIGH_IMPACT
| MEDIUM_IMPACT
| LOW_IMPACT
| UNKNOWN.

(** The string value of each member of [ReadingStage]
    (enums/readingStage.ts). *)
Definition stageLabel (s : ReadingStage) : string :=
  match s with
  | ABSTRACT_READ => "Abstract Read"
  | INTRODUCTION_DONE => "Introduction Done"
  | METHODOLOGY_DONE => "Methodology Done"
  | RESULTS_ANALYZED => "Results Analyzed"
  | FULLY_READ => "Fully Read"
  | NOTES_COMPLETED => "Notes Completed"
  end.

(** Modelled from the spec: enums/researchDomain.ts is not among the
    sources; the values are those of the data model's enumeration. *)
Definition domainLabel (d : ResearchDomain) : string :=
  match d with
  | COMPUTER_SCIENCE => "Computer Science"
  | BIOLOGY => "Biology"
  | PHYSICS => "Physics"
  | CHEMISTRY => "Chemistry"
  | MATHEMATICS => "Mathematics"
  | SOCIAL_SCIENCES => "Social Sciences"
  end.

(** Modelled from the spec: enums/impactScore.ts is not among the
    sources; the values are those of the data model's enumeration. *)
Definition impactLabel (i : ImpactScore) : string :=
  match i with
  | HIGH_IMPACT => "High Impact"
  | MEDIUM_IMPACT => "Medium Impact"
  | LOW_IMPACT => "Low Impact"
  | UNKNOWN => "Unknown"
  end.

#[global] Instance ReadingStage_eq_dec : EqDecision ReadingStage.
Proof. solve_decision. Defined.

#[global] Instance ResearchDomain_eq_dec : EqDecision ResearchDomain.
Proof. solve_decision. Defined.

#[global] Instance ImpactScore_eq_dec : EqDecision ImpactScore.
Proof. solve_decision. Defined.

Definition stageIndex (s : ReadingStage) : nat :=
  match s with
  | ABSTRACT_READ => 0 | INTRODUCTION_DONE => 1 | METHODOLOGY_DONE => 2
  | RESULTS_ANALYZED => 3 | FULLY_READ => 4 | NOTES_COMPLETED => 5
  end%nat.

Definition stageOfIndex (n : nat) : option ReadingStage :=
  match n with
  | 0 => Some ABSTRACT_READ | 1 => Some INTRODUCTION_DONE
  | 2 => Some METHODOLOGY_DONE | 3 => Some RESULTS_ANALYZED
  | 4 => Some FULLY_READ | 5 => Some NOTES_COMPLETED
  | _ => None
  end%nat.

Definition domainIndex (d : ResearchDomain) : nat :=
  match d with
  | COMPUTER_SCIENCE => 0 | BIOLOGY => 1 | PHYSICS => 2
  | CHEMISTRY => 3 | MATHEMATICS => 4 | SOCIAL_SCIENCES => 5
  end%nat.

Definition domainOfIndex (n : nat) : option ResearchDomain :=
  match n with
  | 0 => Some COMPUTER_SCIENCE | 1 => Some BIOLOGY | 2 => Some PHYSICS
  | 3 => Some CHEMISTRY | 4 => Some MATHEMATICS | 5 => Some SOCIAL_SCIENCES
  | _ => None
  end%nat.

(** Keys of a JavaScript [Map]: the enumerations are countable. *)
#[global] Program Instance ReadingStage_countable : Countable ReadingStage :=
  inj_countable stageIndex stageOfIndex _.
Next Obligation. by intros []. Qed.

#[global] Program Instance ResearchDomain_countable : Countable ResearchDomain :=
  inj_countable domainIndex domainOfIndex _.
Next Obligation. by intros []. Qed.

End Enums.

(** ** The [Date] object (ECMAScript, section "Date Objects")

    A [Date] holds a time value: milliseconds since the epoch, UTC. The
    accessors used by the services work on local time. Local time is the
    time value shifted by the offset [LocalTZA] of the process's time zone,
    taken constant here (a zone without daylight saving transitions). The
    time values at hand come from [new Date()] and lie far inside the
    representable range, so [TimeClip] is the identity and is left out.
    Mutating setters return the new time value. *)

Module JSDate.

Definition msPerDay : Z := 86400000.
Definition msPerHour : Z := 3600000.
Definition msPerMinute : Z := 60000.
Definition msPerSecond : Z := 1000.

Definition Day (t : Z) : Z := t / msPerDay.
Definition TimeWithinDay (t : Z) : Z := t mod msPerDay.

Definition DaysInYear (y : Z) : Z :=
  if negb (y mod 4 =? 0) then 365
  else if negb (y mod 100 =? 0) then 366
  else if negb (y mod 400 =? 0) then 365
  else 366.

Definition DayFromYear (y : Z) : Z :=
  365 * (y - 1970) + (y - 1969) / 4 - (y - 1901) / 100 + (y - 1601) / 400.

Definition TimeFromYear (y : Z) : Z := msPerDay * DayFromYear y.

(** The largest [y] with [TimeFromYear y <= t]: the mean year length is
    146097/400 days, which places the year within one of the estimate. *)
Definition YearFromTime (t : Z) : Z :=
  let d := Day t in
  let y := 1970 + (400 * d) / 146097 in
  if d <? DayFromYear y then y - 1
  else if DayFromYear (y + 1) <=? d then y + 1
  else y.

Definition InLeapYear (t : Z) : Z :=
  if DaysInYear (YearFromTime t) =? 366 then 1 else 0.

Definition DayWithinYear (t : Z) : Z :=
  Day t - DayFromYear (YearFromTime t).

Definition MonthFromTime (t : Z) : Z :=
  let d := DayWithinYear t in
  let leap := InLeapYear t in
  if d <? 31 then 0
  else if d <? 59 + leap then 1
  else if d <? 90 + leap then 2
  else if d <? 120 + leap then 3
  else if d <? 151 + leap then 4
  else if d <? 181 + leap then 5
  else if d <? 212 + leap then 6
  else if d <? 243 + leap then 7
  else if d <? 273 + leap then 8
  else if d <? 304 + leap then 9
  else if d <? 334 + leap then 10
  else 11.

(** Days of the year before the first of month [m] (0 = January). *)
Definition daysBeforeMonth (m leap : Z) : Z :=
  if m =? 0 then 0
  else if m =? 1 then 31
  else if m =? 2 then 59 + leap
  else if m =? 3 then 90 + leap
  else if m =? 4 then 120 + leap
  else if m =? 5 then 151 + leap
  else if m =? 6 then 181 + leap
  else if m =? 7 then 212 + leap
  else if m =? 8 then 243 + leap
  else if m =? 9 then 273 + leap
  else if m =? 10 then 304 + leap
  else 334 + leap.

Definition DateFromTime (t : Z) : Z :=
  DayWithinYear t - daysBeforeMonth (MonthFromTime t) (InLeapYear t) + 1.

Definition WeekDay (t : Z) : Z := (Day t + 4) mod 7.

Definition MakeTime (hour min sec ms : Z) : Z :=
  hour * msPerHour + min * msPerMinute + sec * msPerSecond + ms.

(** [MakeDay]: the day number of the first of month [month mod 12] of
    year [year + floor (month / 12)], plus [date - 1]. *)
Definition MakeDay (year month date : Z) : Z :=
  let ym := year + month / 12 in
  let mn := month mod 12 in
  let leap := if DaysInYear ym =? 366 then 1 else 0 in
  DayFromYear ym + daysBeforeMonth mn leap + date - 1.

Definition MakeDate (day time : Z) : Z := day * msPerDay + time.

Section LocalTime.
Variable LocalTZA : Z.

Definition LocalTime (t : Z) : Z := t + LocalTZA.
Definition UTC (t : Z) : Z := t - LocalTZA.

Definition getDay (tv : Z) : Z := WeekDay (LocalTime tv).
Definition getDate (tv : Z) : Z := DateFromTime (LocalTime tv).
Definition getMonth (tv : Z) : Z := MonthFromTime (LocalTime tv).
Definition getFullYear (tv : Z) : Z := YearFromTime (LocalTime tv).

(** [d.setDate(dt)] *)
Definition setDate (tv dt : Z) : Z :=
  let t := LocalTime tv in
  UTC (MakeDate (MakeDay (YearFromTime t) (MonthFromTime t) dt)
                (TimeWithinDay t)).

(** [d.setMonth(m)] *)
Definition setMonth (tv m : Z) : Z :=
  let t := LocalTime tv in
  UTC (MakeDate (MakeDay (YearFromTime t) m (DateFromTime t))
                (TimeWithinDay t)).

(** [d.setHours(h, m, s, ms)] *)
Definition setHours (tv h m s ms : Z) : Z :=
  let t := LocalTime tv in
  UTC (MakeDate (Day t) (MakeTime h m s ms)).

(** [new Date(year, month, date)]: a year from 0 to 99 means 1900 + year. *)
Definition newDate (year month date : Z) : Z :=
  let yr := if (0 <=? year) && (year <=? 99) then 1900 + year else year in
  UTC (MakeDate (MakeDay yr month date) (MakeTime 0 0 0 0)).
End LocalTime.

End JSDate.

(** ** JavaScript values the request handlers compute with *)

Module JS.

(** A number produced by [parseInt] and by the arithmetic on it: an
    integer or [NaN]. Integers are kept exact (a digit string too long for
    a double is rounded by JavaScript and is not modelled). *)
Inductive JSNum :=
| NaN
| Num (z : Z).

#[global] Instance JSNum_eq_dec : EqDecision JSNum.
Proof. solve_decision. Defined.

Definition sub (a b : JSNum) : JSNum :=
  match a, b with
  | Num x, Num y => Num (x - y)
  | _, _ => NaN
  end.

Definition mul (a b : JSNum) : JSNum :=
  match a, b with
  | Num x, Num y => Num (x * y)
  | _, _ => NaN
  end.

(** [StrWhiteSpaceChar] among the code units below 256: TAB, LF, VT, FF,
    CR, SP and NBSP. *)
Definition isWhiteSpace (c : ascii) : bool :=
  let n := nat_of_ascii c in
  ((9 <=? n) && (n <=? 13) || (n =? 32) || (n =? 160))%nat.

Fixpoint trimStart (s : string) : string :=
  match s with
  | String c r => if isWhiteSpace c then trimStart r else s
  | EmptyString => EmptyString
  end.

Definition digitValue (c : ascii) : option Z :=
  let n := nat_of_ascii c in
  if ((48 <=? n) && (n <=? 57))%nat then Some (Z.of_nat n - 48) else None.

(** The value of the longest prefix of decimal digits, [None] when that
    prefix is empty; [acc] holds the digits read so far. *)
Fixpoint digitsPrefix (acc : option Z) (s : string) : option Z :=
  match s with
  | String c r =>
      match digitValue c with
      | Some d => digitsPrefix (Some (10 * default 0 acc + d)) r
      | None => acc
      end
  | EmptyString => acc
  end.

(** [parseInt(s, 10)] *)
Definition parseInt10 (s : string) : JSNum :=
  let inputString := trimStart s in
  let '(sign, digits) :=
    match inputString with
    | String "-" r => (-1, r)
    | String "+" r => (1, r)
    | _ => (1, inputString)
    end in
  match digitsPrefix None digits with
  | None => NaN
  | Some mathInt => Num (sign * mathInt)
  end.

End JS.

(** ** Query strings (express: [req.query], parsed by qs) *)

Module Query.

(** One parsed value: a string or a nested object, whose contents the
    handlers never inspect. *)
Inductive QueryItem :=
| QStr (s : string)
| QObj.

(** [string | ParsedQs | (string | ParsedQs)[]] *)
Inductive QueryValue :=
| QOne (i : QueryItem)
| QMany (l : list QueryItem).

(** The parameters the handlers read; [None] is [undefined]. *)
Record ParsedQs := {
  readingStages : option QueryValue;
  domains : option QueryValue;
  impactScores : option QueryValue;
  dateRange : option QueryValue;
  page : option QueryValue;
  pageSize : option QueryValue
}.

Definition itemTruthy (i : QueryItem) : bool :=
  match i with
  | QStr s => negb (String.eqb s "")
  | QObj => true
  end.

(** Truthiness of [req.query.x]: [undefined] and the empty string are
    falsy, arrays and objects are truthy. *)
Definition truthy (v : option QueryValue) : bool :=
  match v with
  | None => false
  | Some (QOne i) => itemTruthy i
  | Some (QMany _) => true
  end.

(** [typeof s === "string"], with the string at hand. *)
Definition asString (i : QueryItem) : option string :=
  match i with
  | QStr s => Some s
  | QObj => None
  end.

(** [Array.isArray(v) ? v : [v]] *)
Definition toArray (v : QueryValue) : list QueryItem :=
  match v with
  | QMany l => l
  | QOne i => [i]
  end.

(** [Array.isArray(v) ? v[0] : v] *)
Definition firstOrSelf (v : option QueryValue) : option QueryItem :=
  match v with
  | None => None
  | Some (QOne i) => Some i
  | Some (QMany l) => head l
  end.

End Query.

(** ** The record store (Prisma client over the [Paper] table)

    The table is a list of rows in storage order. Reads are functions of
    the table; writes run in a state-and-error monad over it. *)

Module Store.
Import Enums.

Record Paper := {
  id : string;
  title : string;
  firstAuthor : string;
  researchDomain : ResearchDomain;
  readingStage : ReadingStage;
  citationCount : Z;
  impactScore : ImpactScore;
  dateAdded : Z;
  isArchived : bool;
  userKeyId : string
}.

(** A [where] object: every field is optional, the fields present are
    conjoined. [_in] is [{ in: [...] }], [_gte] is [{ gte: ... }]. *)
Record WhereInput := {
  where_title : option string;
  where_firstAuthor : option string;
  where_userKeyId : option string;
  where_isArchived : option bool;
  where_readingStage_in : option (list ReadingStage);
  where_researchDomain_in : option (list ResearchDomain);
  where_impactScore_in : option (list ImpactScore);
  where_dateAdded_gte : option Z
}.

Definition emptyWhere : WhereInput :=
  {| where_title := None; where_firstAuthor := None;
     where_userKeyId := None; where_isArchived := None;
     where_readingStage_in := None; where_researchDomain_in := None;
     where_impactScore_in := None; where_dateAdded_gte := None |}.

(** Property assignments [where.x = ...] on a [where] object. *)
Definition set_readingStage_in (l : list ReadingStage) (w : WhereInput) : WhereInput :=
  {| where_title := where_title w; where_firstAuthor := where_firstAuthor w;
     where_userKeyId := where_userKeyId w; where_isArchived := where_isArchived w;
     where_readingStage_in := Some l;
     where_researchDomain_in := where_researchDomain_in w;
     where_impactScore_in := where_impactScore_in w;
     where_dateAdded_gte := where_dateAdded_gte w |}.

Definition set_researchDomain_in (l : list ResearchDomain) (w : WhereInput) : WhereInput :=
  {| where_title := where_title w; where_firstAuthor := where_firstAuthor w;
     where_userKeyId := where_userKeyId w; where_isArchived := where_isArchived w;
     where_readingStage_in := where_readingStage_in w;
     where_researchDomain_in := Some l;
     where_impactScore_in := where_impactScore_in w;
     where_dateAdded_gte := where_dateAdded_gte w |}.

Definition set_impactScore_in (l : list ImpactScore) (w : WhereInput) : WhereInput :=
  {| where_title := where_title w; where_firstAuthor := where_firstAuthor w;
     where_userKeyId := where_userKeyId w; where_isArchived := where_isArchived w;
     where_readingStage_in := where_readingStage_in w;
     where_researchDomain_in := where_researchDomain_in w;
     where_impactScore_in := Some l;
     where_dateAdded_gte := where_dateAdded_gte w |}.

Definition set_dateAdded_gte (d : Z) (w : WhereInput) : WhereInput :=
  {| where_title := where_title w; where_firstAuthor := where_firstAuthor w;
     where_userKeyId := where_userKeyId w; where_isArchived := where_isArchived w;
     where_readingStage_in := where_readingStage_in w;
     where_researchDomain_in := where_researchDomain_in w;
     where_impactScore_in := where_impactScore_in w;
     where_dateAdded_gte := Some d |}.

(** An absent condition holds of every row. *)
Definition holds {A : Type} (c : option A) (test : A -> bool) : bool :=
  match c with
  | Some a => test a
  | None => true
  end.

(** Does row [p] satisfy the [where] object? *)
Definition matches (w : WhereInput) (p : Paper) : bool :=
  holds (where_title w) (fun t => bool_decide (title p = t))
  && holds (where_firstAuthor w) (fun a => bool_decide (firstAuthor p = a))
  && holds (where_userKeyId w) (fun k => bool_decide (userKeyId p = k))
  && holds (where_isArchived w) (fun b => bool_decide (isArchived p = b))
  && holds (where_readingStage_in w) (fun l => bool_decide (readingStage p ∈ l))
  && holds (where_researchDomain_in w) (fun l => bool_decide (researchDomain p ∈ l))
  && holds (where_impactScore_in w) (fun l => bool_decide (impactScore p ∈ l))
  && holds (where_dateAdded_gte w) (fun d => d <=? dateAdded p).

(** [prisma.paper.count({ where })] *)
Definition count (w : WhereInput) (db : list Paper) : nat :=
  length (List.filter (matches w) db).

(** [orderBy: { dateAdded: "desc" }]: the later row comes first. *)
Definition newerFirst (p q : Paper) : Prop := dateAdded q <= dateAdded p.

#[global] Instance newerFirst_dec : RelDecision newerFirst.
Proof. intros p q. unfold newerFirst. apply _. Defined.

Definition orderByDateAddedDesc (rows : list Paper) : list Paper :=
  merge_sort newerFirst rows.

(** [skip] and [take] as positions in the result: natural numbers. *)
Definition asIndex (n : JS.JSNum) : option nat :=
  match n with
  | JS.Num z => if 0 <=? z then Some (Z.to_nat z) else None
  | JS.NaN => None
  end.

(** [prisma.paper.findMany({ where, skip, take, orderBy: { dateAdded:
    "desc" } })]. The model covers the arguments of a page request, [skip]
    and [take] natural numbers; what the client does with a negative
    number or [NaN] lies outside the sources, and the model has no result
    there. *)
Definition findManyPage (w : WhereInput) (skip take : JS.JSNum)
    (db : list Paper) : option (list Paper) :=
  s ← asIndex skip;
  t ← asIndex take;
  Some (List.firstn t (List.skipn s (orderByDateAddedDesc (List.filter (matches w) db)))).

(** [prisma.paper.findMany({ where })]: every matching row. The query
    gives no [orderBy], so the order of the result is the store's own; the
    model lists the rows in table order, and what is stated of the
    analytics holds for every other order of them. *)
Definition findMany (w : WhereInput) (db : list Paper) : list Paper :=
  List.filter (matches w) db.

(** [prisma.paper.findFirst({ where })] *)
Definition findFirst (w : WhereInput) (db : list Paper) : option Paper :=
  List.find (matches w) db.

(** [prisma.paper.findUnique({ where: { id } })] *)
Definition findUnique (paperId : string) (db : list Paper) : option Paper :=
  List.find (fun p => bool_decide (id p = paperId)) db.

(** The [data] of an update: an [undefined] field leaves the column as it
    is. *)
Record UpdateData := {
  data_researchDomain : option ResearchDomain;
  data_readingStage : option ReadingStage;
  data_citationCount : option Z;
  data_isArchived : option bool
}.

Definition applyUpdate (d : UpdateData) (p : Paper) : Paper :=
  {| id := id p; title := title p; firstAuthor := firstAuthor p;
     researchDomain := default (researchDomain p) (data_researchDomain d);
     readingStage := default (readingStage p) (data_readingStage d);
     citationCount := default (citationCount p) (data_citationCount d);
     impactScore := impactScore p; dateAdded := dateAdded p;
     isArchived := default (isArchived p) (data_isArchived d);
     userKeyId := userKeyId p |}.

(** *** The monad of the writing operations *)

Inductive Outcome (A : Type) :=
| Returns (a : A)
| Throws (message : string).
Arguments Returns {A} a.
Arguments Throws {A} message.

Definition M (A : Type) : Type := list Paper -> Outcome A * list Paper.

Definition ret {A} (a : A) : M A := fun db => (Returns a, db).

Definition throw {A} (message : string) : M A := fun db => (Throws message, db).

Definition bind {A B} (m : M A) (k : A -> M B) : M B :=
  fun db =>
    match m db with
    | (Returns a, db') => k a db'
    | (Throws message, db') => (Throws message, db')
    end.

Definition read {A} (f : list Paper -> A) : M A := fun db => (Returns (f db), db).

(** [prisma.paper.create({ data })]; [newId] is the identifier the store
    draws for the row (a uuid by the column's default). The store takes
    the row as it is; a store that refuses values its columns do not hold
    is [ConstrainedStore.create]. *)
Definition create (newId : string) (row : string -> Paper) : M Paper :=
  fun db => (Returns (row newId), db ++ [row newId]).

(** [prisma.paper.update({ where: { id }, data })]; the services call it
    on a row they have just found. *)
Definition update (paperId : string) (d : UpdateData) : M unit :=
  fun db =>
    (Returns tt,
     List.map (fun p => if bool_decide (id p = paperId) then applyUpdate d p else p) db).

End Store.

Notation "'await' x <- m ; k" := (Store.bind m (fun x => k))
  (at level 10, x name, m at level 100, k at level 200,
   format "'[v' 'await'  x  <-  m ; '/' k ']'").

(** ** services/paper.service.ts *)

Module PaperService.
Import Enums.

Record CreatePaperInput := {
  title : string;
  firstAuthor : string;
  researchDomain : ResearchDomain;
  readingStage : ReadingStage;
  citationCount : Z;
  impactScore : ImpactScore
}.

Record UpdatePaperInput := {
  update_researchDomain : option ResearchDomain;
  update_readingStage : option ReadingStage;
  update_citationCount : option Z
}.

(** [dateRange] is typed [DateRangeFilterType], but arrives as whatever
    string the query held: [getDateRangeStart] has a [default] case. *)
Record PaperFilters := {
  readingStages : option (list ReadingStage);
  researchDomains : option (list ResearchDomain);
  impactScores : option (list ImpactScore);
  dateRange : option string
}.

Record PaginationInput := {
  page : option JS.JSNum;
  pageSize : option JS.JSNum
}.

(** The projection [select] of a listed row. *)
Record PaperItem := {
  item_id : string;
  item_title : string;
  item_firstAuthor : string;
  item_researchDomain : ResearchDomain;
  item_readingStage : ReadingStage;
  item_citationCount : Z;
  item_impactScore : ImpactScore;
  item_dateAdded : Z
}.

Record Pagination := {
  pagination_page : JS.JSNum;
  pagination_pageSize : JS.JSNum;
  total : nat
}.

Record PapersPage := {
  items : list PaperItem;
  pagination : Pagination
}.

Definition select (p : Store.Paper) : PaperItem :=
  {| item_id := Store.id p; item_title := Store.title p;
     item_firstAuthor := Store.firstAuthor p;
     item_researchDomain := Store.researchDomain p;
     item_readingStage := Store.readingStage p;
     item_citationCount := Store.citationCount p;
     item_impactScore := Store.impactScore p;
     item_dateAdded := Store.dateAdded p |}.

Section Clock.
(** The offset of the server's time zone, in milliseconds. *)
Variable LocalTZA : Z.

(** [getDateRangeStart], with the reading [now] of the clock. *)
Definition getDateRangeStart (dateRange : string) (now : Z) : option Z :=
  if String.eqb dateRange "THIS_WEEK" then
    let startOfWeek := now in
    let dayOfWeek := JSDate.getDay LocalTZA startOfWeek in
    let diff := if dayOfWeek =? 0 then -6 else 1 - dayOfWeek in
    let startOfWeek :=
      JSDate.setDate LocalTZA startOfWeek (JSDate.getDate LocalTZA startOfWeek + diff) in
    let startOfWeek := JSDate.setHours LocalTZA startOfWeek 0 0 0 0 in
    Some startOfWeek
  else if String.eqb dateRange "THIS_MONTH" then
    let startOfMonth :=
      JSDate.newDate LocalTZA (JSDate.getFullYear LocalTZA now)
                     (JSDate.getMonth LocalTZA now) 1 in
    let startOfMonth := JSDate.setHours LocalTZA startOfMonth 0 0 0 0 in
    Some startOfMonth
  else if String.eqb dateRange "LAST_3_MONTHS" then
    let threeMonthsAgo := now in
    let threeMonthsAgo :=
      JSDate.setMonth LocalTZA threeMonthsAgo (JSDate.getMonth LocalTZA threeMonthsAgo - 3) in
    let threeMonthsAgo := JSDate.setHours LocalTZA threeMonthsAgo 0 0 0 0 in
    Some threeMonthsAgo
  else if String.eqb dateRange "ALL_TIME" then None
  else None.

(** The [where] clause [getPapers] builds (lines 207 to 241). *)
Definition getPapersWhere (userKeyId : string) (filters : PaperFilters)
    (now : Z) : Store.WhereInput :=
  let whereClause :=
    {| Store.where_title := None; Store.where_firstAuthor := None;
       Store.where_userKeyId := Some userKeyId;
       Store.where_isArchived := Some false;
       Store.where_readingStage_in := None;
       Store.where_researchDomain_in := None;
       Store.where_impactScore_in := None;
       Store.where_dateAdded_gte := None |} in
  let whereClause :=
    match readingStages filters with
    | Some l => if (0 <? length l)%nat then Store.set_readingStage_in l whereClause else whereClause
    | None => whereClause
    end in
  let whereClause :=
    match researchDomains filters with
    | Some l => if (0 <? length l)%nat then Store.set_researchDomain_in l whereClause else whereClause
    | None => whereClause
    end in
  let whereClause :=
    match impactScores filters with
    | Some l => if (0 <? length l)%nat then Store.set_impactScore_in l whereClause else whereClause
    | None => whereClause
    end in
  let whereClause :=
    match dateRange filters with
    | Some r =>
        if negb (String.eqb r "") then
          match getDateRangeStart r now with
          | Some startDate => Store.set_dateAdded_gte startDate whereClause
          | None => whereClause
          end
        else whereClause
    | None => whereClause
    end in
  whereClause.

(** [getPapers]: [None] where the page request leaves the store's
    modelled domain (see [Store.findManyPage]). *)
Definition getPapers (userKeyId : string) (filters : PaperFilters)
    (pagination : PaginationInput) (now : Z) (db : list Store.Paper)
    : option PapersPage :=
  let page := default (JS.Num 1) (page pagination) in
  let pageSize := default (JS.Num 10) (pageSize pagination) in
  let skip := JS.mul (JS.sub page (JS.Num 1)) pageSize in
  let whereClause := getPapersWhere userKeyId filters now in
  let total := Store.count whereClause db in
  papers ← Store.findManyPage whereClause skip pageSize db;
  Some {| items := List.map select papers;
          pagination := {| pagination_page := page;
                           pagination_pageSize := pageSize;
                           total := total |} |}.
End Clock.

(** [createPaper]: [now] is the clock at the insertion, [newId] the
    identifier the store draws. *)
Definition createPaper (userKeyId : string) (data : CreatePaperInput)
    (now : Z) (newId : string) : Store.M string :=
  await existingPaper <-
    Store.read (Store.findFirst
      {| Store.where_title := Some (title data);
         Store.where_firstAuthor := Some (firstAuthor data);
         Store.where_userKeyId := Some userKeyId;
         Store.where_isArchived := None;
         Store.where_readingStage_in := None;
         Store.where_researchDomain_in := None;
         Store.where_impactScore_in := None;
         Store.where_dateAdded_gte := None |});
  if existingPaper is Some _ then Store.throw "DUPLICATE_PAPER"
  else
    await paper <-
      Store.create newId (fun generated =>
        {| Store.id := generated;
           Store.title := title data;
           Store.firstAuthor := firstAuthor data;
           Store.researchDomain := researchDomain data;
           Store.readingStage := readingStage data;
           Store.citationCount := citationCount data;
           Store.impactScore := impactScore data;
           Store.dateAdded := now;
           Store.isArchived := false;
           Store.userKeyId := userKeyId |});
    Store.ret (Store.id paper).

Definition updatePaper (paperId userKeyId : string) (data : UpdatePaperInput)
    : Store.M unit :=
  await paper <- Store.read (Store.findUnique paperId);
  match paper with
  | None => Store.throw "NOT_FOUND"
  | Some paper =>
      if negb (String.eqb (Store.userKeyId paper) userKeyId)
      then Store.throw "NOT_FOUND"
      else
        Store.update paperId
          {| Store.data_researchDomain := update_researchDomain data;
             Store.data_readingStage := update_readingStage data;
             Store.data_citationCount := update_citationCount data;
             Store.data_isArchived := None |}
  end.

Definition archivePaper (paperId userKeyId : string) : Store.M unit :=
  await paper <- Store.read (Store.findUnique paperId);
  match paper with
  | None => Store.throw "NOT_FOUND"
  | Some paper =>
      if negb (String.eqb (Store.userKeyId paper) userKeyId)
      then Store.throw "NOT_FOUND"
      else
        Store.update paperId
          {| Store.data_researchDomain := None;
             Store.data_readingStage := None;
             Store.data_citationCount := None;
             Store.data_isArchived := Some true |}
  end.

End PaperService.

(** ** services/analytics.service.ts *)

Module AnalyticsService.
Import Enums.

Record AnalyticsFilters := {
  readingStages : option (list ReadingStage);
  researchDomains : option (list ResearchDomain);
  impactScores : option (list ImpactScore);
  dateRange : option string
}.

(** A fetched paper: the four columns of the [select]. *)
Record AnalyticsRow := {
  row_readingStage : ReadingStage;
  row_researchDomain : ResearchDomain;
  row_citationCount : Z;
  row_impactScore : ImpactScore
}.

Record FunnelData := {
  stage : ReadingStage;
  count : nat
}.

Record ScatterData := {
  citationCount : Z;
  impactScore : ImpactScore
}.

(** [stages] is an object keyed by the stage's string value: a finite map
    on the stages. *)
Record StackedBarData := {
  domain : ResearchDomain;
  stages : gmap ReadingStage nat
}.

(** The two quotients are kept as exact rationals; JavaScript returns the
    double nearest to them. *)
Record SummaryMetrics := {
  totalPapers : nat;
  fullyRead : nat;
  completionRate : Q;
  avgCitationsByDomain : gmap ResearchDomain Q
}.

Record AnalyticsResponse := {
  funnel : list FunnelData;
  scatter : list ScatterData;
  stackedBar : list StackedBarData;
  summary : SummaryMetrics
}.

Definition selectRow (p : Store.Paper) : AnalyticsRow :=
  {| row_readingStage := Store.readingStage p;
     row_researchDomain := Store.researchDomain p;
     row_citationCount := Store.citationCount p;
     row_impactScore := Store.impactScore p |}.

Definition allStages : list ReadingStage :=
  [ABSTRACT_READ; INTRODUCTION_DONE; METHODOLOGY_DONE;
   RESULTS_ANALYZED; FULLY_READ; NOTES_COMPLETED].

Definition allDomains : list ResearchDomain :=
  [COMPUTER_SCIENCE; BIOLOGY; PHYSICS; CHEMISTRY; MATHEMATICS; SOCIAL_SCIENCES].

Section Clock.
Variable LocalTZA : Z.

Definition getDateRangeStart (dateRange : string) (now : Z) : option Z :=
  if String.eqb dateRange "THIS_WEEK" then
    let startOfWeek := now in
    let dayOfWeek := JSDate.getDay LocalTZA startOfWeek in
    let diff := if dayOfWeek =? 0 then -6 else 1 - dayOfWeek in
    let startOfWeek :=
      JSDate.setDate LocalTZA startOfWeek (JSDate.getDate LocalTZA startOfWeek + diff) in
    let startOfWeek := JSDate.setHours LocalTZA startOfWeek 0 0 0 0 in
    Some startOfWeek
  else if String.eqb dateRange "THIS_MONTH" then
    let startOfMonth :=
      JSDate.newDate LocalTZA (JSDate.getFullYear LocalTZA now)
                     (JSDate.getMonth LocalTZA now) 1 in
    let startOfMonth := JSDate.setHours LocalTZA startOfMonth 0 0 0 0 in
    Some startOfMonth
  else if String.eqb dateRange "LAST_3_MONTHS" then
    let threeMonthsAgo := now in
    let threeMonthsAgo :=
      JSDate.setMonth LocalTZA threeMonthsAgo (JSDate.getMonth LocalTZA threeMonthsAgo - 3) in
    let threeMonthsAgo := JSDate.setHours LocalTZA threeMonthsAgo 0 0 0 0 in
    Some threeMonthsAgo
  else if String.eqb dateRange "ALL_TIME" then None
  else None.

Definition buildWhereClause (userKeyId : string) (filters : AnalyticsFilters)
    (now : Z) : Store.WhereInput :=
  let whereClause :=
    {| Store.where_title := None; Store.where_firstAuthor := None;
       Store.where_userKeyId := Some userKeyId;
       Store.where_isArchived := Some false;
       Store.where_readingStage_in := None;
       Store.where_researchDomain_in := None;
       Store.where_impactScore_in := None;
       Store.where_dateAdded_gte := None |} in
  let whereClause :=
    match readingStages filters with
    | Some l => if (0 <? length l)%nat then Store.set_readingStage_in l whereClause else whereClause
    | None => whereClause
    end in
  let whereClause :=
    match researchDomains filters with
    | Some l => if (0 <? length l)%nat then Store.set_researchDomain_in l whereClause else whereClause
    | None => whereClause
    end in
  let whereClause :=
    match impactScores filters with
    | Some l => if (0 <? length l)%nat then Store.set_impactScore_in l whereClause else whereClause
    | None => whereClause
    end in
  let whereClause :=
    match dateRange filters with
    | Some r =>
        if negb (String.eqb r "") then
          match getDateRangeStart r now with
          | Some startDate => Store.set_dateAdded_gte startDate whereClause
          | None => whereClause
          end
        else whereClause
    | None => whereClause
    end in
  whereClause.
End Clock.

(** [m.get(k) || 0] *)
Definition getOrZero `{Countable K} (m : gmap K nat) (k : K) : nat :=
  default 0%nat (m !! k).

Definition computeFunnelData (papers : list AnalyticsRow) : list FunnelData :=
  let stageCounts : gmap ReadingStage nat := ∅ in
  let stageCounts :=
    foldl (fun m stage => <[stage := 0%nat]> m) stageCounts allStages in
  let stageCounts :=
    foldl (fun m paper =>
             let currentCount := getOrZero m (row_readingStage paper) in
             <[row_readingStage paper := (currentCount + 1)%nat]> m)
          stageCounts papers in
  List.map (fun stage => {| stage := stage; count := getOrZero stageCounts stage |})
           allStages.

Definition computeScatterData (papers : list AnalyticsRow) : list ScatterData :=
  List.map (fun paper => {| citationCount := row_citationCount paper;
                            impactScore := row_impactScore paper |})
           papers.

Definition computeStackedBarData (papers : list AnalyticsRow) : list StackedBarData :=
  let domainStages : gmap ResearchDomain (gmap ReadingStage nat) := ∅ in
  let domainStages :=
    foldl (fun m domain => <[domain := ∅]> m) domainStages allDomains in
  let domainStages :=
    foldl (fun m paper =>
             match m !! row_researchDomain paper with
             | Some domainMap =>
                 let currentCount := getOrZero domainMap (row_readingStage paper) in
                 <[row_researchDomain paper :=
                     <[row_readingStage paper := (currentCount + 1)%nat]> domainMap]> m
             | None => m
             end)
          domainStages papers in
  List.map (fun domain =>
              let stageMap := default ∅ (domainStages !! domain) in
              let stages : gmap ReadingStage nat :=
                map_fold (fun stage count stages => <[stage := count]> stages)
                         ∅ stageMap in
              {| domain := domain; stages := stages |})
           allDomains.

Definition computeSummaryMetrics (papers : list AnalyticsRow) : SummaryMetrics :=
  let totalPapers := length papers in
  let fullyRead :=
    length (List.filter
              (fun paper => bool_decide (row_readingStage paper = FULLY_READ))
              papers) in
  let completionRate : Q :=
    if (0 <? totalPapers)%nat
    then (inject_Z (Z.of_nat fullyRead) / inject_Z (Z.of_nat totalPapers))%Q
    else 0%Q in
  let avgCitationsByDomain : gmap ResearchDomain Q := ∅ in
  let avgCitationsByDomain :=
    foldl (fun avg domain =>
             let domainPapers :=
               List.filter
                 (fun paper => bool_decide (row_researchDomain paper = domain))
                 papers in
             if (0 <? length domainPapers)%nat then
               let totalCitations :=
                 foldl (fun sum paper => sum + row_citationCount paper) 0 domainPapers in
               <[domain := (inject_Z totalCitations
                            / inject_Z (Z.of_nat (length domainPapers)))%Q]> avg
             else <[domain := 0%Q]> avg)
          avgCitationsByDomain allDomains in
  {| totalPapers := totalPapers; fullyRead := fullyRead;
     completionRate := completionRate;
     avgCitationsByDomain := avgCitationsByDomain |}.

(** The rows [getAnalytics] fetches: every row matching the clause. *)
Definition fetchPapers (LocalTZA : Z) (userKeyId : string)
    (filters : AnalyticsFilters) (now : Z) (db : list Store.Paper)
    : list AnalyticsRow :=
  let whereClause := buildWhereClause LocalTZA userKeyId filters now in
  List.map selectRow (Store.findMany whereClause db).

Definition getAnalytics (LocalTZA : Z) (userKeyId : string)
    (filters : AnalyticsFilters) (now : Z) (db : list Store.Paper)
    : AnalyticsResponse :=
  let papers := fetchPapers LocalTZA userKeyId filters now db in
  let funnel := computeFunnelData papers in
  let scatter := computeScatterData papers in
  let stackedBar := computeStackedBarData papers in
  let summary := computeSummaryMetrics papers in
  {| funnel := funnel; scatter := scatter;
     stackedBar := stackedBar; summary := summary |}.

End AnalyticsService.

(** ** controllers/paper.controller.ts, controllers/analytics.controller.ts *)

(** The envelope [sendResponse] writes; [data] is the created id or [null]
    for the lifecycle routes. *)
Record ApiResponse := {
  statusCode : Z;
  code : string;
  data : option string;
  message : string
}.

(** utils/response.ts *)
Definition sendResponse (statusCode : Z) (code : string) (data : option string)
    (message : string) : ApiResponse :=
  {| statusCode := statusCode; code := code; data := data; message := message |}.

(** middleware/errorHandler.ts, reached through [next(error)]. *)
Definition errorHandler (err : string) : ApiResponse :=
  sendResponse 500 "INTERNAL_ERROR" None "Unexpected server error".

(** The filter lists after the casts [as ReadingStage[]] and the like: the
    strings of the query, unchecked. *)
Record RawFilters := {
  raw_readingStages : option (list string);
  raw_researchDomains : option (list string);
  raw_impactScores : option (list string);
  raw_dateRange : option string
}.

(** [Array.isArray(v) ? v : [v]] then [filter(s => typeof s === "string")],
    under [if (v)]. *)
Definition parseList (v : option Query.QueryValue) : option (list string) :=
  match v with
  | Some q =>
      if Query.truthy v
      then Some (omap Query.asString (Query.toArray q))
      else None
  | None => None
  end.

(** [req.query.dateRange && typeof req.query.dateRange === "string"] *)
Definition parseDateRange (v : option Query.QueryValue) : option string :=
  match v with
  | Some (Query.QOne (Query.QStr s)) => if Query.truthy v then Some s else None
  | _ => None
  end.

(** [p && typeof p === "string" ? parseInt(p, 10) : dflt] *)
Definition parseNumber (p : option Query.QueryItem) (dflt : Z) : JS.JSNum :=
  match p with
  | Some (Query.QStr s) =>
      if Query.itemTruthy (Query.QStr s) then JS.parseInt10 s else JS.Num dflt
  | _ => JS.Num dflt
  end.

(** The envelope of the reading routes, [sendResponse<T>] with the result
    of the service as [data]. *)
Record FetchResponse (A : Type) := {
  fetch_statusCode : Z;
  fetch_code : string;
  fetch_data : option A;
  fetch_message : string
}.
Arguments fetch_statusCode {A} _.
Arguments fetch_code {A} _.
Arguments fetch_data {A} _.
Arguments fetch_message {A} _.

Definition sendResponseOf {A} (statusCode : Z) (code : string) (data : option A)
    (message : string) : FetchResponse A :=
  {| fetch_statusCode := statusCode; fetch_code := code;
     fetch_data := data; fetch_message := message |}.

(** middleware/errorHandler.ts, for a reading route. *)
Definition errorHandlerOf {A} (err : string) : FetchResponse A :=
  sendResponseOf 500 "INTERNAL_ERROR" None "Unexpected server error".

(** *** The enumerations at the store *)

(** Modelled from the spec: schema.prisma is not among the sources. The
    columns [readingStage], [researchDomain] and [impactScore] take the
    values of the fixed enumerations of the data model, which the store
    enforces; a where clause that names another string for one of them is
    refused by the client, a store-level failure. [readMember] gives the
    member of an enumeration that a string is the value of, if any. *)
Definition readMember {A} (label : A -> string) (members : list A) (s : string)
    : option A :=
  List.find (fun m => String.eqb (label m) s) members.

Definition asReadingStage : string -> option Enums.ReadingStage :=
  readMember Enums.stageLabel AnalyticsService.allStages.

Definition asResearchDomain : string -> option Enums.ResearchDomain :=
  readMember Enums.domainLabel AnalyticsService.allDomains.

Definition asImpactScore : string -> option Enums.ImpactScore :=
  readMember Enums.impactLabel
    [Enums.HIGH_IMPACT; Enums.MEDIUM_IMPACT; Enums.LOW_IMPACT; Enums.UNKNOWN].

(** A filter list as the store reads it in the clause; the outer [None]
    when one of its strings is refused. *)
Definition asMembers {A} (read : string -> option A) (l : option (list string))
    : option (option (list A)) :=
  match l with
  | None => Some None
  | Some strings => Some <$> mapM read strings
  end.

(** The name of the error the client raises for a clause it refuses; the
    handlers pass it on and [errorHandler] does not look at it. *)
Definition refusedQuery : string := "PrismaClientValidationError".

Module PaperController.

(** Lines 150 to 175 of [getPapers]. *)
Definition parseFilters (query : Query.ParsedQs) : RawFilters :=
  {| raw_readingStages := parseList (Query.readingStages query);
     raw_researchDomains := parseList (Query.domains query);
     raw_impactScores := parseList (Query.impactScores query);
     raw_dateRange := parseDateRange (Query.dateRange query) |}.

(** Lines 177 to 184 of [getPapers]. *)
Definition parsePagination (query : Query.ParsedQs) : PaperService.PaginationInput :=
  let pageParam := Query.firstOrSelf (Query.page query) in
  let pageSizeParam := Query.firstOrSelf (Query.pageSize query) in
  {| PaperService.page := Some (parseNumber pageParam 1);
     PaperService.pageSize := Some (parseNumber pageSizeParam 10) |}.

Definition createPaper (userKeyId : string) (body : PaperService.CreatePaperInput)
    (now : Z) (newId : string) (db : list Store.Paper)
    : ApiResponse * list Store.Paper :=
  match PaperService.createPaper userKeyId body now newId db with
  | (Store.Returns paperId, db') =>
      (sendResponse 201 "PAPER_CREATED" (Some paperId) "Paper created successfully", db')
  | (Store.Throws error, db') =>
      if String.eqb error "DUPLICATE_PAPER"
      then (sendResponse 409 "DUPLICATE_PAPER" None
              "A paper with the same title and author already exists", db')
      else (errorHandler error, db')
  end.

Definition updatePaper (userKeyId paperId : string)
    (body : PaperService.UpdatePaperInput) (db : list Store.Paper)
    : ApiResponse * list Store.Paper :=
  match PaperService.updatePaper paperId userKeyId body db with
  | (Store.Returns _, db') =>
      (sendResponse 200 "PAPER_UPDATED" None "Paper updated successfully", db')
  | (Store.Throws error, db') =>
      if String.eqb error "NOT_FOUND"
      then (sendResponse 404 "NOT_FOUND" None "Resource not found", db')
      else (errorHandler error, db')
  end.

Definition archivePaper (userKeyId paperId : string) (db : list Store.Paper)
    : ApiResponse * list Store.Paper :=
  match PaperService.archivePaper paperId userKeyId db with
  | (Store.Returns _, db') =>
      (sendResponse 200 "PAPER_ARCHIVED" None "Paper archived successfully", db')
  | (Store.Throws error, db') =>
      if String.eqb error "NOT_FOUND"
      then (sendResponse 404 "NOT_FOUND" None "Resource not found", db')
      else (errorHandler error, db')
  end.

(** The filters of the listing with their lists as the store reads them. *)
Definition castFilters (raw : RawFilters) : option PaperService.PaperFilters :=
  stages ← asMembers asReadingStage (raw_readingStages raw);
  domains ← asMembers asResearchDomain (raw_researchDomains raw);
  impacts ← asMembers asImpactScore (raw_impactScores raw);
  Some {| PaperService.readingStages := stages;
          PaperService.researchDomains := domains;
          PaperService.impactScores := impacts;
          PaperService.dateRange := raw_dateRange raw |}.

(** [getPapers], the handler of GET /papers. The casts [as ReadingStage[]]
    and the like check nothing, so the strings of the query reach the where
    clause of the service; [castFilters] is the store's reading of them
    there. A refused clause makes the service throw at its first query, and
    the handler hands the error to [errorHandler] by [next(error)]. [None]
    as for [PaperService.getPapers]. *)
Definition getPapers (LocalTZA : Z) (userKeyId : string) (query : Query.ParsedQs)
    (now : Z) (db : list Store.Paper)
    : option (FetchResponse PaperService.PapersPage) :=
  let filters := parseFilters query in
  let pagination := parsePagination query in
  match castFilters filters with
  | Some filters =>
      result ← PaperService.getPapers LocalTZA userKeyId filters pagination now db;
      Some (sendResponseOf 200 "PAPERS_FETCHED" (Some result)
              "Papers fetched successfully")
  | None => Some (errorHandlerOf refusedQuery)
  end.

End PaperController.

Module AnalyticsController.

(** Lines 27 to 52 of [getAnalytics]. *)
Definition parseFilters (query : Query.ParsedQs) : RawFilters :=
  {| raw_readingStages := parseList (Query.readingStages query);
     raw_researchDomains := parseList (Query.domains query);
     raw_impactScores := parseList (Query.impactScores query);
     raw_dateRange := parseDateRange (Query.dateRange query) |}.

(** The filters of the analytics with their lists as the store reads
    them. *)
Definition castFilters (raw : RawFilters) : option AnalyticsService.AnalyticsFilters :=
  stages ← asMembers asReadingStage (raw_readingStages raw);
  domains ← asMembers asResearchDomain (raw_researchDomains raw);
  impacts ← asMembers asImpactScore (raw_impactScores raw);
  Some {| AnalyticsService.readingStages := stages;
          AnalyticsService.researchDomains := domains;
          AnalyticsService.impactScores := impacts;
          AnalyticsService.dateRange := raw_dateRange raw |}.

(** [getAnalytics], the handler of GET /analytics; the strings of the
    query reach the where clause as in the listing. *)
Definition getAnalytics (LocalTZA : Z) (userKeyId : string) (query : Query.ParsedQs)
    (now : Z) (db : list Store.Paper)
    : FetchResponse AnalyticsService.AnalyticsResponse :=
  let filters := parseFilters query in
  match castFilters filters with
  | Some filters =>
      let result := AnalyticsService.getAnalytics LocalTZA userKeyId filters now db in
      sendResponseOf 200 "ANALYTICS_FETCHED" (Some result)
        "Analytics fetched successfully"
  | None => errorHandlerOf refusedQuery
  end.

End AnalyticsController.

(** ** The specification's own notions, for comparison with the code *)

Module Spec.
Import Enums.

(** An inclusion-set constraint: a slot that is present and non-empty
    requires the row's value to be a member; an absent or empty slot
    leaves the dimension unconstrained. *)
Definition inclusion `{EqDecision A} (slot : option (list A)) (x : A) : bool :=
  match slot with
  | Some (y :: l) => bool_decide (x ∈ y :: l)
  | _ => true
  end.

(** The lower bound on [dateAdded], when the window has one. *)
Definition since (lowerBound : option Z) (p : Store.Paper) : bool :=
  match lowerBound with
  | Some x => x <=? Store.dateAdded p
  | None => true
  end.

(** [scopedPredicate(ownerId, filterSpec)]: owner equality and
    [isArchived = false], then every present dimension. The filter
    specification is the three inclusion slots and the resolved lower
    bound of the time window. *)
Definition scopedPredicate (ownerId : string)
    (stages : option (list ReadingStage))
    (domains : option (list ResearchDomain))
    (impacts : option (list ImpactScore))
    (lowerBound : option Z) (p : Store.Paper) : bool :=
  bool_decide (Store.userKeyId p = ownerId)
  && negb (Store.isArchived p)
  && inclusion stages (Store.readingStage p)
  && inclusion domains (Store.researchDomain p)
  && inclusion impacts (Store.impactScore p)
  && since lowerBound p.

(** The time window of a filter: resolved when a range is given. *)
Definition window (LocalTZA : Z) (dateRange : option string) (now : Z) : option Z :=
  match dateRange with
  | Some r => PaperService.getDateRangeStart LocalTZA r now
  | None => None
  end.

(** Rows ordered by [dateAdded], latest first. *)
Definition sortedDesc (l : list Store.Paper) : Prop :=
  StronglySorted (fun p q => Store.dateAdded q <= Store.dateAdded p) l.

(** The [page]-th slice of size [pageSize], pages numbered from 1. *)
Definition slice {A} (page pageSize : nat) (l : list A) : list A :=
  List.firstn pageSize (List.skipn ((page - 1) * pageSize) l).

(** The most recent Monday at local midnight, seen from [now]: a local
    midnight, on a Monday, not after [now] and less than a week before. *)
Definition mostRecentMondayMidnight (LocalTZA now start : Z) : Prop :=
  JSDate.TimeWithinDay (JSDate.LocalTime LocalTZA start) = 0
  /\ JSDate.WeekDay (JSDate.LocalTime LocalTZA start) = 1
  /\ start <= now < start + 7 * JSDate.msPerDay.

(** How many days before today the week started: 6 on a Sunday (weekday
    index 0), the weekday index less one otherwise. *)
Definition daysSinceMonday (weekday : Z) : Z :=
  if weekday =? 0 then 6 else weekday - 1.

Definition count_if {A} (f : A -> bool) (l : list A) : nat :=
  length (List.filter f l).

(** The sum of the counts held by a stage mapping. *)
Definition mapTotal `{Countable K} (m : gmap K nat) : nat :=
  map_fold (fun _ c acc => (c + acc)%nat) 0%nat m.

Definition sumCitations (l : list AnalyticsService.AnalyticsRow) : Z :=
  foldr (fun r acc => AnalyticsService.row_citationCount r + acc) 0 l.




End Spec.

(** ** Notions used in the statements *)

Import Enums.

(** The symbolic ranges that resolve to a lower bound. *)
Definition boundedRanges : list string :=
  ["THIS_WEEK"; "THIS_MONTH"; "LAST_3_MONTHS"]%string.

(** The rows behind a page of the listing, and behind the analytics: rows
    of the table, owned by the caller and not archived. *)
Definition visibleRow (owner : string) (db : list Store.Paper) (p : Store.Paper) : Prop :=
  p ∈ db /\ Store.userKeyId p = owner /\ Store.isArchived p = false.

(** A table of three rows of one owner, the second archived. *)
Definition sampleRow (paperId : string) (added : Z) (archived : bool) : Store.Paper :=
  {| Store.id := paperId; Store.title := paperId; Store.firstAuthor := "A";
     Store.researchDomain := Enums.PHYSICS;
     Store.readingStage := Enums.FULLY_READ;
     Store.citationCount := 3; Store.impactScore := Enums.UNKNOWN;
     Store.dateAdded := added; Store.isArchived := archived;
     Store.userKeyId := "k1" |}.

Definition sampleTable : list Store.Paper :=
  [sampleRow "p1" 10 false; sampleRow "p2" 30 true; sampleRow "p3" 20 false].

Definition noFilters : PaperService.PaperFilters :=
  {| PaperService.readingStages := None; PaperService.researchDomains := None;
     PaperService.impactScores := None; PaperService.dateRange := None |}.

Definition atStage (s : ReadingStage) (r : AnalyticsService.AnalyticsRow) : bool :=
  bool_decide (AnalyticsService.row_readingStage r = s).

Definition inDomain (d : ResearchDomain) (r : AnalyticsService.AnalyticsRow) : bool :=
  bool_decide (AnalyticsService.row_researchDomain r = d).

(** The number of papers of domain [d] at stage [s]. *)
Definition cell (d : ResearchDomain) (s : ReadingStage)
    (papers : list AnalyticsService.AnalyticsRow) : nat :=
  Spec.count_if (fun r => inDomain d r && atStage s r) papers.

(** A sparse mapping: a stage is a key exactly when its count is not 0. *)
Definition sparse (n : nat) : option nat :=
  if (n =? 0)%nat then None else Some n.

(** One round of the counting loop of [computeStackedBarData]. *)
Definition countInto (m : gmap ResearchDomain (gmap ReadingStage nat))
    (paper : AnalyticsService.AnalyticsRow)
    : gmap ResearchDomain (gmap ReadingStage nat) :=
  match m !! AnalyticsService.row_researchDomain paper with
  | Some domainMap =>
      let currentCount :=
        AnalyticsService.getOrZero domainMap (AnalyticsService.row_readingStage paper) in
      <[AnalyticsService.row_researchDomain paper :=
          <[AnalyticsService.row_readingStage paper := (currentCount + 1)%nat]> domainMap]> m
  | None => m
  end.

(** Adding [n] occurrences to an entry that may be absent. *)
Definition bump (o : option nat) (n : nat) : option nat :=
  if (n =? 0)%nat then o else Some (default 0%nat o + n)%nat.

(** Pick the alternative of a disjunction that holds outright. *)
Ltac choose := solve [ done | left; choose | right; choose | split; choose ].

(** Decide the comparisons of enumeration members in the goal. *)
Ltac decide_members :=
  repeat match goal with
         | |- context [bool_decide ?P] =>
             let b := eval vm_compute in (bool_decide P) in
             change (bool_decide P) with b
         end;
  cbv iota.

(** The mean citation count of a list of rows, 0 for no rows. *)
Definition meanCitations (rows : list AnalyticsService.AnalyticsRow) : Q :=
  if (length rows =? 0)%nat then 0%Q
  else (inject_Z (Spec.sumCitations rows) / inject_Z (Z.of_nat (length rows)))%Q.

(** Does the table hold an entry of [owner] with this title and first
    author? The archived flag plays no part. *)
Definition entryTaken (owner title firstAuthor : string) (db : list Store.Paper) : bool :=
  existsb (fun p => bool_decide (Store.userKeyId p = owner)
                    && bool_decide (Store.title p = title)
                    && bool_decide (Store.firstAuthor p = firstAuthor)) db.

(** The row [createPaper] inserts. *)
Definition createdRow (owner : string) (data : PaperService.CreatePaperInput)
    (now : Z) (newId : string) : Store.Paper :=
  {| Store.id := newId;
     Store.title := PaperService.title data;
     Store.firstAuthor := PaperService.firstAuthor data;
     Store.researchDomain := PaperService.researchDomain data;
     Store.readingStage := PaperService.readingStage data;
     Store.citationCount := PaperService.citationCount data;
     Store.impactScore := PaperService.impactScore data;
     Store.dateAdded := now;
     Store.isArchived := false;
     Store.userKeyId := owner |}.

(** The failure both causes lead to, the table left as it was. *)
Definition notFound (db : list Store.Paper) : Store.Outcome unit * list Store.Paper :=
  (Store.Throws "NOT_FOUND", db).

Definition notFoundResponse (db : list Store.Paper) : ApiResponse * list Store.Paper :=
  (sendResponse 404 "NOT_FOUND" None "Resource not found", db).

(** The string a parameter holds, if it holds a non-empty one; for an
    array, its first element decides. *)
Definition stringParam (v : option Query.QueryValue) : option string :=
  match Query.firstOrSelf v with
  | Some (Query.QStr s) => if String.eqb s "" then None else Some s
  | _ => None
  end.

Definition emptyQuery : Query.ParsedQs :=
  {| Query.readingStages := None; Query.domains := None;
     Query.impactScores := None; Query.dateRange := None;
     Query.page := None; Query.pageSize := None |}.

(** [?pageSize=0] *)
Definition pageSizeZero : Query.ParsedQs :=
  {| Query.readingStages := None; Query.domains := None;
     Query.impactScores := None; Query.dateRange := None;
     Query.page := None;
     Query.pageSize := Some (Query.QOne (Query.QStr "0")) |}.

(** [?page=abc&pageSize=-5] *)
Definition pageNotNumeric : Query.ParsedQs :=
  {| Query.readingStages := None; Query.domains := None;
     Query.impactScores := None; Query.dateRange := None;
     Query.page := Some (Query.QOne (Query.QStr "abc"));
     Query.pageSize := Some (Query.QOne (Query.QStr "-5")) |}.





(** The same filter, handed to the analytics service. *)
Definition toAnalytics (f : PaperService.PaperFilters) : AnalyticsService.AnalyticsFilters :=
  {| AnalyticsService.readingStages := PaperService.readingStages f;
     AnalyticsService.researchDomains := PaperService.researchDomains f;
     AnalyticsService.impactScores := PaperService.impactScores f;
     AnalyticsService.dateRange := PaperService.dateRange f |}.

(** ** Notions used in the statements on the paper lifecycle *)

(** What identifies a paper for good: the columns no operation writes. *)
Definition identity (p : Store.Paper)
    : string * string * string * ImpactScore * Z * string :=
  (Store.id p, Store.title p, Store.firstAuthor p, Store.impactScore p,
   Store.dateAdded p, Store.userKeyId p).

(** The key of the duplicate check: owner, title and first author. *)
Definition entryKey (p : Store.Paper) : string * string * string :=
  (Store.userKeyId p, Store.title p, Store.firstAuthor p).

(** The row after [updatePaper] with [data]. *)
Definition updatedRow (data : PaperService.UpdatePaperInput) (p : Store.Paper) : Store.Paper :=
  Store.applyUpdate
    {| Store.data_researchDomain := PaperService.update_researchDomain data;
       Store.data_readingStage := PaperService.update_readingStage data;
       Store.data_citationCount := PaperService.update_citationCount data;
       Store.data_isArchived := None |} p.

(** The row after [archivePaper]. *)
Definition archivedRow (p : Store.Paper) : Store.Paper :=
  Store.applyUpdate
    {| Store.data_researchDomain := None; Store.data_readingStage := None;
       Store.data_citationCount := None; Store.data_isArchived := Some true |} p.

(** The three writing operations of the paper service. *)
Inductive Write :=
| Create (data : PaperService.CreatePaperInput) (now : Z) (newId : string)
| Update (paperId : string) (data : PaperService.UpdatePaperInput)
| Archive (paperId : string).

(** The table after a write by [owner], whatever its outcome. *)
Definition tableAfter (owner : string) (w : Write) (db : list Store.Paper)
    : list Store.Paper :=
  match w with
  | Create data now newId => snd (PaperService.createPaper owner data now newId db)
  | Update paperId data => snd (PaperService.updatePaper paperId owner data db)
  | Archive paperId => snd (PaperService.archivePaper paperId owner db)
  end.

(** The identifier a write draws from the store, if it draws one. *)
Definition drawnId (w : Write) : option string :=
  match w with
  | Create _ _ newId => Some newId
  | _ => None
  end.

(** A table of two owners:
    [sampleTable] with a row of a second owner. *)
Definition twoOwners : list Store.Paper :=
  sampleTable ++
  [ {| Store.id := "q1"; Store.title := "p1"; Store.firstAuthor := "A";
       Store.researchDomain := BIOLOGY; Store.readingStage := ABSTRACT_READ;
       Store.citationCount := 0; Store.impactScore := LOW_IMPACT;
       Store.dateAdded := 15; Store.isArchived := false;
       Store.userKeyId := "k2" |} ].

Definition sampleUpdate : PaperService.UpdatePaperInput :=
  {| PaperService.update_researchDomain := None;
     PaperService.update_readingStage := Some NOTES_COMPLETED;
     PaperService.update_citationCount := Some 7 |}.

Definition sampleCreate : PaperService.CreatePaperInput :=
  {| PaperService.title := "T"; PaperService.firstAuthor := "A";
     PaperService.researchDomain := PHYSICS;
     PaperService.readingStage := ABSTRACT_READ;
     PaperService.citationCount := 0; PaperService.impactScore := UNKNOWN |}.

(** ** Strings of the request handlers (ECMAScript [String.prototype]) *)

Module JSString.

(** [n.toString()] for a natural number up to [Number.MAX_SAFE_INTEGER]:
    its decimal numeral (from 10^21 on JavaScript writes an exponent). *)
Definition toString (n : nat) : string :=
  DecimalString.NilZero.string_of_uint (Nat.to_uint n).

Definition isEmpty (s : string) : bool :=
  match s with
  | EmptyString => true
  | String _ _ => false
  end.

(** [s.trimEnd()]: white space as for [parseInt], [JS.isWhiteSpace]. *)
Fixpoint trimEnd (s : string) : string :=
  match s with
  | EmptyString => EmptyString
  | String c r =>
      let r' := trimEnd r in
      if JS.isWhiteSpace c && isEmpty r' then EmptyString else String c r'
  end.

(** [s.trim()] *)
Definition trim (s : string) : string := trimEnd (JS.trimStart s).

(** The lower case of a code unit below 256: A to Z, and the letters from
    U+00C0 to U+00DE but for the sign U+00D7, move up by 32. *)
Definition lowerChar (c : ascii) : ascii :=
  let n := nat_of_ascii c in
  if ((65 <=? n) && (n <=? 90)
      || (192 <=? n) && (n <=? 222) && negb (n =? 215))%nat
  then ascii_of_nat (n + 32)
  else c.

(** [s.toLowerCase()] *)
Fixpoint toLowerCase (s : string) : string :=
  match s with
  | EmptyString => EmptyString
  | String c r => String (lowerChar c) (toLowerCase r)
  end.

Fixpoint chars (s : string) : list ascii :=
  match s with
  | EmptyString => []
  | String c r => c :: chars r
  end.

End JSString.

(** ** The e-mail pattern of the setup handler

    [/^[^\s@]+@[^\s@]+\.[^\s@]+$/]: the string is [a @ b . c] for three
    non-empty runs [a], [b], [c] of characters that are neither white space
    nor [@]. *)

Module EmailRegex.

(** [[^\s@]] *)
Definition plain (c : ascii) : bool :=
  negb (JS.isWhiteSpace c) && negb (Ascii.eqb c "@").

(** [[^\s@]+] *)
Definition run (l : list ascii) : bool :=
  negb (bool_decide (l = [])) && forallb plain l.

(** Does [l] split, with [@] at index [i] and the dot at index [j], into
    the three runs? *)
Definition splitsAt (l : list ascii) (i j : nat) : bool :=
  bool_decide (l !! i = Some "@"%char)
  && bool_decide (l !! j = Some "."%char)
  && (i <? j)%nat
  && run (take i l)
  && run (take (j - i - 1) (drop (i + 1) l))
  && run (drop (j + 1) l).

(** [emailRegex.test(s)]: some split matches. *)
Definition test (s : string) : bool :=
  let l := JSString.chars s in
  existsb (fun i => existsb (fun j => splitsAt l i j) (seq 0 (length l)))
          (seq 0 (length l)).

End EmailRegex.

(** ** middleware/rateLimiter.ts *)

Module RateLimiter.

Inductive RequestType :=
| read
| write.

Record RateLimitInfo := {
  count : Z;
  resetTime : Z
}.

Record UserRateLimits := {
  limits_read : RateLimitInfo;
  limits_write : RateLimitInfo
}.

Definition WINDOW_DURATION_MS : Z := 60 * 1000.

Definition getRequestType (method : string) : RequestType :=
  if String.eqb method "GET" then read else write.

(** [userLimits[requestType]] *)
Definition infoOf (userLimits : UserRateLimits) (requestType : RequestType)
    : RateLimitInfo :=
  match requestType with
  | read => limits_read userLimits
  | write => limits_write userLimits
  end.

(** A write through the reference [userLimits[requestType]]: the object
    lives in the store, which holds the change. *)
Definition putInfo (userKeyId : string) (requestType : RequestType)
    (info : RateLimitInfo) (store : gmap string UserRateLimits)
    : gmap string UserRateLimits :=
  match store !! userKeyId with
  | Some userLimits =>
      <[userKeyId :=
          match requestType with
          | read => {| limits_read := info; limits_write := limits_write userLimits |}
          | write => {| limits_read := limits_read userLimits; limits_write := info |}
          end]> store
  | None => store
  end.

(** [getRateLimitInfo]; [now0] and [now1] are the two readings of
    [Date.now()] taken when the entry is created. *)
Definition getRateLimitInfo (userKeyId : string) (requestType : RequestType)
    (now0 now1 : Z) (store : gmap string UserRateLimits)
    : gmap string UserRateLimits * RateLimitInfo :=
  match store !! userKeyId with
  | Some userLimits => (store, infoOf userLimits requestType)
  | None =>
      let userLimits :=
        {| limits_read := {| count := 0; resetTime := now0 + WINDOW_DURATION_MS |};
           limits_write := {| count := 0; resetTime := now1 + WINDOW_DURATION_MS |} |} in
      (<[userKeyId := userLimits]> store, infoOf userLimits requestType)
  end.

(** [resetIfExpired], with its reading [now] of the clock. *)
Definition resetIfExpired (info : RateLimitInfo) (now : Z) : RateLimitInfo :=
  if resetTime info <=? now
  then {| count := 0; resetTime := now + WINDOW_DURATION_MS |}
  else info.

Section Limits.
(** constants/rateLimits.ts is not among the sources: the two limits are
    parameters. *)
Variables READ_LIMIT WRITE_LIMIT : Z.

Definition getLimit (requestType : RequestType) : Z :=
  match requestType with
  | read => READ_LIMIT
  | write => WRITE_LIMIT
  end.

(** [rateLimiter]: [None] stands for [next()], a response for the
    rejection; [now2] is the reading of the clock in [resetIfExpired]. *)
Definition rateLimiter (method userKeyId : string) (now0 now1 now2 : Z)
    (store : gmap string UserRateLimits)
    : option ApiResponse * gmap string UserRateLimits :=
  let requestType := getRequestType method in
  let '(store, limitInfo) := getRateLimitInfo userKeyId requestType now0 now1 store in
  let limitInfo := resetIfExpired limitInfo now2 in
  let store := putInfo userKeyId requestType limitInfo store in
  let limit := getLimit requestType in
  if limit <=? count limitInfo
  then (Some (sendResponse 429 "RATE_LIMITED" None "Too many requests"), store)
  else (None,
        putInfo userKeyId requestType
          {| count := count limitInfo + 1; resetTime := resetTime limitInfo |} store).

(** A run of requests of one caller and method, one triple of clock
    readings each: the decisions in order, and the store at the end. *)
Fixpoint serve (method userKeyId : string) (readings : list (Z * Z * Z))
    (store : gmap string UserRateLimits)
    : list (option ApiResponse) * gmap string UserRateLimits :=
  match readings with
  | [] => ([], store)
  | (now0, now1, now2) :: rest =>
      let '(decision, store) := rateLimiter method userKeyId now0 now1 now2 store in
      let '(decisions, store) := serve method userKeyId rest store in
      (decision :: decisions, store)
  end.
End Limits.

End RateLimiter.

(** ** middleware/apiKeyAuth.ts, services/setup.service.ts and the setup
    handler of controllers/setup.controller.ts *)

Module Users.

(** A row of the [UserAccessKey] table, with the columns the code reads
    and writes. *)
Record UserAccessKey := {
  id : string;
  email : string;
  hashedKey : string
}.

(** [prisma.userAccessKey.findUnique({ where: { hashedKey } })] *)
Definition findByHashedKey (h : string) (users : list UserAccessKey)
    : option UserAccessKey :=
  List.find (fun u => bool_decide (hashedKey u = h)) users.

(** [prisma.userAccessKey.findUnique({ where: { email } })] *)
Definition findByEmail (e : string) (users : list UserAccessKey)
    : option UserAccessKey :=
  List.find (fun u => bool_decide (email u = e)) users.

(** The envelope of the setup route: [data] is [{ id, apiKey }] or null. *)
Record SetupResponse := {
  setup_statusCode : Z;
  setup_code : string;
  setup_data : option (string * string);
  setup_message : string
}.

(** The [email] property of the request body. *)
Inductive BodyValue :=
| BodyMissing
| BodyString (s : string)
| BodyOther.

Section Hash.
(** utils/hash.ts: SHA-256 in hexadecimal, taken as a function on
    strings. *)
Variable hashApiKey : string -> string.

(** [apiKeyAuth]: the response of a rejection, or the id put in
    [req.userKey] before [next()]. *)
Definition apiKeyAuth (header : option string) (users : list UserAccessKey)
    : ApiResponse + string :=
  match header with
  | None => inl (sendResponse 401 "INVALID_API_KEY" None "API key is required")
  | Some apiKey =>
      if String.eqb apiKey ""
      then inl (sendResponse 401 "INVALID_API_KEY" None "API key is required")
      else
        let hashedKey := hashApiKey apiKey in
        match findByHashedKey hashedKey users with
        | None => inl (sendResponse 401 "INVALID_API_KEY" None "API key is invalid")
        | Some userKey => inr (id userKey)
        end
  end.

(** [registerUser] of the service. [apiKey] is the key [generateApiKey]
    draws (a digest of the e-mail, the time and random bytes), [newId] the
    identifier the store draws. *)
Definition registerUser (email : string) (apiKey newId : string)
    (users : list UserAccessKey)
    : Store.Outcome (string * string) * list UserAccessKey :=
  match findByEmail email users with
  | Some _ => (Store.Throws "EMAIL_EXISTS", users)
  | None =>
      let hashedKey := hashApiKey apiKey in
      (Store.Returns (newId, apiKey),
       users ++ [{| id := newId; email := email; hashedKey := hashedKey |}])
  end.

(** The handler [registerUser] of the setup route. *)
Definition registerUserHandler (body : BodyValue) (apiKey newId : string)
    (users : list UserAccessKey) : SetupResponse * list UserAccessKey :=
  match body with
  | BodyString email =>
      if JSString.isEmpty email || (String.length (JSString.trim email) =? 0)%nat
      then ({| setup_statusCode := 400; setup_code := "VALIDATION_ERROR";
               setup_data := None; setup_message := "Email is required" |}, users)
      else if negb (EmailRegex.test (JSString.trim email))
      then ({| setup_statusCode := 400; setup_code := "VALIDATION_ERROR";
               setup_data := None; setup_message := "Invalid email format" |}, users)
      else
        match registerUser (JSString.toLowerCase (JSString.trim email))
                           apiKey newId users with
        | (Store.Returns (userId, key), users') =>
            ({| setup_statusCode := 201; setup_code := "USER_REGISTERED";
                setup_data := Some (userId, key);
                setup_message := "User registered successfully" |}, users')
        | (Store.Throws error, users') =>
            if String.eqb error "EMAIL_EXISTS"
            then ({| setup_statusCode := 409; setup_code := "EMAIL_EXISTS";
                     setup_data := None;
                     setup_message := "This email is already registered" |}, users')
            else ({| setup_statusCode := 500; setup_code := "INTERNAL_ERROR";
                     setup_data := None;
                     setup_message := "Unexpected server error" |}, users')
        end
  | _ =>
      ({| setup_statusCode := 400; setup_code := "VALIDATION_ERROR";
          setup_data := None; setup_message := "Email is required" |}, users)
  end.
End Hash.

End Users.

(** ** Notions used in the statements on the rate limiter *)

(** [userLimits] with the entry of [requestType] replaced. *)
Definition withInfo (userLimits : RateLimiter.UserRateLimits)
    (requestType : RateLimiter.RequestType) (info : RateLimiter.RateLimitInfo)
    : RateLimiter.UserRateLimits :=
  match requestType with
  | RateLimiter.read =>
      {| RateLimiter.limits_read := info;
         RateLimiter.limits_write := RateLimiter.limits_write userLimits |}
  | RateLimiter.write =>
      {| RateLimiter.limits_read := RateLimiter.limits_read userLimits;
         RateLimiter.limits_write := info |}
  end.

Definition otherType (requestType : RateLimiter.RequestType) : RateLimiter.RequestType :=
  match requestType with
  | RateLimiter.read => RateLimiter.write
  | RateLimiter.write => RateLimiter.read
  end.

(** The entry a first request creates. *)
Definition freshLimits (now0 now1 : Z) : RateLimiter.UserRateLimits :=
  {| RateLimiter.limits_read :=
       {| RateLimiter.count := 0;
          RateLimiter.resetTime := now0 + RateLimiter.WINDOW_DURATION_MS |};
     RateLimiter.limits_write :=
       {| RateLimiter.count := 0;
          RateLimiter.resetTime := now1 + RateLimiter.WINDOW_DURATION_MS |} |}.

Definition tooManyRequests : ApiResponse :=
  sendResponse 429 "RATE_LIMITED" None "Too many requests".

(** Every counter of the store lies between 0 and its limit. *)
Definition bounded (READ_LIMIT WRITE_LIMIT : Z)
    (store : gmap string RateLimiter.UserRateLimits) : Prop :=
  forall u l ty, store !! u = Some l ->
    0 <= RateLimiter.count (RateLimiter.infoOf l ty)
      <= Z.max 0 (RateLimiter.getLimit READ_LIMIT WRITE_LIMIT ty).

(** The three shapes of the table after a write: unchanged; one row
    appended by a creation that found the entry free; or the rows with the
    id of a paper of the owner rewritten in place. *)
Inductive TableChange (owner : string) (w : Write) (db : list Store.Paper)
    : list Store.Paper -> Prop :=
| Unchanged : TableChange owner w db db
| Appended data now newId :
    w = Create data now newId ->
    entryTaken owner (PaperService.title data) (PaperService.firstAuthor data) db = false ->
    TableChange owner w db (db ++ [createdRow owner data now newId])
| Rewritten paperId (g : Store.Paper -> Store.Paper) p :
    Store.findUnique paperId db = Some p ->
    Store.userKeyId p = owner ->
    (forall q, identity (g q) = identity q) ->
    (forall q, Store.isArchived q = true -> Store.isArchived (g q) = true) ->
    TableChange owner w db
      (List.map (fun q => if bool_decide (Store.id q = paperId) then g q else q) db).

(** A natural number up to [Number.MAX_SAFE_INTEGER], 2^53 - 1. *)
Definition safeInteger (n : nat) : Prop := Z.of_nat n <= 9007199254740991.

(** ** Notions used in the statements on the setup route *)

(** No character of [s] is white space. *)
Definition noWhiteSpace (s : string) : bool :=
  forallb (fun c => negb (JS.isWhiteSpace c)) (JSString.chars s).

(** The number of [@] in [s]. *)
Definition atSigns (s : string) : nat :=
  length (filter (fun c => c = "@"%char) (JSString.chars s)).

(** The e-mail the setup handler hands to the service. *)
Definition normalised (email : string) : string :=
  JSString.toLowerCase (JSString.trim email).

Definition emailRequired : Users.SetupResponse :=
  {| Users.setup_statusCode := 400; Users.setup_code := "VALIDATION_ERROR";
     Users.setup_data := None; Users.setup_message := "Email is required" |}.

Definition invalidFormat : Users.SetupResponse :=
  {| Users.setup_statusCode := 400; Users.setup_code := "VALIDATION_ERROR";
     Users.setup_data := None; Users.setup_message := "Invalid email format" |}.

Definition emailExists : Users.SetupResponse :=
  {| Users.setup_statusCode := 409; Users.setup_code := "EMAIL_EXISTS";
     Users.setup_data := None;
     Users.setup_message := "This email is already registered" |}.

Definition userRegistered (userId apiKey : string) : Users.SetupResponse :=
  {| Users.setup_statusCode := 201; Users.setup_code := "USER_REGISTERED";
     Users.setup_data := Some (userId, apiKey);
     Users.setup_message := "User registered successfully" |}.

(** A hash function for the examples: it marks the key. *)
Definition markKey (apiKey : string) : string := String "#" apiKey.

(** The handler of the route of a write, for the caller [owner]. *)
Definition respond (owner : string) (w : Write) (db : list Store.Paper)
    : ApiResponse * list Store.Paper :=
  match w with
  | Create data now newId => PaperController.createPaper owner data now newId db
  | Update paperId data => PaperController.updatePaper owner paperId data db
  | Archive paperId => PaperController.archivePaper owner paperId db
  end.


(** A store of two callers inside their windows, for limits of 3 reads and
    2 writes: the first has 2 reads and 1 write counted, the second has
    used up its reads. *)
Definition twoCallers : gmap string RateLimiter.UserRateLimits :=
  <["k1"%string :=
      {| RateLimiter.limits_read :=
           {| RateLimiter.count := 2; RateLimiter.resetTime := 100000 |};
         RateLimiter.limits_write :=
           {| RateLimiter.count := 1; RateLimiter.resetTime := 90000 |} |}]>
  (<["k2"%string :=
       {| RateLimiter.limits_read :=
            {| RateLimiter.count := 3; RateLimiter.resetTime := 80000 |};
          RateLimiter.limits_write :=
            {| RateLimiter.count := 0; RateLimiter.resetTime := 80000 |} |}]> ∅).

(** A table of one registered user, whose key is "key0". *)
Definition oneUser : list Users.UserAccessKey :=
  [ {| Users.id := "u0"; Users.email := "x@y.z";
       Users.hashedKey := markKey "key0" |} ].

(** ** Notions used in the statements on the filter parameters *)





(** ** The writing routes over a store that enforces its columns *)

Module ConstrainedStore.

(** Modelled from the spec: schema.prisma is not among the sources. The
    data model makes [citationCount] an integer and the store enforces the
    types of its columns, so a write can fail at the store: the store-level
    failure that the handlers answer with INTERNAL_ERROR. [refuses row] is
    the message of the error the store raises for a row it does not take,
    [None] for a row it takes. This is [prisma.paper.create({ data })]
    over such a store. *)
Definition create (refuses : Store.Paper -> option string) (newId : string)
    (row : string -> Store.Paper) : Store.M Store.Paper :=
  fun db =>
    match refuses (row newId) with
    | Some message => (Store.Throws message, db)
    | None => Store.create newId row db
    end.

(** Modelled from the spec: [prisma.paper.update({ where: { id }, data })]
    over a store that may refuse the rewritten row; the services call it on
    a row they have just found. *)
Definition update (refuses : Store.Paper -> option string) (paperId : string)
    (d : Store.UpdateData) : Store.M unit :=
  fun db =>
    match Store.findUnique paperId db with
    | Some p =>
        match refuses (Store.applyUpdate d p) with
        | Some message => (Store.Throws message, db)
        | None => Store.update paperId d db
        end
    | None => Store.update paperId d db
    end.

End ConstrainedStore.

(** services/paper.service.ts over that store. *)
Module ConstrainedService.

Definition createPaper (refuses : Store.Paper -> option string)
    (userKeyId : string) (data : PaperService.CreatePaperInput)
    (now : Z) (newId : string) : Store.M string :=
  await existingPaper <-
    Store.read (Store.findFirst
      {| Store.where_title := Some (PaperService.title data);
         Store.where_firstAuthor := Some (PaperService.firstAuthor data);
         Store.where_userKeyId := Some userKeyId;
         Store.where_isArchived := None;
         Store.where_readingStage_in := None;
         Store.where_researchDomain_in := None;
         Store.where_impactScore_in := None;
         Store.where_dateAdded_gte := None |});
  if existingPaper is Some _ then Store.throw "DUPLICATE_PAPER"
  else
    await paper <-
      ConstrainedStore.create refuses newId (fun generated =>
        {| Store.id := generated;
           Store.title := PaperService.title data;
           Store.firstAuthor := PaperService.firstAuthor data;
           Store.researchDomain := PaperService.researchDomain data;
           Store.readingStage := PaperService.readingStage data;
           Store.citationCount := PaperService.citationCount data;
           Store.impactScore := PaperService.impactScore data;
           Store.dateAdded := now;
           Store.isArchived := false;
           Store.userKeyId := userKeyId |});
    Store.ret (Store.id paper).

Definition updatePaper (refuses : Store.Paper -> option string)
    (paperId userKeyId : string) (data : PaperService.UpdatePaperInput)
    : Store.M unit :=
  await paper <- Store.read (Store.findUnique paperId);
  match paper with
  | None => Store.throw "NOT_FOUND"
  | Some paper =>
      if negb (String.eqb (Store.userKeyId paper) userKeyId)
      then Store.throw "NOT_FOUND"
      else
        ConstrainedStore.update refuses paperId
          {| Store.data_researchDomain := PaperService.update_researchDomain data;
             Store.data_readingStage := PaperService.update_readingStage data;
             Store.data_citationCount := PaperService.update_citationCount data;
             Store.data_isArchived := None |}
  end.

Definition archivePaper (refuses : Store.Paper -> option string)
    (paperId userKeyId : string) : Store.M unit :=
  await paper <- Store.read (Store.findUnique paperId);
  match paper with
  | None => Store.throw "NOT_FOUND"
  | Some paper =>
      if negb (String.eqb (Store.userKeyId paper) userKeyId)
      then Store.throw "NOT_FOUND"
      else
        ConstrainedStore.update refuses paperId
          {| Store.data_researchDomain := None;
             Store.data_readingStage := None;
             Store.data_citationCount := None;
             Store.data_isArchived := Some true |}
  end.

End ConstrainedService.

(** The handlers of the writing routes over that store. *)
Module ConstrainedController.

Definition createPaper (refuses : Store.Paper -> option string)
    (userKeyId : string) (body : PaperService.CreatePaperInput)
    (now : Z) (newId : string) (db : list Store.Paper)
    : ApiResponse * list Store.Paper :=
  match ConstrainedService.createPaper refuses userKeyId body now newId db with
  | (Store.Returns paperId, db') =>
      (sendResponse 201 "PAPER_CREATED" (Some paperId) "Paper created successfully", db')
  | (Store.Throws error, db') =>
      if String.eqb error "DUPLICATE_PAPER"
      then (sendResponse 409 "DUPLICATE_PAPER" None
              "A paper with the same title and author already exists", db')
      else (errorHandler error, db')
  end.

Definition updatePaper (refuses : Store.Paper -> option string)
    (userKeyId paperId : string) (body : PaperService.UpdatePaperInput)
    (db : list Store.Paper) : ApiResponse * list Store.Paper :=
  match ConstrainedService.updatePaper refuses paperId userKeyId body db with
  | (Store.Returns _, db') =>
      (sendResponse 200 "PAPER_UPDATED" None "Paper updated successfully", db')
  | (Store.Throws error, db') =>
      if String.eqb error "NOT_FOUND"
      then (sendResponse 404 "NOT_FOUND" None "Resource not found", db')
      else (errorHandler error, db')
  end.

Definition archivePaper (refuses : Store.Paper -> option string)
    (userKeyId paperId : string) (db : list Store.Paper)
    : ApiResponse * list Store.Paper :=
  match ConstrainedService.archivePaper refuses paperId userKeyId db with
  | (Store.Returns _, db') =>
      (sendResponse 200 "PAPER_ARCHIVED" None "Paper archived successfully", db')
  | (Store.Throws error, db') =>
      if String.eqb error "NOT_FOUND"
      then (sendResponse 404 "NOT_FOUND" None "Resource not found", db')
      else (errorHandler error, db')
  end.

End ConstrainedController.

(** The handler of the route of a write over that store. *)
Definition respondUnder (refuses : Store.Paper -> option string) (owner : string)
    (w : Write) (db : list Store.Paper) : ApiResponse * list Store.Paper :=
  match w with
  | Create data now newId =>
      ConstrainedController.createPaper refuses owner data now newId db
  | Update paperId data =>
      ConstrainedController.updatePaper refuses owner paperId data db
  | Archive paperId => ConstrainedController.archivePaper refuses owner paperId db
  end.

(** The row a write puts into the table once the checks of the service
    have passed: the created row when the entry is free, the rewritten row
    of a paper of the owner. *)
Definition attempted (owner : string) (w : Write) (db : list Store.Paper)
    : option Store.Paper :=
  match w with
  | Create data now newId =>
      if entryTaken owner (PaperService.title data) (PaperService.firstAuthor data) db
      then None
      else Some (createdRow owner data now newId)
  | Update paperId data =>
      p ← Store.findUnique paperId db;
      if bool_decide (Store.userKeyId p = owner) then Some (updatedRow data p) else None
  | Archive paperId =>
      p ← Store.findUnique paperId db;
      if bool_decide (Store.userKeyId p = owner) then Some (archivedRow p) else None
  end.

(** The messages of the store are not the codes of the services. *)
Definition foreignMessages (refuses : Store.Paper -> option string) : Prop :=
  forall row message,
    refuses row = Some message ->
    message <> "DUPLICATE_PAPER"%string /\ message <> "NOT_FOUND"%string.

(** A store whose [citationCount] column holds 32-bit integers. *)
Definition intColumn (row : Store.Paper) : option string :=
  if (-2147483648 <=? Store.citationCount row) && (Store.citationCount row <=? 2147483647)
  then None
  else Some "Unable to fit integer value into an INT4"%string.

(** A creation with a citation count of 2^31. *)
Definition largeCreate : PaperService.CreatePaperInput :=
  {| PaperService.title := "T"; PaperService.firstAuthor := "A";
     PaperService.researchDomain := PHYSICS;
     PaperService.readingStage := ABSTRACT_READ;
     PaperService.citationCount := 2147483648;
     PaperService.impactScore := UNKNOWN |}.

(** * Properties *)

(** ** Calendar arithmetic *)

Section DateFacts.
Import JSDate.

Lemma DayFromYear_step y : DayFromYear (y + 1) = DayFromYear y + DaysInYear y.
Proof.
  unfold DayFromYear, DaysInYear.
  repeat match goal with
         | |- context [?a mod ?b =? 0] => destruct (Z.eqb_spec (a mod b) 0)
         end; simpl negb; cbv iota;
    Z.div_mod_to_equations; lia.
Qed.

Lemma DaysInYear_range y : 365 <= DaysInYear y <= 366.
Proof.
  unfold DaysInYear.
  repeat match goal with
         | |- context [?a mod ?b =? 0] => destruct (Z.eqb_spec (a mod b) 0)
         end; simpl; lia.
Qed.

(** [YearFromTime] returns the year whose days contain the day of [t]. *)
Lemma YearFromTime_spec t :
  DayFromYear (YearFromTime t) <= Day t < DayFromYear (YearFromTime t + 1).
Proof.
  unfold YearFromTime.
  set (d := Day t). set (y := 1970 + 400 * d / 146097).
  assert (Hy : 146097 * (y - 1970) <= 400 * d < 146097 * (y - 1969)).
  { subst y. Z.div_mod_to_equations. lia. }
  clearbody y d.
  destruct (Z.ltb_spec d (DayFromYear y)) as [H1|H1].
  - replace (y - 1 + 1) with y by lia. split; [|lia].
    unfold DayFromYear in *. Z.div_mod_to_equations. lia.
  - destruct (Z.leb_spec (DayFromYear (y + 1)) d) as [H2|H2]; [|lia].
    split; [lia|].
    unfold DayFromYear in *. Z.div_mod_to_equations. lia.
Qed.

Lemma DayWithinYear_range t :
  0 <= DayWithinYear t < DaysInYear (YearFromTime t).
Proof.
  unfold DayWithinYear.
  pose proof (YearFromTime_spec t) as H.
  rewrite DayFromYear_step in H. lia.
Qed.

Lemma MonthFromTime_range t : 0 <= MonthFromTime t <= 11.
Proof.
  unfold MonthFromTime.
  repeat match goal with
         | |- context [?a <? ?b] => destruct (Z.ltb_spec a b)
         end; lia.
Qed.

(** Rebuilding the day from the fields of [t], the date shifted by [k]. *)
Lemma MakeDay_fields t k :
  MakeDay (YearFromTime t) (MonthFromTime t) (DateFromTime t + k) = Day t + k.
Proof.
  pose proof (MonthFromTime_range t) as Hm.
  unfold MakeDay, DateFromTime, DayWithinYear, InLeapYear.
  replace (MonthFromTime t / 12) with 0 by (Z.div_mod_to_equations; lia).
  replace (MonthFromTime t mod 12) with (MonthFromTime t)
    by (Z.div_mod_to_equations; lia).
  rewrite Z.add_0_r. lia.
Qed.

Variable LocalTZA : Z.

(** [d.setDate(d.getDate() + k)] moves the time value by [k] days. *)
Lemma setDate_getDate tv k :
  setDate LocalTZA tv (getDate LocalTZA tv + k) = tv + k * msPerDay.
Proof.
  unfold setDate, getDate, UTC, MakeDate.
  rewrite MakeDay_fields.
  unfold Day, TimeWithinDay, LocalTime, msPerDay.
  Z.div_mod_to_equations. lia.
Qed.

(** [d.setHours(0, 0, 0, 0)] is the local midnight of the day of [d]. *)
Lemma setHours_midnight tv :
  LocalTime LocalTZA (setHours LocalTZA tv 0 0 0 0)
  = Day (LocalTime LocalTZA tv) * msPerDay.
Proof.
  unfold setHours, UTC, LocalTime, MakeDate, MakeTime. lia.
Qed.

Lemma WeekDay_range t : 0 <= WeekDay t <= 6.
Proof. unfold WeekDay. Z.div_mod_to_equations. lia. Qed.

End DateFacts.

(** ** Time windows *)

Lemma getDateRangeStart_agree LocalTZA r now :
  AnalyticsService.getDateRangeStart LocalTZA r now
  = PaperService.getDateRangeStart LocalTZA r now.
Proof. reflexivity. Qed.

Lemma getDateRangeStart_this_week LocalTZA now :
  PaperService.getDateRangeStart LocalTZA "THIS_WEEK" now
  = Some ((JSDate.Day (JSDate.LocalTime LocalTZA now)
           - Spec.daysSinceMonday (JSDate.getDay LocalTZA now)) * JSDate.msPerDay
          - LocalTZA).
Proof.
  unfold PaperService.getDateRangeStart. simpl String.eqb. cbv iota.
  f_equal.
  rewrite setDate_getDate.
  pose proof (setHours_midnight LocalTZA
                (now + (if JSDate.getDay LocalTZA now =? 0 then -6
                        else 1 - JSDate.getDay LocalTZA now) * JSDate.msPerDay)) as H.
  unfold JSDate.LocalTime in H at 1.
  unfold Spec.daysSinceMonday.
  assert (Hd : forall k, JSDate.Day (JSDate.LocalTime LocalTZA (now + k * JSDate.msPerDay))
                         = JSDate.Day (JSDate.LocalTime LocalTZA now) + k).
  { intros k. unfold JSDate.Day, JSDate.LocalTime, JSDate.msPerDay.
    Z.div_mod_to_equations. lia. }
  rewrite Hd in H.
  destruct (JSDate.getDay LocalTZA now =? 0); lia.
Qed.

Lemma getDateRangeStart_bounded LocalTZA r now :
  bool_decide (is_Some (PaperService.getDateRangeStart LocalTZA r now))
  = bool_decide (r ∈ boundedRanges).
Proof.
  unfold PaperService.getDateRangeStart, boundedRanges.
  destruct (String.eqb_spec r "THIS_WEEK") as [->|H1]; [done|].
  destruct (String.eqb_spec r "THIS_MONTH") as [->|H2]; [done|].
  destruct (String.eqb_spec r "LAST_3_MONTHS") as [->|H3]; [done|].
  assert (Hn : r ∉ ["THIS_WEEK"; "THIS_MONTH"; "LAST_3_MONTHS"]%string).
  { rewrite !elem_of_cons, elem_of_nil. tauto. }
  rewrite (bool_decide_eq_false_2 _ Hn).
  apply bool_decide_eq_false_2.
  destruct (String.eqb r "ALL_TIME"); by intros [? ?].
Qed.

Lemma getPapersWhere_dateAdded LocalTZA owner f now :
  Store.where_dateAdded_gte (PaperService.getPapersWhere LocalTZA owner f now)
  = Spec.window LocalTZA (PaperService.dateRange f) now.
Proof.
  unfold PaperService.getPapersWhere, Spec.window.
  destruct f as [rs ds ims dr]; simpl.
  destruct dr as [r|].
  - destruct (String.eqb_spec r "") as [->|Hr]; simpl.
    + by destruct rs as [[|]|], ds as [[|]|], ims as [[|]|].
    + destruct (PaperService.getDateRangeStart LocalTZA r now);
        by destruct rs as [[|]|], ds as [[|]|], ims as [[|]|].
  - by destruct rs as [[|]|], ds as [[|]|], ims as [[|]|].
Qed.

Lemma buildWhereClause_dateAdded LocalTZA owner f now :
  Store.where_dateAdded_gte (AnalyticsService.buildWhereClause LocalTZA owner f now)
  = Spec.window LocalTZA (AnalyticsService.dateRange f) now.
Proof.
  unfold AnalyticsService.buildWhereClause, Spec.window.
  destruct f as [rs ds ims dr]; simpl.
  destruct dr as [r|].
  - destruct (String.eqb_spec r "") as [->|Hr]; simpl.
    + by destruct rs as [[|]|], ds as [[|]|], ims as [[|]|].
    + change (AnalyticsService.getDateRangeStart LocalTZA r now)
        with (PaperService.getDateRangeStart LocalTZA r now).
      destruct (PaperService.getDateRangeStart LocalTZA r now);
        by destruct rs as [[|]|], ds as [[|]|], ims as [[|]|].
  - by destruct rs as [[|]|], ds as [[|]|], ims as [[|]|].
Qed.

(** The two services build the same clause from the same filter. *)
Lemma where_clauses_agree LocalTZA owner f now :
  AnalyticsService.buildWhereClause LocalTZA owner (toAnalytics f) now
  = PaperService.getPapersWhere LocalTZA owner f now.
Proof. reflexivity. Qed.

(** C8: for every clock reading and in both services, THIS_WEEK resolves to
    the most recent Monday at local midnight, 6 days before today on a
    Sunday and (weekday index - 1) days before today otherwise; ALL_TIME
    and every unrecognized range resolve to no lower bound (a range has a
    bound exactly when it is THIS_WEEK, THIS_MONTH or LAST_3_MONTHS), and
    the [dateAdded] condition of the built clause is the resolved bound,
    absent when there is none. *)
Theorem this_week_is_latest_monday (LocalTZA now : Z) :
  (exists start,
      PaperService.getDateRangeStart LocalTZA "THIS_WEEK" now = Some start
      /\ AnalyticsService.getDateRangeStart LocalTZA "THIS_WEEK" now = Some start
      /\ Spec.mostRecentMondayMidnight LocalTZA now start
      /\ JSDate.Day (JSDate.LocalTime LocalTZA start)
         = JSDate.Day (JSDate.LocalTime LocalTZA now)
           - Spec.daysSinceMonday (JSDate.getDay LocalTZA now))
  /\ PaperService.getDateRangeStart LocalTZA "ALL_TIME" now = None
  /\ AnalyticsService.getDateRangeStart LocalTZA "ALL_TIME" now = None
  /\ (forall r,
        bool_decide (is_Some (PaperService.getDateRangeStart LocalTZA r now))
        = bool_decide (r ∈ boundedRanges)
        /\ bool_decide (is_Some (AnalyticsService.getDateRangeStart LocalTZA r now))
           = bool_decide (r ∈ boundedRanges))
  /\ (forall owner f,
        Store.where_dateAdded_gte (PaperService.getPapersWhere LocalTZA owner f now)
        = Spec.window LocalTZA (PaperService.dateRange f) now)
  /\ (forall owner f,
        Store.where_dateAdded_gte (AnalyticsService.buildWhereClause LocalTZA owner f now)
        = Spec.window LocalTZA (AnalyticsService.dateRange f) now).
Proof.
  split; [|repeat split].
  - eexists.
    split; [apply getDateRangeStart_this_week|].
    split; [apply (getDateRangeStart_this_week LocalTZA now)|].
    pose proof (WeekDay_range (JSDate.LocalTime LocalTZA now)) as Hw.
    unfold Spec.mostRecentMondayMidnight, Spec.daysSinceMonday, JSDate.getDay.
    unfold JSDate.WeekDay in *.
    set (D := JSDate.Day (JSDate.LocalTime LocalTZA now)) in *.
    assert (HD : D * JSDate.msPerDay <= now + LocalTZA < (D + 1) * JSDate.msPerDay).
    { subst D. unfold JSDate.Day, JSDate.LocalTime, JSDate.msPerDay.
      Z.div_mod_to_equations. lia. }
    clearbody D.
    unfold JSDate.TimeWithinDay, JSDate.Day, JSDate.LocalTime, JSDate.msPerDay in *.
    destruct (Z.eqb_spec ((D + 4) mod 7) 0) as [H0|H0];
      repeat split; Z.div_mod_to_equations; lia.
  - apply getDateRangeStart_bounded.
  - apply (getDateRangeStart_bounded LocalTZA).
  - intros. apply getPapersWhere_dateAdded.
  - intros. apply buildWhereClause_dateAdded.
Qed.

(** ** The scoped predicate *)

(** The clause of the listing denotes the specification's predicate. *)
Lemma getPapersWhere_scoped LocalTZA owner f now p :
  Store.matches (PaperService.getPapersWhere LocalTZA owner f now) p
  = Spec.scopedPredicate owner (PaperService.readingStages f)
      (PaperService.researchDomains f) (PaperService.impactScores f)
      (Spec.window LocalTZA (PaperService.dateRange f) now) p.
Proof.
  unfold Store.matches. rewrite getPapersWhere_dateAdded.
  unfold Spec.scopedPredicate, Spec.since, Store.holds at 8.
  destruct (Spec.window _ _ _) as [x|];
    destruct f as [[[|s rs]|] [[|d ds]|] [[|i ims]|] [r|]];
    unfold PaperService.getPapersWhere; simpl;
    repeat match goal with
           | |- context [if ?b then _ else _] => destruct b
           | |- context [match ?o with Some _ => _ | None => _ end] => destruct o
           end; simpl;
    by destruct (Store.isArchived p).
Qed.

(** So does the clause of the analytics query. *)
Lemma buildWhereClause_scoped LocalTZA owner f now p :
  Store.matches (AnalyticsService.buildWhereClause LocalTZA owner f now) p
  = Spec.scopedPredicate owner (AnalyticsService.readingStages f)
      (AnalyticsService.researchDomains f) (AnalyticsService.impactScores f)
      (Spec.window LocalTZA (AnalyticsService.dateRange f) now) p.
Proof.
  unfold Store.matches. rewrite buildWhereClause_dateAdded.
  unfold Spec.scopedPredicate, Spec.since, Store.holds at 8.
  destruct (Spec.window _ _ _) as [x|];
    destruct f as [[[|s rs]|] [[|d ds]|] [[|i ims]|] [r|]];
    unfold AnalyticsService.buildWhereClause; simpl;
    repeat match goal with
           | |- context [if ?b then _ else _] => destruct b
           | |- context [match ?o with Some _ => _ | None => _ end] => destruct o
           end; simpl;
    by destruct (Store.isArchived p).
Qed.

Lemma scopedPredicate_owner_live owner st dm im lb p :
  Spec.scopedPredicate owner st dm im lb p = true ->
  Store.userKeyId p = owner /\ Store.isArchived p = false.
Proof.
  unfold Spec.scopedPredicate.
  rewrite !andb_true_iff, bool_decide_eq_true, negb_true_iff. tauto.
Qed.

Lemma filter_Forall {A} (f : A -> bool) (l : list A) :
  Forall (fun x => x ∈ l /\ f x = true) (List.filter f l).
Proof.
  apply Forall_forall. intros x Hx.
  apply filter_In in Hx as [Hx Hf].
  split; [by rewrite list_elem_of_In|done].
Qed.

Lemma Forall_firstn_skipn {A} (P : A -> Prop) n k (l : list A) :
  Forall P l -> Forall P (List.firstn n (List.skipn k l)).
Proof. intros H. by apply Forall_take, Forall_drop. Qed.

(** C1: for every owner and every filter, the clause of the listing and the
    clause of the analytics query both carry the owner equality and
    [isArchived = false]; no row that is archived satisfies either clause,
    whatever the filter, and every row either operation returns is a row of
    the owner that is not archived. *)
Theorem archived_never_in_scope (LocalTZA : Z) (owner : string) (now : Z) :
  (forall f,
      let w := PaperService.getPapersWhere LocalTZA owner f now in
      Store.where_userKeyId w = Some owner
      /\ Store.where_isArchived w = Some false
      /\ forall p, Store.matches w p && Store.isArchived p = false)
  /\ (forall f,
        let w := AnalyticsService.buildWhereClause LocalTZA owner f now in
        Store.where_userKeyId w = Some owner
        /\ Store.where_isArchived w = Some false
        /\ forall p, Store.matches w p && Store.isArchived p = false)
  /\ (forall f pagination db,
        match PaperService.getPapers LocalTZA owner f pagination now db with
        | Some r => exists rows,
            PaperService.items r = List.map PaperService.select rows
            /\ Forall (visibleRow owner db) rows
        | None => True
        end)
  /\ (forall f db, exists rows,
        AnalyticsService.fetchPapers LocalTZA owner f now db
        = List.map AnalyticsService.selectRow rows
        /\ Forall (visibleRow owner db) rows).
Proof.
  assert (Hscope : forall st dm im lb p,
             Spec.scopedPredicate owner st dm im lb p && Store.isArchived p = false).
  { intros. destruct (Spec.scopedPredicate _ _ _ _ _ p) eqn:E; [|done].
    apply scopedPredicate_owner_live in E as [_ ->]. done. }
  split; [|split; [|split]].
  - intros f w. subst w. repeat split.
    + by destruct f as [[[|]|] [[|]|] [[|]|] [r|]];
        unfold PaperService.getPapersWhere; simpl;
        repeat match goal with
               | |- context [if ?b then _ else _] => destruct b
               | |- context [match ?o with Some _ => _ | None => _ end] => destruct o
               end.
    + by destruct f as [[[|]|] [[|]|] [[|]|] [r|]];
        unfold PaperService.getPapersWhere; simpl;
        repeat match goal with
               | |- context [if ?b then _ else _] => destruct b
               | |- context [match ?o with Some _ => _ | None => _ end] => destruct o
               end.
    + intros p. rewrite getPapersWhere_scoped. apply Hscope.
  - intros f w. subst w. repeat split.
    + by destruct f as [[[|]|] [[|]|] [[|]|] [r|]];
        unfold AnalyticsService.buildWhereClause; simpl;
        repeat match goal with
               | |- context [if ?b then _ else _] => destruct b
               | |- context [match ?o with Some _ => _ | None => _ end] => destruct o
               end.
    + by destruct f as [[[|]|] [[|]|] [[|]|] [r|]];
        unfold AnalyticsService.buildWhereClause; simpl;
        repeat match goal with
               | |- context [if ?b then _ else _] => destruct b
               | |- context [match ?o with Some _ => _ | None => _ end] => destruct o
               end.
    + intros p. rewrite buildWhereClause_scoped. apply Hscope.
  - intros f pagination db.
    unfold PaperService.getPapers, Store.findManyPage.
    destruct (Store.asIndex (JS.mul _ _)) as [s|]; simpl; [|done].
    destruct (Store.asIndex _) as [t|]; simpl; [|done].
    eexists. split; [reflexivity|].
    apply Forall_firstn_skipn.
    unfold Store.orderByDateAddedDesc.
    rewrite merge_sort_Permutation.
    eapply Forall_impl; [|apply filter_Forall].
    intros p [Hin Hm]. rewrite getPapersWhere_scoped in Hm.
    apply scopedPredicate_owner_live in Hm. by split.
  - intros f db. unfold AnalyticsService.fetchPapers, Store.findMany.
    eexists. split; [reflexivity|].
    eapply Forall_impl; [|apply filter_Forall].
    intros p [Hin Hm]. rewrite buildWhereClause_scoped in Hm.
    apply scopedPredicate_owner_live in Hm. by split.
Qed.

(** ** The listing *)

#[local] Instance newerFirst_transitive : Transitive Store.newerFirst.
Proof. intros p q r. unfold Store.newerFirst. lia. Qed.

#[local] Instance newerFirst_total : Total Store.newerFirst.
Proof. intros p q. unfold Store.newerFirst. lia. Qed.

Lemma orderByDateAddedDesc_sorted rows :
  Spec.sortedDesc (Store.orderByDateAddedDesc rows).
Proof. apply (StronglySorted_merge_sort Store.newerFirst). Qed.

Lemma orderByDateAddedDesc_perm rows :
  Store.orderByDateAddedDesc rows ≡ₚ rows.
Proof. apply merge_sort_Permutation. Qed.

Lemma asIndex_of_nat (n : nat) : Store.asIndex (JS.Num (Z.of_nat n)) = Some n.
Proof.
  unfold Store.asIndex.
  destruct (Z.leb_spec 0 (Z.of_nat n)); [|lia].
  by rewrite Nat2Z.id.
Qed.

Lemma skip_of_page (page pageSize : nat) :
  (1 <= page)%nat ->
  JS.mul (JS.sub (JS.Num (Z.of_nat page)) (JS.Num 1)) (JS.Num (Z.of_nat pageSize))
  = JS.Num (Z.of_nat ((page - 1) * pageSize)).
Proof. intros H. simpl. f_equal. nia. Qed.




(** ** Analytics: the funnel *)

Lemma getOrZero_insert `{Countable K} (m : gmap K nat) (k j : K) (n : nat) :
  AnalyticsService.getOrZero (<[k := n]> m) j
  = if decide (k = j) then n else AnalyticsService.getOrZero m j.
Proof.
  unfold AnalyticsService.getOrZero. rewrite lookup_insert.
  by destruct (decide (k = j)).
Qed.

(** The counting loop adds, for each stage, the number of papers at it. *)
Lemma stage_counting (papers : list AnalyticsService.AnalyticsRow)
    (m : gmap ReadingStage nat) (s : ReadingStage) :
  AnalyticsService.getOrZero
    (foldl (fun m paper =>
              let currentCount :=
                AnalyticsService.getOrZero m (AnalyticsService.row_readingStage paper) in
              <[AnalyticsService.row_readingStage paper := (currentCount + 1)%nat]> m)
           m papers) s
  = (AnalyticsService.getOrZero m s + Spec.count_if (atStage s) papers)%nat.
Proof.
  revert m. induction papers as [|p papers IH]; intros m.
  - simpl. unfold Spec.count_if. simpl. lia.
  - simpl foldl. rewrite IH, getOrZero_insert.
    unfold Spec.count_if, atStage. simpl List.filter.
    destruct (decide (AnalyticsService.row_readingStage p = s)) as [->|Hne].
    + rewrite bool_decide_eq_true_2 by done. simpl. lia.
    + rewrite bool_decide_eq_false_2 by done. lia.
Qed.

Lemma funnel_entries papers :
  AnalyticsService.computeFunnelData papers
  = List.map (fun s => {| AnalyticsService.stage := s;
                          AnalyticsService.count := Spec.count_if (atStage s) papers |})
             AnalyticsService.allStages.
Proof.
  unfold AnalyticsService.computeFunnelData.
  apply List.map_ext. intros s. f_equal.
  rewrite stage_counting.
  by destruct s.
Qed.

(** Every paper is at exactly one stage. *)
Lemma stage_counts_total papers :
  sum_list (List.map (fun s => Spec.count_if (atStage s) papers) AnalyticsService.allStages)
  = length papers.
Proof.
  induction papers as [|p papers IH]; [done|].
  simpl in *. unfold Spec.count_if, atStage in *. simpl List.filter.
  destruct (AnalyticsService.row_readingStage p); simpl; lia.
Qed.

(** C3: for every set of papers the funnel has exactly 6 entries, one per
    reading stage in the enumeration order Abstract Read, Introduction
    Done, Methodology Done, Results Analyzed, Fully Read, Notes Completed;
    the count of an entry is the number of papers at its stage, present
    also when it is 0, and the 6 counts add up to [totalPapers]. *)
Theorem funnel_dense_and_total (papers : list AnalyticsService.AnalyticsRow) :
  let funnel := AnalyticsService.computeFunnelData papers in
  length funnel = 6%nat
  /\ List.map AnalyticsService.stage funnel
     = [ABSTRACT_READ; INTRODUCTION_DONE; METHODOLOGY_DONE;
        RESULTS_ANALYZED; FULLY_READ; NOTES_COMPLETED]
  /\ List.map (fun e => stageLabel (AnalyticsService.stage e)) funnel
     = ["Abstract Read"; "Introduction Done"; "Methodology Done";
        "Results Analyzed"; "Fully Read"; "Notes Completed"]%string
  /\ Forall (fun e => AnalyticsService.count e
                      = Spec.count_if (atStage (AnalyticsService.stage e)) papers)
            funnel
  /\ sum_list (List.map AnalyticsService.count funnel)
     = AnalyticsService.totalPapers (AnalyticsService.computeSummaryMetrics papers).
Proof.
  intros funnel. subst funnel. rewrite funnel_entries.
  split; [done|]. split; [done|]. split; [done|]. split.
  - unfold AnalyticsService.allStages. simpl. repeat constructor.
  - rewrite List.map_map. simpl AnalyticsService.count.
    apply stage_counts_total.
Qed.

(** ** Analytics: the stacked bar *)

Lemma copy_entries `{Countable K} {A} (m : gmap K A) :
  map_fold (fun k v acc => <[k := v]> acc) ∅ m = m.
Proof.
  apply (map_fold_weak_ind (fun r m => r = m)); [done|].
  intros i x m' r _ ->. done.
Qed.

Lemma countInto_present m paper d :
  is_Some (m !! d) -> is_Some (countInto m paper !! d).
Proof.
  intros Hd. unfold countInto.
  destruct (m !! AnalyticsService.row_researchDomain paper) eqn:E; [|done].
  rewrite lookup_insert. by destruct (decide _).
Qed.

Lemma countInto_cell m paper d s :
  is_Some (m !! AnalyticsService.row_researchDomain paper) ->
  (countInto m paper !! d) ≫= (fun dm => dm !! s)
  = bump ((m !! d) ≫= (fun dm => dm !! s)) (cell d s [paper]).
Proof.
  intros [dm Hdm]. unfold countInto, cell, Spec.count_if, inDomain, atStage.
  rewrite Hdm. simpl List.filter.
  rewrite lookup_insert.
  destruct (decide (AnalyticsService.row_researchDomain paper = d)) as [<-|Hd].
  - rewrite bool_decide_eq_true_2 by done. rewrite Hdm. simpl.
    rewrite lookup_insert.
    destruct (decide (AnalyticsService.row_readingStage paper = s)) as [<-|Hs].
    + rewrite bool_decide_eq_true_2 by done. done.
    + rewrite bool_decide_eq_false_2 by done. done.
  - rewrite bool_decide_eq_false_2 by done. done.
Qed.

Lemma bump_bump o a b : bump (bump o a) b = bump o (a + b).
Proof.
  unfold bump.
  destruct (Nat.eqb_spec a 0), (Nat.eqb_spec b 0), (Nat.eqb_spec (a + b) 0);
    simpl; try lia; try done; subst; rewrite ?Nat.add_0_r; try done.
  f_equal. lia.
Qed.

Lemma cell_cons d s p papers :
  cell d s (p :: papers) = (cell d s [p] + cell d s papers)%nat.
Proof.
  unfold cell, Spec.count_if. simpl.
  destruct (inDomain d p && atStage s p); simpl; lia.
Qed.

(** The counting loop, started on a map holding every domain. *)
Lemma stacked_counting papers m d s :
  (forall d, is_Some (m !! d)) ->
  (foldl countInto m papers !! d) ≫= (fun dm => dm !! s)
  = bump ((m !! d) ≫= (fun dm => dm !! s)) (cell d s papers)
  /\ is_Some (foldl countInto m papers !! d).
Proof.
  revert m. induction papers as [|p papers IH]; intros m Hm.
  - simpl. split; [|done]. unfold bump, cell, Spec.count_if. done.
  - simpl foldl.
    destruct (IH (countInto m p)) as [IH1 IH2].
    { intros d'. by apply countInto_present. }
    split; [|done].
    rewrite IH1, countInto_cell by done.
    by rewrite bump_bump, <- cell_cons.
Qed.

Lemma initial_domains d :
  foldl (fun (m : gmap ResearchDomain (gmap ReadingStage nat)) domain =>
           <[domain := ∅]> m) ∅ AnalyticsService.allDomains !! d
  = Some ∅.
Proof. by destruct d. Qed.

Lemma bars_entries papers :
  AnalyticsService.computeStackedBarData papers
  = List.map
      (fun d =>
         {| AnalyticsService.domain := d;
            AnalyticsService.stages :=
              default ∅
                (foldl countInto
                   (foldl (fun (m : gmap ResearchDomain (gmap ReadingStage nat)) domain =>
                             <[domain := ∅]> m) ∅ AnalyticsService.allDomains)
                   papers !! d) |})
      AnalyticsService.allDomains.
Proof.
  unfold AnalyticsService.computeStackedBarData.
  apply List.map_ext. intros d. f_equal. apply copy_entries.
Qed.

Lemma bars_lookup papers d s :
  default ∅
    (foldl countInto
       (foldl (fun (m : gmap ResearchDomain (gmap ReadingStage nat)) domain =>
                 <[domain := ∅]> m) ∅ AnalyticsService.allDomains)
       papers !! d) !! s
  = sparse (cell d s papers).
Proof.
  destruct (stacked_counting papers _ d s
              (fun d' => mk_is_Some _ _ (initial_domains d'))) as [H1 [dm H2]].
  rewrite H2 in *. simpl in *. rewrite H1, initial_domains. simpl.
  rewrite lookup_empty. done.
Qed.

(** The total of a stage mapping is the sum of its six possible entries. *)
Lemma mapTotal_stages (m : gmap ReadingStage nat) :
  Spec.mapTotal m
  = sum_list (List.map (AnalyticsService.getOrZero m) AnalyticsService.allStages).
Proof.
  unfold Spec.mapTotal.
  apply (map_fold_weak_ind
           (fun r (m : gmap ReadingStage nat) =>
              r = sum_list (List.map (AnalyticsService.getOrZero m)
                                     AnalyticsService.allStages))).
  - unfold AnalyticsService.getOrZero. simpl. by rewrite !lookup_empty.
  - intros i x m' r Hi ->.
    assert (H0 : AnalyticsService.getOrZero m' i = 0%nat).
    { unfold AnalyticsService.getOrZero. by rewrite Hi. }
    unfold AnalyticsService.allStages. simpl.
    rewrite !getOrZero_insert.
    destruct i; simpl; lia.
Qed.

Lemma getOrZero_sparse n : default 0%nat (sparse n) = n.
Proof. unfold sparse. by destruct n. Qed.

Lemma count_if_cons {A} (f : A -> bool) (x : A) (l : list A) :
  Spec.count_if f (x :: l) = ((if f x then 1 else 0) + Spec.count_if f l)%nat.
Proof. unfold Spec.count_if. simpl. by destruct (f x). Qed.

Lemma cell_single d s p :
  cell d s [p] = if inDomain d p && atStage s p then 1%nat else 0%nat.
Proof. unfold cell. rewrite count_if_cons. unfold Spec.count_if. simpl. lia. Qed.

(** The cells of a domain hold the papers of the domain, each once. *)
Lemma cells_of_domain d papers :
  sum_list (List.map (fun s => cell d s papers) AnalyticsService.allStages)
  = Spec.count_if (inDomain d) papers.
Proof.
  induction papers as [|p papers IH]; [done|].
  unfold AnalyticsService.allStages in *.
  cbn [List.map sum_list sum_list_with] in *. unfold id in *.
  rewrite !(cell_cons _ _ p papers), !cell_single, count_if_cons, <- IH.
  destruct (inDomain d p); cbn [andb]; [|lia].
  unfold atStage.
  destruct (AnalyticsService.row_readingStage p); decide_members; lia.
Qed.

(** Every paper lies in exactly one domain. *)
Lemma domains_total papers :
  sum_list (List.map (fun d => Spec.count_if (inDomain d) papers)
                     AnalyticsService.allDomains)
  = length papers.
Proof.
  induction papers as [|p papers IH]; [done|].
  unfold AnalyticsService.allDomains in *.
  cbn [List.map sum_list sum_list_with] in *. unfold id in *.
  rewrite !count_if_cons. cbn [length]. rewrite <- IH.
  unfold inDomain.
  destruct (AnalyticsService.row_researchDomain p); decide_members; lia.
Qed.

(** Every paper lies in exactly one cell of the cross-tabulation. *)
Lemma cells_total papers :
  sum_list
    (List.map
       (fun d => sum_list (List.map (fun s => cell d s papers) AnalyticsService.allStages))
       AnalyticsService.allDomains)
  = length papers.
Proof.
  rewrite <- domains_total. f_equal.
  apply List.map_ext. intros d. apply cells_of_domain.
Qed.

(** C4: for every set of papers the stacked bar has exactly 6 entries, one
    per research domain in the fixed order; in the mapping of a domain a
    stage is a key exactly when at least one paper of the domain is at that
    stage, with the count of those papers; a domain has the empty mapping
    exactly when it has no papers, and is still present; and the counts of
    all the mappings add up to [totalPapers]. *)
Theorem stacked_bar_sparse_and_total (papers : list AnalyticsService.AnalyticsRow) :
  let bars := AnalyticsService.computeStackedBarData papers in
  length bars = 6%nat
  /\ List.map AnalyticsService.domain bars
     = [COMPUTER_SCIENCE; BIOLOGY; PHYSICS; CHEMISTRY; MATHEMATICS; SOCIAL_SCIENCES]
  /\ Forall (fun b => forall s,
                 AnalyticsService.stages b !! s
                 = sparse (cell (AnalyticsService.domain b) s papers))
            bars
  /\ Forall (fun b =>
               AnalyticsService.stages b = ∅
               <-> Spec.count_if (inDomain (AnalyticsService.domain b)) papers = 0%nat)
            bars
  /\ sum_list (List.map (fun b => Spec.mapTotal (AnalyticsService.stages b)) bars)
     = AnalyticsService.totalPapers (AnalyticsService.computeSummaryMetrics papers).
Proof.
  intros bars.
  assert (Hlookup : Forall (fun b => forall s,
                       AnalyticsService.stages b !! s
                       = sparse (cell (AnalyticsService.domain b) s papers)) bars).
  { subst bars. rewrite bars_entries.
    apply Forall_forall. intros b Hb.
    apply in_map_iff in Hb as [d [<- _]]. intros s. apply bars_lookup. }
  split; [|split; [|split; [|split]]].
  - subst bars. by rewrite bars_entries.
  - subst bars. by rewrite bars_entries.
  - exact Hlookup.
  - eapply Forall_impl; [|exact Hlookup].
    intros b Hb. rewrite <- cells_of_domain. split.
    + intros Hempty.
      assert (Hc : forall s, cell (AnalyticsService.domain b) s papers = 0%nat).
      { intros s. specialize (Hb s). rewrite Hempty, lookup_empty in Hb.
        unfold sparse in Hb.
        by destruct (cell (AnalyticsService.domain b) s papers). }
      unfold AnalyticsService.allStages. simpl. by rewrite !Hc.
    + intros Hzero. apply map_eq. intros s.
      rewrite Hb, lookup_empty.
      assert (Hc : cell (AnalyticsService.domain b) s papers = 0%nat).
      { revert Hzero. unfold AnalyticsService.allStages. simpl. unfold id.
        destruct s; lia. }
      by rewrite Hc.
  - transitivity
      (sum_list
         (List.map
            (fun d => sum_list (List.map (fun s => cell d s papers)
                                         AnalyticsService.allStages))
            AnalyticsService.allDomains)).
    + subst bars. rewrite bars_entries, List.map_map.
      f_equal. apply List.map_ext. intros d.
      cbn [AnalyticsService.stages]. rewrite mapTotal_stages.
      f_equal. apply List.map_ext. intros s.
      unfold AnalyticsService.getOrZero. rewrite bars_lookup.
      apply getOrZero_sparse.
    + apply cells_total.
Qed.

(** ** Analytics: the summary *)

(** [reduce] adds from the left; the sum is the same from the right. *)
Lemma reduce_sum rows acc :
  foldl (fun sum paper => sum + AnalyticsService.row_citationCount paper) acc rows
  = acc + Spec.sumCitations rows.
Proof.
  revert acc. induction rows as [|r rows IH]; intros acc; simpl.
  - lia.
  - rewrite IH. unfold Spec.sumCitations. simpl. lia.
Qed.

Lemma insert_either `{Countable K} {A} (b : bool) (k : K) (x y : A) (m : gmap K A) :
  (if b then <[k := x]> m else <[k := y]> m) = <[k := if b then x else y]> m.
Proof. by destruct b. Qed.

Lemma avgCitations_lookup papers d :
  AnalyticsService.avgCitationsByDomain (AnalyticsService.computeSummaryMetrics papers) !! d
  = Some (meanCitations (List.filter (inDomain d) papers)).
Proof.
  unfold AnalyticsService.computeSummaryMetrics.
  cbn [AnalyticsService.avgCitationsByDomain AnalyticsService.allDomains foldl].
  rewrite !insert_either.
  unfold meanCitations.
  destruct d;
    repeat (rewrite lookup_insert_ne by done);
    rewrite lookup_insert_eq; f_equal; unfold inDomain;
    match goal with
    | |- context [List.filter ?f papers] => generalize (List.filter f papers)
    end;
    (intros [|r rows]; [done|]);
    cbn [length Nat.ltb Nat.leb Nat.eqb]; by rewrite reduce_sum.
Qed.

(** C5: for every set of papers, [totalPapers] is its size and [fullyRead]
    the number of papers at Fully Read; [completionRate] is 0 for the empty
    set and fullyRead / totalPapers otherwise; [avgCitationsByDomain] has an
    entry for each of the 6 domains: the mean citation count of the papers
    of the domain, papers with 0 citations included (so a domain whose
    citations sum to 0 has the entry 0), and 0 for a domain without
    papers. *)
Theorem summary_metrics (papers : list AnalyticsService.AnalyticsRow) :
  let m := AnalyticsService.computeSummaryMetrics papers in
  AnalyticsService.totalPapers m = length papers
  /\ AnalyticsService.fullyRead m = Spec.count_if (atStage FULLY_READ) papers
  /\ AnalyticsService.completionRate m
     = (if (length papers =? 0)%nat then 0%Q
        else (inject_Z (Z.of_nat (Spec.count_if (atStage FULLY_READ) papers))
              / inject_Z (Z.of_nat (length papers)))%Q)
  /\ (forall d,
        let rows := List.filter (inDomain d) papers in
        exists mean,
          AnalyticsService.avgCitationsByDomain m !! d = Some mean
          /\ (mean == if (length rows =? 0)%nat then 0
                      else inject_Z (Spec.sumCitations rows)
                           / inject_Z (Z.of_nat (length rows)))%Q
          /\ (mean * inject_Z (Z.of_nat (length rows))
              == inject_Z (Spec.sumCitations rows))%Q
          /\ (if Spec.sumCitations rows =? 0 then mean == 0 else True)%Q).
Proof.
  intros m. subst m. split; [done|]. split; [done|]. split.
  - unfold AnalyticsService.computeSummaryMetrics.
    cbn [AnalyticsService.completionRate].
    by destruct papers.
  - intros d rows. exists (meanCitations rows).
    split; [apply avgCitations_lookup|].
    unfold meanCitations. split; [reflexivity|].
    assert (Hsum : rows = [] -> Spec.sumCitations rows = 0) by (by intros ->).
    destruct rows as [|r rows']; [split; [by rewrite Hsum|by rewrite Hsum]|].
    cbn [length Nat.eqb]. clear Hsum.
    set (n := S (length rows')). set (t := Spec.sumCitations (r :: rows')).
    assert (Hn : ~ (inject_Z (Z.of_nat n) == 0)%Q).
    { unfold Qeq, inject_Z. simpl. lia. }
    split.
    + field. exact Hn.
    + destruct (Z.eqb_spec t 0) as [->|]; [|done].
      unfold Qdiv. by rewrite Qmult_0_l.
Qed.

(** ** The paper lifecycle *)

Lemma entryTaken_spec owner title firstAuthor db :
  entryTaken owner title firstAuthor db = true
  <-> exists p, p ∈ db /\ Store.userKeyId p = owner
                /\ Store.title p = title /\ Store.firstAuthor p = firstAuthor.
Proof.
  unfold entryTaken. rewrite existsb_exists. split.
  - intros [p [Hin Hp]]. exists p.
    rewrite !andb_true_iff, !bool_decide_eq_true in Hp.
    rewrite list_elem_of_In. tauto.
  - intros [p [Hin Hp]]. exists p.
    rewrite !andb_true_iff, !bool_decide_eq_true.
    rewrite <- list_elem_of_In. tauto.
Qed.

Lemma findFirst_entry owner title firstAuthor db :
  is_Some (Store.findFirst
             {| Store.where_title := Some title;
                Store.where_firstAuthor := Some firstAuthor;
                Store.where_userKeyId := Some owner;
                Store.where_isArchived := None;
                Store.where_readingStage_in := None;
                Store.where_researchDomain_in := None;
                Store.where_impactScore_in := None;
                Store.where_dateAdded_gte := None |} db)
  <-> entryTaken owner title firstAuthor db = true.
Proof.
  unfold Store.findFirst, entryTaken.
  induction db as [|p db IH]; simpl.
  - split; [by intros [? ?]|done].
  - unfold Store.matches at 1. simpl.
    rewrite !andb_true_r.
    destruct (bool_decide (Store.title p = title)),
             (bool_decide (Store.firstAuthor p = firstAuthor)),
             (bool_decide (Store.userKeyId p = owner)); simpl; try exact IH;
      split; eauto.
Qed.

(** C9: for every owner and input, [createPaper] throws DUPLICATE_PAPER
    exactly when the table already holds an entry of that owner with the
    same title and first author, archived or not; otherwise, and so also
    when only another owner holds the pair, it inserts a row with
    [dateAdded = now], [isArchived = false] and the identifier drawn by the
    store, and returns that identifier. *)
Theorem create_rejects_duplicates (owner : string)
    (data : PaperService.CreatePaperInput) (now : Z) (newId : string)
    (db : list Store.Paper) :
  let taken := entryTaken owner (PaperService.title data)
                          (PaperService.firstAuthor data) db in
  PaperService.createPaper owner data now newId db
  = (if taken then (Store.Throws "DUPLICATE_PAPER", db)
     else (Store.Returns newId, db ++ [createdRow owner data now newId]))
  /\ (taken = true
      <-> exists p, p ∈ db /\ Store.userKeyId p = owner
                    /\ Store.title p = PaperService.title data
                    /\ Store.firstAuthor p = PaperService.firstAuthor data)
  /\ Store.dateAdded (createdRow owner data now newId) = now
  /\ Store.isArchived (createdRow owner data now newId) = false
  /\ Store.id (createdRow owner data now newId) = newId
  /\ fst (PaperController.createPaper owner data now newId db)
     = (if taken
        then sendResponse 409 "DUPLICATE_PAPER" None
               "A paper with the same title and author already exists"
        else sendResponse 201 "PAPER_CREATED" (Some newId)
               "Paper created successfully").
Proof.
  intros taken.
  assert (Hcreate :
            PaperService.createPaper owner data now newId db
            = (if taken then (Store.Throws "DUPLICATE_PAPER", db)
               else (Store.Returns newId, db ++ [createdRow owner data now newId]))).
  { unfold PaperService.createPaper, Store.bind, Store.read.
    pose proof (findFirst_entry owner (PaperService.title data)
                                (PaperService.firstAuthor data) db) as H.
    fold taken in H.
    destruct H as [H1 H2].
    destruct (Store.findFirst _ db) as [p|].
    - destruct taken; [done|]. by specialize (H1 (mk_is_Some _ _ eq_refl)).
    - destruct taken; [|done]. by destruct (H2 eq_refl) as [? ?]. }
  split; [exact Hcreate|]. split; [apply entryTaken_spec|].
  split; [done|]. split; [done|]. split; [done|].
  unfold PaperController.createPaper. rewrite Hcreate.
  by destruct taken.
Qed.

Lemma findUnique_missing paperId db :
  (forall p, p ∈ db -> Store.id p <> paperId) ->
  Store.findUnique paperId db = None.
Proof.
  unfold Store.findUnique. induction db as [|q db IH]; intros H; [done|].
  simpl. rewrite bool_decide_eq_false_2.
  - apply IH. intros p Hp. apply H. by right.
  - apply H. by left.
Qed.

Lemma findUnique_present paperId db p :
  p ∈ db -> Store.id p = paperId ->
  (forall q, q ∈ db -> Store.id q = paperId -> q = p) ->
  Store.findUnique paperId db = Some p.
Proof.
  unfold Store.findUnique. induction db as [|r db IH]; intros Hin Hid Huniq.
  - by apply elem_of_nil in Hin.
  - simpl. destruct (decide (Store.id r = paperId)) as [Hr|Hr].
    + rewrite bool_decide_eq_true_2 by done.
      f_equal. apply Huniq; [by left|done].
    + rewrite bool_decide_eq_false_2 by done.
      apply IH; [|done|].
      * apply elem_of_cons in Hin as [->|Hin]; [done|exact Hin].
      * intros q Hq. apply Huniq. by right.
Qed.

Lemma not_found_when (paperId owner : string) (data : PaperService.UpdatePaperInput)
    (db : list Store.Paper) :
  match Store.findUnique paperId db with
  | Some p => Store.userKeyId p <> owner
  | None => True
  end ->
  PaperService.updatePaper paperId owner data db = notFound db
  /\ PaperService.archivePaper paperId owner db = notFound db
  /\ PaperController.updatePaper owner paperId data db = notFoundResponse db
  /\ PaperController.archivePaper owner paperId db = notFoundResponse db.
Proof.
  intros H.
  assert (Hu : PaperService.updatePaper paperId owner data db = notFound db
               /\ PaperService.archivePaper paperId owner db = notFound db).
  { unfold PaperService.updatePaper, PaperService.archivePaper, Store.bind, Store.read.
    destruct (Store.findUnique paperId db) as [p|]; [|done].
    destruct (String.eqb_spec (Store.userKeyId p) owner); [done|]. done. }
  destruct Hu as [Hu Ha].
  unfold PaperController.updatePaper, PaperController.archivePaper.
  rewrite Hu, Ha. done.
Qed.

(** C10: for every paper id and caller, [updatePaper] and [archivePaper]
    throw NOT_FOUND when no row has the id, and throw the very same
    NOT_FOUND when the row exists and belongs to another owner; in both
    cases the table is left as it was and the handlers answer with the same
    404 NOT_FOUND envelope, so the two causes cannot be told apart. *)
Theorem foreign_id_is_not_found (paperId owner : string)
    (data : PaperService.UpdatePaperInput) (db : list Store.Paper) :
  ((forall p, p ∈ db -> Store.id p <> paperId) ->
   PaperService.updatePaper paperId owner data db = notFound db
   /\ PaperService.archivePaper paperId owner db = notFound db
   /\ PaperController.updatePaper owner paperId data db = notFoundResponse db
   /\ PaperController.archivePaper owner paperId db = notFoundResponse db)
  /\ (forall p,
        p ∈ db -> Store.id p = paperId ->
        (forall q, q ∈ db -> Store.id q = paperId -> q = p) ->
        Store.userKeyId p <> owner ->
        PaperService.updatePaper paperId owner data db = notFound db
        /\ PaperService.archivePaper paperId owner db = notFound db
        /\ PaperController.updatePaper owner paperId data db = notFoundResponse db
        /\ PaperController.archivePaper owner paperId db = notFoundResponse db).
Proof.
  split.
  - intros Hmissing. apply not_found_when.
    by rewrite (findUnique_missing _ _ Hmissing).
  - intros p Hin Hid Huniq Hforeign. apply not_found_when.
    by rewrite (findUnique_present _ _ p Hin Hid Huniq).
Qed.

(** ** Pagination parameters *)

Lemma parseNumber_stringParam v dflt :
  parseNumber (Query.firstOrSelf v) dflt
  = match stringParam v with
    | Some s => JS.parseInt10 s
    | None => JS.Num dflt
    end.
Proof.
  unfold parseNumber, stringParam.
  destruct (Query.firstOrSelf v) as [[s|]|]; [|done|done].
  simpl. by destruct (String.eqb s "").
Qed.

(** C6, as the code has it: an invalid page or page size does not fall
    back to the default. With [pageSize=0] the listing answers with page
    size 0 and no items although two rows are in scope; with [page=abc] and
    [pageSize=-5] the service is handed NaN and -5. *)
Lemma invalid_pagination_is_passed_on :
  PaperService.getPapers 0 "k1" noFilters
    (PaperController.parsePagination pageSizeZero) 0 sampleTable
  = Some {| PaperService.items := [];
            PaperService.pagination :=
              {| PaperService.pagination_page := JS.Num 1;
                 PaperService.pagination_pageSize := JS.Num 0;
                 PaperService.total := 2 |} |}
  /\ PaperController.parsePagination pageNotNumeric
     = {| PaperService.page := Some JS.NaN;
          PaperService.pageSize := Some (JS.Num (-5)) |}
  /\ JS.Num 0 <> JS.Num 10 /\ JS.NaN <> JS.Num 1 /\ JS.Num (-5) <> JS.Num 10.
Proof. by vm_compute. Qed.

(** C6 (amended): page is 1 and page size 10 when the parameter is absent,
    empty or not a string; a non-empty string is read by [parseInt(s, 10)]
    and its value is handed to the service as it is, zero, negative numbers
    and NaN included, with no fallback; when neither parameter holds a
    string the listing succeeds with page 1 and page size 10. *)
Theorem pagination_defaults_only_when_absent (query : Query.ParsedQs) :
  PaperService.page (PaperController.parsePagination query)
  = Some (match stringParam (Query.page query) with
          | Some s => JS.parseInt10 s
          | None => JS.Num 1
          end)
  /\ PaperService.pageSize (PaperController.parsePagination query)
     = Some (match stringParam (Query.pageSize query) with
             | Some s => JS.parseInt10 s
             | None => JS.Num 10
             end)
  /\ (forall LocalTZA owner f now db,
        stringParam (Query.page query) = None ->
        stringParam (Query.pageSize query) = None ->
        exists r,
          PaperService.getPapers LocalTZA owner f
            (PaperController.parsePagination query) now db = Some r
          /\ PaperService.pagination_page (PaperService.pagination r) = JS.Num 1
          /\ PaperService.pagination_pageSize (PaperService.pagination r) = JS.Num 10
          /\ (length (PaperService.items r) <= 10)%nat)
  /\ JS.parseInt10 "25" = JS.Num 25
  /\ JS.parseInt10 "0" = JS.Num 0
  /\ JS.parseInt10 "-5" = JS.Num (-5)
  /\ JS.parseInt10 "abc" = JS.NaN.
Proof.
  assert (Hp : PaperController.parsePagination query
               = {| PaperService.page :=
                      Some (match stringParam (Query.page query) with
                            | Some s => JS.parseInt10 s
                            | None => JS.Num 1
                            end);
                    PaperService.pageSize :=
                      Some (match stringParam (Query.pageSize query) with
                            | Some s => JS.parseInt10 s
                            | None => JS.Num 10
                            end) |}).
  { unfold PaperController.parsePagination. by rewrite !parseNumber_stringParam. }
  rewrite Hp. split; [done|]. split; [done|]. split; [|done].
  intros LocalTZA owner f now db -> ->.
  unfold PaperService.getPapers, Store.findManyPage.
  cbn [default from_option id PaperService.page PaperService.pageSize].
  change (JS.mul (JS.sub (JS.Num 1) (JS.Num 1)) (JS.Num 10)) with (JS.Num (Z.of_nat 0)).
  change (JS.Num 10) with (JS.Num (Z.of_nat 10)).
  rewrite !asIndex_of_nat. cbn [mbind option_bind].
  eexists. split; [reflexivity|]. cbn.
  split; [done|]. split; [done|].
  rewrite length_map, length_take. lia.
Qed.

(** ** Filter parameters *)

Lemma Forall_map_of {A B} (g : A -> B) (P : B -> Prop) (l : list A) :
  Forall (fun x => P (g x)) l -> Forall P (List.map g l).
Proof. induction 1; simpl; by constructor. Qed.

(** *** What the store makes of the kept strings *)

Section Members.
Context {A : Type} `{EqDecision A}.
Variable label : A -> string.
Variable members : list A.
Hypothesis label_inj : forall a b, label a = label b -> a = b.





End Members.










(** ** The operations on sample data *)

(** The three papers of the specification's scenario: A (Fully Read,
    Physics, 10 citations), B (Abstract Read, Physics, 0) and C (Fully
    Read, Biology, 5). *)
Example summary_of_three_papers :
  let papers :=
    [ {| AnalyticsService.row_readingStage := FULLY_READ;
         AnalyticsService.row_researchDomain := PHYSICS;
         AnalyticsService.row_citationCount := 10;
         AnalyticsService.row_impactScore := UNKNOWN |};
      {| AnalyticsService.row_readingStage := ABSTRACT_READ;
         AnalyticsService.row_researchDomain := PHYSICS;
         AnalyticsService.row_citationCount := 0;
         AnalyticsService.row_impactScore := UNKNOWN |};
      {| AnalyticsService.row_readingStage := FULLY_READ;
         AnalyticsService.row_researchDomain := BIOLOGY;
         AnalyticsService.row_citationCount := 5;
         AnalyticsService.row_impactScore := UNKNOWN |} ] in
  let m := AnalyticsService.computeSummaryMetrics papers in
  AnalyticsService.totalPapers m = 3%nat
  /\ AnalyticsService.fullyRead m = 2%nat
  /\ Qred (AnalyticsService.completionRate m) = (2 # 3)%Q
  /\ (Qred <$> AnalyticsService.avgCitationsByDomain m) !! PHYSICS = Some (5 # 1)%Q
  /\ (Qred <$> AnalyticsService.avgCitationsByDomain m) !! BIOLOGY = Some (5 # 1)%Q
  /\ (Qred <$> AnalyticsService.avgCitationsByDomain m) !! CHEMISTRY = Some (0 # 1)%Q
  /\ List.map AnalyticsService.count (AnalyticsService.computeFunnelData papers)
     = [1; 0; 0; 0; 2; 0]%nat
  /\ List.map (fun b => (AnalyticsService.stages b !! ABSTRACT_READ,
                          AnalyticsService.stages b !! FULLY_READ,
                          size (AnalyticsService.stages b)))
              (AnalyticsService.computeStackedBarData papers)
     = [ (None, None, 0); (None, Some 1, 1); (Some 1, Some 1, 2);
         (None, None, 0); (None, None, 0); (None, None, 0) ]%nat.
Proof. by vm_compute. Qed.

(** The same title and author twice for one owner, once more for another
    owner, and once more after the first entry was archived. *)
Example create_twice :
  let data :=
    {| PaperService.title := "T"; PaperService.firstAuthor := "A";
       PaperService.researchDomain := PHYSICS;
       PaperService.readingStage := ABSTRACT_READ;
       PaperService.citationCount := 0; PaperService.impactScore := UNKNOWN |} in
  let '(first, db1) := PaperService.createPaper "k1" data 5 "id1" [] in
  let '(second, db2) := PaperService.createPaper "k1" data 6 "id2" db1 in
  let '(other, db3) := PaperService.createPaper "k2" data 7 "id3" db2 in
  let '(_, db4) := PaperService.archivePaper "id1" "k1" db3 in
  let '(again, db5) := PaperService.createPaper "k1" data 8 "id4" db4 in
  first = Store.Returns "id1"
  /\ second = Store.Throws "DUPLICATE_PAPER"
  /\ other = Store.Returns "id3"
  /\ again = Store.Throws "DUPLICATE_PAPER"
  /\ List.map Store.id db5 = ["id1"; "id3"]%string
  /\ List.map Store.isArchived db5 = [true; false].
Proof. by vm_compute. Qed.

(** A wrong id and the id of another owner's paper, on the sample table. *)
Lemma foreign_id_is_not_found_witness :
  let data :=
    {| PaperService.update_researchDomain := None;
       PaperService.update_readingStage := Some NOTES_COMPLETED;
       PaperService.update_citationCount := None |} in
  (PaperService.updatePaper "p9" "k1" data sampleTable = notFound sampleTable
   /\ PaperService.archivePaper "p9" "k1" sampleTable = notFound sampleTable
   /\ PaperController.updatePaper "k1" "p9" data sampleTable = notFoundResponse sampleTable
   /\ PaperController.archivePaper "k1" "p9" sampleTable = notFoundResponse sampleTable)
  /\ (PaperService.updatePaper "p1" "k2" data sampleTable = notFound sampleTable
      /\ PaperService.archivePaper "p1" "k2" sampleTable = notFound sampleTable
      /\ PaperController.updatePaper "k2" "p1" data sampleTable = notFoundResponse sampleTable
      /\ PaperController.archivePaper "k2" "p1" sampleTable = notFoundResponse sampleTable).
Proof.
  intros data. split.
  - apply (proj1 (foreign_id_is_not_found "p9" "k1" data sampleTable)).
    intros p Hp. unfold sampleTable in Hp.
    repeat (apply elem_of_cons in Hp as [->|Hp]; [discriminate|]).
    by apply elem_of_nil in Hp.
  - apply (proj2 (foreign_id_is_not_found "p1" "k2" data sampleTable)
             (sampleRow "p1" 10 false)).
    + unfold sampleTable. by left.
    + reflexivity.
    + intros q Hq Hid. unfold sampleTable in Hq.
      repeat (apply elem_of_cons in Hq as [->|Hq]; [done || discriminate|]).
      by apply elem_of_nil in Hq.
    + discriminate.
Defined.

(** The listing without pagination parameters, on the sample table. *)
Lemma pagination_defaults_only_when_absent_witness :
  exists r,
    PaperService.getPapers 0 "k1" noFilters
      (PaperController.parsePagination emptyQuery) 0 sampleTable = Some r
    /\ PaperService.pagination_page (PaperService.pagination r) = JS.Num 1
    /\ PaperService.pagination_pageSize (PaperService.pagination r) = JS.Num 10
    /\ (length (PaperService.items r) <= 10)%nat.
Proof.
  apply (proj1 (proj2 (proj2 (pagination_defaults_only_when_absent emptyQuery))));
    reflexivity.
Defined.


(** * Further properties of the services *)

(** ** Updating and archiving a paper of one's own *)

Lemma lookup_map {A B} (g : A -> B) (l : list A) (i : nat) :
  List.map g l !! i = g <$> (l !! i).
Proof. revert i. induction l as [|x l IH]; intros [|i]; simpl; auto. Qed.

Lemma findUnique_map (g : Store.Paper -> Store.Paper) paperId db :
  (forall q, Store.id (g q) = Store.id q) ->
  Store.findUnique paperId (List.map g db) = g <$> Store.findUnique paperId db.
Proof.
  intros Hg. unfold Store.findUnique.
  induction db as [|q db IH]; [done|].
  simpl. rewrite Hg. by destruct (bool_decide (Store.id q = paperId)).
Qed.

Lemma findUnique_id paperId db p :
  Store.findUnique paperId db = Some p -> p ∈ db /\ Store.id p = paperId.
Proof.
  unfold Store.findUnique. intros H.
  apply find_some in H as [Hin Hid].
  apply bool_decide_eq_true in Hid. by rewrite list_elem_of_In.
Qed.

Lemma updatePaper_owned paperId owner data db p :
  Store.findUnique paperId db = Some p ->
  Store.userKeyId p = owner ->
  PaperService.updatePaper paperId owner data db
  = (Store.Returns tt,
     List.map (fun q => if bool_decide (Store.id q = paperId)
                        then updatedRow data q else q) db).
Proof.
  intros Hp Ho.
  unfold PaperService.updatePaper, Store.bind, Store.read. rewrite Hp.
  rewrite Ho, String.eqb_refl. reflexivity.
Qed.

Lemma archivePaper_owned paperId owner db p :
  Store.findUnique paperId db = Some p ->
  Store.userKeyId p = owner ->
  PaperService.archivePaper paperId owner db
  = (Store.Returns tt,
     List.map (fun q => if bool_decide (Store.id q = paperId)
                        then archivedRow q else q) db).
Proof.
  intros Hp Ho.
  unfold PaperService.archivePaper, Store.bind, Store.read. rewrite Hp.
  rewrite Ho, String.eqb_refl. reflexivity.
Qed.

(** X1: an update of a paper of one's own succeeds, archived or not, and
    answers 200 PAPER_UPDATED. Of the row with the id, research domain,
    reading stage and citation count take the values given and stay as
    they are where none is given; its other columns, the archived flag
    among them, and every other row are left as they were. *)
Theorem update_writes_three_columns (paperId owner : string)
    (data : PaperService.UpdatePaperInput) (db : list Store.Paper)
    (p : Store.Paper) :
  Store.findUnique paperId db = Some p ->
  Store.userKeyId p = owner ->
  exists db',
    PaperService.updatePaper paperId owner data db = (Store.Returns tt, db')
    /\ PaperController.updatePaper owner paperId data db
       = (sendResponse 200 "PAPER_UPDATED" None "Paper updated successfully", db')
    /\ length db' = length db
    /\ forall i q, db !! i = Some q ->
         exists q', db' !! i = Some q'
           /\ identity q' = identity q
           /\ Store.isArchived q' = Store.isArchived q
           /\ (Store.id q <> paperId -> q' = q)
           /\ (Store.id q = paperId ->
               Store.researchDomain q'
               = default (Store.researchDomain q) (PaperService.update_researchDomain data)
               /\ Store.readingStage q'
                  = default (Store.readingStage q) (PaperService.update_readingStage data)
               /\ Store.citationCount q'
                  = default (Store.citationCount q) (PaperService.update_citationCount data)).
Proof.
  intros Hp Ho. eexists.
  split; [by apply (updatePaper_owned _ _ _ _ p)|].
  split.
  { unfold PaperController.updatePaper.
    by rewrite (updatePaper_owned _ _ _ _ p Hp Ho). }
  split; [by rewrite length_map|].
  intros i q Hq. eexists. rewrite lookup_map, Hq. split; [reflexivity|].
  destruct (decide (Store.id q = paperId)) as [Hid|Hid].
  - rewrite bool_decide_eq_true_2 by done. by repeat split.
  - rewrite bool_decide_eq_false_2 by done. by repeat split.
Qed.

Lemma update_writes_three_columns_witness :
  exists db',
    PaperService.updatePaper "p2" "k1" sampleUpdate sampleTable = (Store.Returns tt, db')
    /\ PaperController.updatePaper "k1" "p2" sampleUpdate sampleTable
       = (sendResponse 200 "PAPER_UPDATED" None "Paper updated successfully", db')
    /\ length db' = length sampleTable
    /\ forall i q, sampleTable !! i = Some q ->
         exists q', db' !! i = Some q'
           /\ identity q' = identity q
           /\ Store.isArchived q' = Store.isArchived q
           /\ (Store.id q <> "p2"%string -> q' = q)
           /\ (Store.id q = "p2"%string ->
               Store.researchDomain q'
               = default (Store.researchDomain q)
                         (PaperService.update_researchDomain sampleUpdate)
               /\ Store.readingStage q'
                  = default (Store.readingStage q)
                            (PaperService.update_readingStage sampleUpdate)
               /\ Store.citationCount q'
                  = default (Store.citationCount q)
                            (PaperService.update_citationCount sampleUpdate)).
Proof.
  apply (update_writes_three_columns "p2" "k1" sampleUpdate sampleTable
           (sampleRow "p2" 30 true)); reflexivity.
Defined.

(** X2: archiving a paper of one's own succeeds and answers 200
    PAPER_ARCHIVED; the row with the id gets [isArchived = true] and nothing
    else in the table changes. Archiving it once more succeeds again and
    leaves the table as it is. *)
Theorem archive_sets_flag_and_repeats (paperId owner : string)
    (db : list Store.Paper) (p : Store.Paper) :
  Store.findUnique paperId db = Some p ->
  Store.userKeyId p = owner ->
  exists db',
    PaperService.archivePaper paperId owner db = (Store.Returns tt, db')
    /\ PaperController.archivePaper owner paperId db
       = (sendResponse 200 "PAPER_ARCHIVED" None "Paper archived successfully", db')
    /\ length db' = length db
    /\ (forall i q, db !! i = Some q ->
          exists q', db' !! i = Some q'
            /\ identity q' = identity q
            /\ Store.researchDomain q' = Store.researchDomain q
            /\ Store.readingStage q' = Store.readingStage q
            /\ Store.citationCount q' = Store.citationCount q
            /\ (Store.id q <> paperId -> q' = q)
            /\ (Store.id q = paperId -> Store.isArchived q' = true))
    /\ PaperService.archivePaper paperId owner db' = (Store.Returns tt, db').
Proof.
  intros Hp Ho.
  pose proof (archivePaper_owned _ _ _ _ Hp Ho) as Ha.
  eexists. split; [exact Ha|]. split.
  { unfold PaperController.archivePaper. by rewrite Ha. }
  split; [by rewrite length_map|]. split.
  - intros i q Hq. eexists. rewrite lookup_map, Hq. split; [reflexivity|].
    destruct (decide (Store.id q = paperId)) as [Hid|Hid].
    + rewrite bool_decide_eq_true_2 by done. by repeat split.
    + rewrite bool_decide_eq_false_2 by done. by repeat split.
  - set (g := fun q => if bool_decide (Store.id q = paperId) then archivedRow q else q).
    assert (Hg : forall q, Store.id (g q) = Store.id q).
    { intros q. unfold g. by destruct (bool_decide _). }
    assert (Hp' : Store.findUnique paperId (List.map g db) = Some (g p)).
    { by rewrite (findUnique_map g _ _ Hg), Hp. }
    assert (Ho' : Store.userKeyId (g p) = owner).
    { unfold g. by destruct (bool_decide _). }
    rewrite (archivePaper_owned _ _ _ _ Hp' Ho'). f_equal.
    rewrite List.map_map. apply List.map_ext. intros q. unfold g.
    destruct (decide (Store.id q = paperId)) as [Hid|Hid].
    + rewrite (bool_decide_eq_true_2 _ Hid).
      change (Store.id (archivedRow q)) with (Store.id q).
      by rewrite (bool_decide_eq_true_2 _ Hid).
    + rewrite (bool_decide_eq_false_2 _ Hid).
      by rewrite (bool_decide_eq_false_2 _ Hid).
Qed.

Lemma archive_sets_flag_and_repeats_witness :
  exists db',
    PaperService.archivePaper "p1" "k1" sampleTable = (Store.Returns tt, db')
    /\ PaperController.archivePaper "k1" "p1" sampleTable
       = (sendResponse 200 "PAPER_ARCHIVED" None "Paper archived successfully", db')
    /\ length db' = length sampleTable
    /\ (forall i q, sampleTable !! i = Some q ->
          exists q', db' !! i = Some q'
            /\ identity q' = identity q
            /\ Store.researchDomain q' = Store.researchDomain q
            /\ Store.readingStage q' = Store.readingStage q
            /\ Store.citationCount q' = Store.citationCount q
            /\ (Store.id q <> "p1"%string -> q' = q)
            /\ (Store.id q = "p1"%string -> Store.isArchived q' = true))
    /\ PaperService.archivePaper "p1" "k1" db' = (Store.Returns tt, db').
Proof.
  apply (archive_sets_flag_and_repeats "p1" "k1" sampleTable
           (sampleRow "p1" 10 false)); reflexivity.
Defined.

(** ** What a write does to the table *)

Lemma createPaper_table owner data now newId db :
  PaperService.createPaper owner data now newId db
  = (if entryTaken owner (PaperService.title data) (PaperService.firstAuthor data) db
     then (Store.Throws "DUPLICATE_PAPER", db)
     else (Store.Returns newId, db ++ [createdRow owner data now newId])).
Proof.
  unfold PaperService.createPaper, Store.bind, Store.read.
  pose proof (findFirst_entry owner (PaperService.title data)
                              (PaperService.firstAuthor data) db) as [H1 H2].
  destruct (Store.findFirst _ db) as [p|];
    destruct (entryTaken _ _ _ db); try done.
  - by specialize (H1 (mk_is_Some _ _ eq_refl)).
  - by destruct (H2 eq_refl) as [? ?].
Qed.

Lemma not_owned_unchanged paperId owner data db :
  match Store.findUnique paperId db with
  | Some p => Store.userKeyId p <> owner
  | None => True
  end ->
  snd (PaperService.updatePaper paperId owner data db) = db
  /\ snd (PaperService.archivePaper paperId owner db) = db.
Proof.
  intros H.
  unfold PaperService.updatePaper, PaperService.archivePaper, Store.bind, Store.read.
  destruct (Store.findUnique paperId db) as [p|]; [|done].
  by destruct (String.eqb_spec (Store.userKeyId p) owner).
Qed.

Lemma tableAfter_change owner w db : TableChange owner w db (tableAfter owner w db).
Proof.
  destruct w as [data now newId|paperId data|paperId]; simpl.
  - rewrite createPaper_table.
    destruct (entryTaken _ _ _ db) eqn:E; simpl.
    + constructor.
    + by eapply Appended.
  - destruct (Store.findUnique paperId db) as [p|] eqn:Hp.
    + destruct (decide (Store.userKeyId p = owner)) as [Ho|Ho].
      * rewrite (updatePaper_owned _ _ _ _ p Hp Ho). simpl.
        by apply (Rewritten _ _ _ paperId (updatedRow data) p).
      * rewrite (proj1 (not_owned_unchanged paperId owner data db
                          ltac:(by rewrite Hp))).
        constructor.
    + rewrite (proj1 (not_owned_unchanged paperId owner data db
                        ltac:(by rewrite Hp))).
      constructor.
  - pose (data := {| PaperService.update_researchDomain := None;
                     PaperService.update_readingStage := None;
                     PaperService.update_citationCount := None |}).
    destruct (Store.findUnique paperId db) as [p|] eqn:Hp.
    + destruct (decide (Store.userKeyId p = owner)) as [Ho|Ho].
      * rewrite (archivePaper_owned _ _ _ p Hp Ho). simpl.
        by apply (Rewritten _ _ _ paperId archivedRow p).
      * rewrite (proj2 (not_owned_unchanged paperId owner data db
                          ltac:(by rewrite Hp))).
        constructor.
    + rewrite (proj2 (not_owned_unchanged paperId owner data db
                        ltac:(by rewrite Hp))).
      constructor.
Qed.

(** X3: no write deletes a row, rewrites what identifies a paper (id,
    title, first author, impact score, date added, owner) or clears an
    archived flag: after any creation, update or archiving, failed or not,
    the identifying columns of the old rows are a prefix of those of the
    new table, which has at most one row more, and a row that was archived
    still is. *)
Theorem writes_keep_rows_and_identity (owner : string) (w : Write)
    (db : list Store.Paper) :
  let db' := tableAfter owner w db in
  List.map identity db `prefix_of` List.map identity db'
  /\ (length db <= length db' <= length db + 1)%nat
  /\ forall i q, db !! i = Some q ->
       exists q', db' !! i = Some q'
         /\ identity q' = identity q
         /\ (Store.isArchived q = true -> Store.isArchived q' = true).
Proof.
  intros db'. subst db'.
  destruct (tableAfter_change owner w db)
    as [|data now newId _ _|paperId g p _ _ Hg Ha].
  - split; [done|]. split; [lia|]. intros i q Hq. by exists q.
  - split; [rewrite List.map_app; by apply prefix_app_r|].
    split; [rewrite length_app; simpl; lia|].
    intros i q Hq. exists q. split; [|done].
    by apply lookup_app_l_Some.
  - assert (Hmap : List.map identity
                     (List.map (fun q => if bool_decide (Store.id q = paperId)
                                         then g q else q) db)
                   = List.map identity db).
    { rewrite List.map_map. apply List.map_ext. intros q.
      by destruct (bool_decide _). }
    split; [by rewrite Hmap|]. split; [rewrite length_map; lia|].
    intros i q Hq. eexists. rewrite lookup_map, Hq. split; [reflexivity|].
    destruct (bool_decide _); auto.
Qed.

(** X4: the writes keep the table free of duplicate entries: when no two
    rows share owner, title and first author, none do after a creation, an
    update or an archiving, whatever its outcome. *)
Theorem writes_keep_entries_unique (owner : string) (w : Write)
    (db : list Store.Paper) :
  NoDup (List.map entryKey db) ->
  NoDup (List.map entryKey (tableAfter owner w db)).
Proof.
  intros Hnd.
  destruct (tableAfter_change owner w db)
    as [|data now newId _ Hfree|paperId g p _ _ Hg _].
  - done.
  - rewrite List.map_app. simpl.
    apply list.NoDup_app. split; [done|]. split; [|apply NoDup_singleton].
    intros k Hk Hk'. apply list_elem_of_singleton in Hk'. subst k.
    rewrite list_elem_of_In in Hk. apply in_map_iff in Hk as [q [Hq Hin]].
    assert (Htaken : entryTaken owner (PaperService.title data)
                                (PaperService.firstAuthor data) db = true).
    { apply entryTaken_spec. exists q. rewrite list_elem_of_In.
      unfold entryKey, createdRow in Hq. simpl in Hq. by simplify_eq. }
    congruence.
  - replace (List.map entryKey
               (List.map (fun q => if bool_decide (Store.id q = paperId)
                                   then g q else q) db))
      with (List.map entryKey db); [done|].
    rewrite List.map_map. apply List.map_ext. intros q.
    destruct (bool_decide _); [|done].
    specialize (Hg q). unfold identity, entryKey in *.
    injection Hg as _ Ht Hf _ _ Hu. by rewrite Ht, Hf, Hu.
Qed.

Lemma writes_keep_entries_unique_witness :
  NoDup (List.map entryKey
           (tableAfter "k1" (Create sampleCreate 40 "p4") twoOwners)).
Proof.
  apply (writes_keep_entries_unique "k1" (Create sampleCreate 40 "p4") twoOwners).
  unfold twoOwners, sampleTable. simpl.
  repeat (apply list.NoDup_cons; split;
          [rewrite ?elem_of_cons, elem_of_nil; intros H;
           repeat destruct H as [H|H]; discriminate || done|]).
  apply NoDup_nil_2.
Defined.

(** ** A created paper *)

Lemma findUnique_app_fresh paperId db row :
  paperId ∉ List.map Store.id db ->
  Store.id row = paperId ->
  Store.findUnique paperId (db ++ [row]) = Some row.
Proof.
  unfold Store.findUnique. intros Hfresh Hid.
  induction db as [|q db IH]; simpl.
  - by rewrite bool_decide_eq_true_2.
  - simpl in Hfresh. apply not_elem_of_cons in Hfresh as [Hne Hfresh].
    rewrite bool_decide_eq_false_2 by done. by apply IH.
Qed.

(** X5: a paper created under an identifier the table did not hold can be
    addressed by it: the row found under the returned id is the created
    one, its owner can update it at once, any other caller gets NOT_FOUND,
    and the identifiers of the table stay distinct. *)
Theorem created_paper_is_found_by_id (owner other : string)
    (data : PaperService.CreatePaperInput) (now : Z) (newId : string)
    (edit : PaperService.UpdatePaperInput) (db : list Store.Paper) :
  entryTaken owner (PaperService.title data) (PaperService.firstAuthor data) db = false ->
  newId ∉ List.map Store.id db ->
  NoDup (List.map Store.id db) ->
  other <> owner ->
  exists db',
    PaperService.createPaper owner data now newId db = (Store.Returns newId, db')
    /\ Store.findUnique newId db' = Some (createdRow owner data now newId)
    /\ NoDup (List.map Store.id db')
    /\ fst (PaperService.updatePaper newId owner edit db') = Store.Returns tt
    /\ PaperService.updatePaper newId other edit db' = notFound db'
    /\ PaperService.archivePaper newId other db' = notFound db'.
Proof.
  intros Hfree Hfresh Hnd Hother. eexists.
  rewrite createPaper_table, Hfree. split; [reflexivity|].
  assert (Hfind : Store.findUnique newId (db ++ [createdRow owner data now newId])
                  = Some (createdRow owner data now newId)).
  { by apply findUnique_app_fresh. }
  split; [exact Hfind|]. split.
  { rewrite List.map_app. apply list.NoDup_app. split; [done|].
    split; [|apply NoDup_singleton].
    intros k Hk Hk'. apply list_elem_of_singleton in Hk'. by subst k. }
  split.
  { by rewrite (updatePaper_owned _ _ _ _ _ Hfind eq_refl). }
  assert (Hnf := not_found_when newId other edit
                   (db ++ [createdRow owner data now newId])).
  rewrite Hfind in Hnf. simpl in Hnf.
  destruct Hnf as (Hu & Ha & _); [congruence|]. by split.
Qed.

Lemma created_paper_is_found_by_id_witness :
  exists db',
    PaperService.createPaper "k1" sampleCreate 40 "p4" twoOwners
    = (Store.Returns "p4", db')
    /\ Store.findUnique "p4" db' = Some (createdRow "k1" sampleCreate 40 "p4")
    /\ NoDup (List.map Store.id db')
    /\ fst (PaperService.updatePaper "p4" "k1" sampleUpdate db') = Store.Returns tt
    /\ PaperService.updatePaper "p4" "k2" sampleUpdate db' = notFound db'
    /\ PaperService.archivePaper "p4" "k2" db' = notFound db'.
Proof.
  apply (created_paper_is_found_by_id "k1" "k2" sampleCreate 40 "p4"
           sampleUpdate twoOwners).
  - reflexivity.
  - unfold twoOwners, sampleTable. simpl.
    rewrite ?elem_of_cons, elem_of_nil. intros H.
    repeat destruct H as [H|H]; discriminate || done.
  - unfold twoOwners, sampleTable. simpl.
    repeat (apply list.NoDup_cons; split;
            [rewrite ?elem_of_cons, elem_of_nil; intros H;
             repeat destruct H as [H|H]; discriminate || done|]).
    apply NoDup_nil_2.
  - discriminate.
Defined.

Lemma count_app w db row :
  Store.count w (db ++ [row])
  = (Store.count w db + if Store.matches w row then 1 else 0)%nat.
Proof.
  unfold Store.count. rewrite List.filter_app, length_app. simpl.
  by destruct (Store.matches w row).
Qed.

(** X6: a creation changes the totals of exactly the listings whose scope
    the new paper falls in: for every caller and filter the count under the
    listing's clause grows by one when the creation succeeded and the
    created row satisfies the scoped predicate, and stays as it was
    otherwise; without filters the owner's own count grows by one. *)
Theorem creation_counts_in_scope (LocalTZA : Z) (owner : string)
    (data : PaperService.CreatePaperInput) (created : Z) (newId : string)
    (db : list Store.Paper) (caller : string) (f : PaperService.PaperFilters)
    (now : Z) :
  let db' := tableAfter owner (Create data created newId) db in
  let taken := entryTaken owner (PaperService.title data)
                          (PaperService.firstAuthor data) db in
  let inScope :=
    Spec.scopedPredicate caller (PaperService.readingStages f)
      (PaperService.researchDomains f) (PaperService.impactScores f)
      (Spec.window LocalTZA (PaperService.dateRange f) now)
      (createdRow owner data created newId) in
  Store.count (PaperService.getPapersWhere LocalTZA caller f now) db'
  = (Store.count (PaperService.getPapersWhere LocalTZA caller f now) db
     + if negb taken && inScope then 1 else 0)%nat
  /\ Store.count (PaperService.getPapersWhere LocalTZA owner noFilters now) db'
     = (Store.count (PaperService.getPapersWhere LocalTZA owner noFilters now) db
        + if taken then 0 else 1)%nat.
Proof.
  intros db' taken inScope. subst db'. simpl tableAfter.
  rewrite createPaper_table. fold taken.
  destruct taken; simpl.
  - split; lia.
  - rewrite !count_app, !getPapersWhere_scoped. fold inScope. split; [done|].
    unfold Spec.scopedPredicate, createdRow. simpl.
    by rewrite bool_decide_eq_true_2.
Qed.

(** ** Owners do not see each other's writes *)

Lemma findUnique_unique paperId db p q :
  NoDup (List.map Store.id db) ->
  Store.findUnique paperId db = Some p ->
  q ∈ db -> Store.id q = paperId -> q = p.
Proof.
  unfold Store.findUnique. intros Hnd.
  induction db as [|r db IH]; intros Hp Hq Hid; [by apply elem_of_nil in Hq|].
  simpl in *. apply list.NoDup_cons in Hnd as [Hr Hnd].
  destruct (decide (Store.id r = paperId)) as [Hrid|Hrid].
  - rewrite bool_decide_eq_true_2 in Hp by done. simplify_eq.
    apply elem_of_cons in Hq as [->|Hq]; [done|].
    exfalso. apply Hr. rewrite list_elem_of_In. apply in_map_iff.
    exists q. rewrite <- list_elem_of_In. by split.
  - rewrite bool_decide_eq_false_2 in Hp by done.
    apply elem_of_cons in Hq as [->|Hq]; [done|]. by apply IH.
Qed.

Lemma filter_map_fixed {A} (f : A -> bool) (g : A -> A) (l : list A) :
  (forall x, x ∈ l -> f (g x) = f x /\ (f x = true -> g x = x)) ->
  List.filter f (List.map g l) = List.filter f l.
Proof.
  induction l as [|x l IH]; intros H; [done|]. simpl.
  destruct (H x) as [H1 H2]; [by left|].
  rewrite H1, IH by (intros y Hy; apply H; by right).
  destruct (f x) eqn:E; [|done]. by rewrite H2.
Qed.

(** The rows a caller's clause selects are untouched by the writes of
    another owner. *)
Lemma foreign_write_keeps_selection owner w db (f : Store.Paper -> bool) caller :
  caller <> owner ->
  NoDup (List.map Store.id db) ->
  (forall q, f q = true -> Store.userKeyId q = caller) ->
  (forall q g, (forall r, identity (g r) = identity r) ->
               Store.userKeyId q <> caller -> f (g q) = f q) ->
  List.filter f (tableAfter owner w db) = List.filter f db.
Proof.
  intros Hne Hnd Hf Hfg.
  destruct (tableAfter_change owner w db)
    as [|data now newId _ _|paperId g p Hp Ho Hg _].
  - done.
  - rewrite List.filter_app. simpl.
    destruct (f (createdRow owner data now newId)) eqn:E.
    + apply Hf in E. simpl in E. congruence.
    + by rewrite app_nil_r.
  - apply filter_map_fixed. intros q Hq.
    destruct (decide (Store.id q = paperId)) as [Hid|Hid].
    + rewrite bool_decide_eq_true_2 by done.
      assert (q = p) by (by apply (findUnique_unique paperId db)). subst q.
      assert (Hnc : Store.userKeyId p <> caller) by congruence.
      split; [by apply Hfg|].
      intros Hfp. apply Hf in Hfp. congruence.
    + by rewrite bool_decide_eq_false_2.
Qed.

Lemma scoped_ignores_edits caller st dm im lb q (g : Store.Paper -> Store.Paper) :
  (forall r, identity (g r) = identity r) ->
  Store.userKeyId q <> caller ->
  Spec.scopedPredicate caller st dm im lb (g q)
  = Spec.scopedPredicate caller st dm im lb q.
Proof.
  intros Hg Hq. unfold Spec.scopedPredicate.
  specialize (Hg q). unfold identity in Hg. injection Hg as _ _ _ _ _ Hu.
  rewrite Hu. by rewrite (bool_decide_eq_false_2 _ Hq).
Qed.

(** X7: owners are isolated from each other's writes. On a table with
    distinct identifiers, after any creation, update or archiving by one
    owner every other caller gets the same listing, page by page, and the
    same analytics as before, for every filter. *)
Theorem foreign_writes_are_invisible (LocalTZA : Z) (owner caller : string)
    (w : Write) (db : list Store.Paper) :
  caller <> owner ->
  NoDup (List.map Store.id db) ->
  (forall f pagination now,
      PaperService.getPapers LocalTZA caller f pagination now (tableAfter owner w db)
      = PaperService.getPapers LocalTZA caller f pagination now db)
  /\ (forall f now,
        AnalyticsService.getAnalytics LocalTZA caller f now (tableAfter owner w db)
        = AnalyticsService.getAnalytics LocalTZA caller f now db).
Proof.
  intros Hne Hnd. split.
  - intros f pagination now.
    assert (Hsel :
              List.filter (Store.matches (PaperService.getPapersWhere LocalTZA caller f now))
                          (tableAfter owner w db)
              = List.filter (Store.matches (PaperService.getPapersWhere LocalTZA caller f now))
                            db).
    { apply (foreign_write_keeps_selection owner w db _ caller); try done.
      - intros q Hq. rewrite getPapersWhere_scoped in Hq.
        by apply scopedPredicate_owner_live in Hq as [? _].
      - intros q g Hg Hq. rewrite !getPapersWhere_scoped.
        by apply scoped_ignores_edits. }
    unfold PaperService.getPapers, Store.findManyPage, Store.count.
    by rewrite Hsel.
  - intros f now.
    assert (Hsel :
              List.filter (Store.matches (AnalyticsService.buildWhereClause LocalTZA caller f now))
                          (tableAfter owner w db)
              = List.filter (Store.matches (AnalyticsService.buildWhereClause LocalTZA caller f now))
                            db).
    { apply (foreign_write_keeps_selection owner w db _ caller); try done.
      - intros q Hq. rewrite buildWhereClause_scoped in Hq.
        by apply scopedPredicate_owner_live in Hq as [? _].
      - intros q g Hg Hq. rewrite !buildWhereClause_scoped.
        by apply scoped_ignores_edits. }
    unfold AnalyticsService.getAnalytics, AnalyticsService.fetchPapers, Store.findMany.
    by rewrite Hsel.
Qed.

Lemma foreign_writes_are_invisible_witness :
  (forall f pagination now,
      PaperService.getPapers 0 "k2" f pagination now
        (tableAfter "k1" (Archive "p1") twoOwners)
      = PaperService.getPapers 0 "k2" f pagination now twoOwners)
  /\ (forall f now,
        AnalyticsService.getAnalytics 0 "k2" f now
          (tableAfter "k1" (Archive "p1") twoOwners)
        = AnalyticsService.getAnalytics 0 "k2" f now twoOwners).
Proof.
  apply (foreign_writes_are_invisible 0 "k1" "k2" (Archive "p1") twoOwners).
  - discriminate.
  - unfold twoOwners, sampleTable. simpl.
    repeat (apply list.NoDup_cons; split;
            [rewrite ?elem_of_cons, elem_of_nil; intros H;
             repeat destruct H as [H|H]; discriminate || done|]).
    apply NoDup_nil_2.
Defined.

(** ** An archived paper *)

Lemma archivePaper_returns paperId owner db db' :
  PaperService.archivePaper paperId owner db = (Store.Returns tt, db') ->
  db' = List.map (fun q => if bool_decide (Store.id q = paperId)
                           then archivedRow q else q) db.
Proof.
  intros H.
  destruct (Store.findUnique paperId db) as [p|] eqn:Hp.
  - destruct (decide (Store.userKeyId p = owner)) as [Ho|Ho].
    + rewrite (archivePaper_owned _ _ _ p Hp Ho) in H. congruence.
    + assert (Hnf := not_found_when paperId owner
                       {| PaperService.update_researchDomain := None;
                          PaperService.update_readingStage := None;
                          PaperService.update_citationCount := None |} db).
      rewrite Hp in Hnf. destruct (Hnf Ho) as (_ & Ha & _).
      rewrite Ha in H. discriminate.
  - assert (Hnf := not_found_when paperId owner
                     {| PaperService.update_researchDomain := None;
                        PaperService.update_readingStage := None;
                        PaperService.update_citationCount := None |} db).
    rewrite Hp in Hnf. destruct (Hnf I) as (_ & Ha & _).
    rewrite Ha in H. discriminate.
Qed.

Lemma archived_rows_with_id paperId db q :
  q ∈ List.map (fun q => if bool_decide (Store.id q = paperId)
                         then archivedRow q else q) db ->
  Store.id q = paperId -> Store.isArchived q = true.
Proof.
  rewrite list_elem_of_In, in_map_iff. intros [r [<- _]] Hid.
  destruct (decide (Store.id r = paperId)) as [Hr|Hr].
  - by rewrite bool_decide_eq_true_2.
  - rewrite bool_decide_eq_false_2 in Hid |- * by done. done.
Qed.

(** X8: once [archivePaper] has returned, the paper is gone from every
    view: for every caller, filter, page and clock reading no item of the
    listing carries its id, and no row fetched for the analytics does. *)
Theorem archived_paper_leaves_every_view (LocalTZA : Z) (paperId owner : string)
    (db db' : list Store.Paper) :
  PaperService.archivePaper paperId owner db = (Store.Returns tt, db') ->
  (forall caller f pagination now,
      match PaperService.getPapers LocalTZA caller f pagination now db' with
      | Some r => Forall (fun item => PaperService.item_id item <> paperId)
                         (PaperService.items r)
      | None => True
      end)
  /\ (forall caller f now,
        Forall (fun q => Store.id q <> paperId)
               (Store.findMany (AnalyticsService.buildWhereClause LocalTZA caller f now)
                               db')).
Proof.
  intros Harch. apply archivePaper_returns in Harch. split.
  - intros caller f pagination now.
    unfold PaperService.getPapers, Store.findManyPage.
    destruct (Store.asIndex (JS.mul _ _)) as [s|]; simpl; [|done].
    destruct (Store.asIndex _) as [t|]; simpl; [|done].
    apply Forall_map_of, Forall_firstn_skipn.
    unfold Store.orderByDateAddedDesc. rewrite merge_sort_Permutation.
    rewrite list.Forall_forall. intros q Hq.
    rewrite list_elem_of_In in Hq. apply filter_In in Hq as [Hin Hm].
    rewrite getPapersWhere_scoped in Hm.
    apply scopedPredicate_owner_live in Hm as [_ Hlive].
    intros Hid. simpl in Hid.
    rewrite <- list_elem_of_In in Hin. subst db'.
    apply (archived_rows_with_id paperId db q) in Hin; [congruence|done].
  - intros caller f now. unfold Store.findMany.
    rewrite list.Forall_forall. intros q Hq.
    rewrite list_elem_of_In in Hq. apply filter_In in Hq as [Hin Hm].
    rewrite buildWhereClause_scoped in Hm.
    apply scopedPredicate_owner_live in Hm as [_ Hlive].
    intros Hid. rewrite <- list_elem_of_In in Hin. subst db'.
    apply (archived_rows_with_id paperId db q) in Hin; [congruence|done].
Qed.

Lemma archived_paper_leaves_every_view_witness :
  (forall caller f pagination now,
      match PaperService.getPapers 0 caller f pagination now
              (tableAfter "k1" (Archive "p1") sampleTable) with
      | Some r => Forall (fun item => PaperService.item_id item <> "p1"%string)
                         (PaperService.items r)
      | None => True
      end)
  /\ (forall caller f now,
        Forall (fun q => Store.id q <> "p1"%string)
               (Store.findMany (AnalyticsService.buildWhereClause 0 caller f now)
                               (tableAfter "k1" (Archive "p1") sampleTable))).
Proof.
  apply (archived_paper_leaves_every_view 0 "p1" "k1" sampleTable).
  reflexivity.
Defined.

(** ** The pages of a listing *)

Lemma sortedDesc_lookup l i j (x y : Store.Paper) :
  Spec.sortedDesc l -> l !! i = Some x -> l !! j = Some y -> (i < j)%nat ->
  Store.dateAdded y <= Store.dateAdded x.
Proof.
  unfold Spec.sortedDesc. intros Hs. revert i j.
  induction Hs as [|a l Hs IH Ha]; intros i j Hx Hy Hij; [done|].
  destruct j as [|j]; [lia|]. simpl in Hy.
  destruct i as [|i]; simpl in Hx.
  - simplify_eq. rewrite List.Forall_forall in Ha. apply Ha.
    rewrite <- list_elem_of_In. by eapply list_elem_of_lookup_2.
  - apply (IH i j); [done..|lia].
Qed.

Lemma page_rows_lookup {A} (l : list A) (skip size : nat) (x : A) :
  x ∈ List.firstn size (List.skipn skip l) ->
  exists i, l !! (skip + i)%nat = Some x /\ (i < size)%nat.
Proof.
  intros Hx. apply elem_of_take in Hx as [i [Hi Hlt]].
  rewrite lookup_drop in Hi. by exists i.
Qed.

Lemma getPapers_page LocalTZA owner f now db (page pageSize : nat) :
  (1 <= page)%nat ->
  PaperService.getPapers LocalTZA owner f
    {| PaperService.page := Some (JS.Num (Z.of_nat page));
       PaperService.pageSize := Some (JS.Num (Z.of_nat pageSize)) |} now db
  = Some {| PaperService.items :=
              List.map PaperService.select
                (Spec.slice page pageSize
                   (Store.orderByDateAddedDesc
                      (List.filter
                         (Store.matches (PaperService.getPapersWhere LocalTZA owner f now))
                         db)));
            PaperService.pagination :=
              {| PaperService.pagination_page := JS.Num (Z.of_nat page);
                 PaperService.pagination_pageSize := JS.Num (Z.of_nat pageSize);
                 PaperService.total :=
                   Store.count (PaperService.getPapersWhere LocalTZA owner f now) db |} |}.
Proof.
  intros Hpage.
  unfold PaperService.getPapers, Store.findManyPage.
  cbn [default from_option id PaperService.page PaperService.pageSize].
  rewrite (skip_of_page _ _ Hpage), !asIndex_of_nat. reflexivity.
Qed.

(** X9: the pages of a listing tile its result. For every page number from
    1 on and every page size, the page holds min(pageSize, total - (page -
    1) * pageSize) items, so a page past the end is empty and only the last
    page can be short; and every item of a page was added no earlier than
    every item of any later page of the same listing. *)
Theorem pages_tile_the_listing (LocalTZA : Z) (owner : string)
    (f : PaperService.PaperFilters) (now : Z) (db : list Store.Paper)
    (page later pageSize : nat) :
  (1 <= page)%nat ->
  (page < later)%nat ->
  exists r r',
    PaperService.getPapers LocalTZA owner f
      {| PaperService.page := Some (JS.Num (Z.of_nat page));
         PaperService.pageSize := Some (JS.Num (Z.of_nat pageSize)) |} now db
    = Some r
    /\ PaperService.getPapers LocalTZA owner f
         {| PaperService.page := Some (JS.Num (Z.of_nat later));
            PaperService.pageSize := Some (JS.Num (Z.of_nat pageSize)) |} now db
       = Some r'
    /\ PaperService.total (PaperService.pagination r')
       = PaperService.total (PaperService.pagination r)
    /\ length (PaperService.items r)
       = Nat.min pageSize
           (PaperService.total (PaperService.pagination r) - (page - 1) * pageSize)
    /\ Forall (fun a =>
                 Forall (fun b => PaperService.item_dateAdded b
                                  <= PaperService.item_dateAdded a)
                        (PaperService.items r'))
              (PaperService.items r).
Proof.
  intros Hpage Hlater.
  rewrite !getPapers_page by lia.
  eexists. eexists. split; [reflexivity|]. split; [reflexivity|].
  cbn [PaperService.items PaperService.pagination PaperService.total].
  split; [done|].
  set (sorted := Store.orderByDateAddedDesc _).
  assert (Hlen : Store.count (PaperService.getPapersWhere LocalTZA owner f now) db
                 = length sorted).
  { unfold Store.count, sorted. by rewrite orderByDateAddedDesc_perm. }
  split.
  - unfold Spec.slice. rewrite length_map, length_take, length_drop, Hlen. done.
  - apply Forall_map_of. rewrite list.Forall_forall. intros x Hx.
    apply Forall_map_of. rewrite list.Forall_forall. intros y Hy.
    apply page_rows_lookup in Hx as [i [Hi Hilt]].
    apply page_rows_lookup in Hy as [j [Hj Hjlt]].
    simpl. eapply (sortedDesc_lookup sorted); [|exact Hi|exact Hj|].
    + apply orderByDateAddedDesc_sorted.
    + nia.
Qed.

Lemma pages_tile_the_listing_witness :
  exists r r',
    PaperService.getPapers 0 "k1" noFilters
      {| PaperService.page := Some (JS.Num (Z.of_nat 1));
         PaperService.pageSize := Some (JS.Num (Z.of_nat 1)) |} 0 sampleTable
    = Some r
    /\ PaperService.getPapers 0 "k1" noFilters
         {| PaperService.page := Some (JS.Num (Z.of_nat 2));
            PaperService.pageSize := Some (JS.Num (Z.of_nat 1)) |} 0 sampleTable
       = Some r'
    /\ PaperService.total (PaperService.pagination r')
       = PaperService.total (PaperService.pagination r)
    /\ length (PaperService.items r)
       = Nat.min 1 (PaperService.total (PaperService.pagination r) - (1 - 1) * 1)
    /\ Forall (fun a =>
                 Forall (fun b => PaperService.item_dateAdded b
                                  <= PaperService.item_dateAdded a)
                        (PaperService.items r'))
              (PaperService.items r).
Proof.
  apply (pages_tile_the_listing 0 "k1" noFilters 0 sampleTable 1 2 1); lia.
Defined.

(** ** Listing and analytics on the same scope *)

(** The analytics do not depend on the order in which the store returns
    the rows. *)
Lemma filter_perm {A} (f : A -> bool) (l l' : list A) :
  l ≡ₚ l' -> List.filter f l ≡ₚ List.filter f l'.
Proof.
  induction 1 as [|x l l' _ IH|x y l|l l' l'' _ IH1 _ IH2]; simpl.
  - done.
  - destruct (f x); [by constructor|done].
  - destruct (f x), (f y); try done. apply perm_swap.
  - by etrans.
Qed.

Lemma count_if_perm {A} (f : A -> bool) (l l' : list A) :
  l ≡ₚ l' -> Spec.count_if f l = Spec.count_if f l'.
Proof.
  intros H. unfold Spec.count_if. apply Permutation_length, filter_perm, H.
Qed.

Lemma sumCitations_perm rows rows' :
  rows ≡ₚ rows' -> Spec.sumCitations rows = Spec.sumCitations rows'.
Proof.
  unfold Spec.sumCitations.
  induction 1 as [|x l l' _ IH|x y l|l l' l'' _ IH1 _ IH2]; simpl; lia.
Qed.

Lemma funnel_perm rows rows' :
  rows ≡ₚ rows' ->
  AnalyticsService.computeFunnelData rows = AnalyticsService.computeFunnelData rows'.
Proof.
  intros H. rewrite !funnel_entries. apply List.map_ext. intros s.
  by rewrite (count_if_perm _ _ _ H).
Qed.

Lemma bars_perm rows rows' :
  rows ≡ₚ rows' ->
  AnalyticsService.computeStackedBarData rows
  = AnalyticsService.computeStackedBarData rows'.
Proof.
  intros H. rewrite !bars_entries. apply List.map_ext. intros d. f_equal.
  apply map_eq. intros s. rewrite !bars_lookup. unfold cell.
  by rewrite (count_if_perm _ _ _ H).
Qed.

Lemma summary_perm rows rows' :
  rows ≡ₚ rows' ->
  AnalyticsService.computeSummaryMetrics rows
  = AnalyticsService.computeSummaryMetrics rows'.
Proof.
  intros H.
  assert (Havg : AnalyticsService.avgCitationsByDomain
                   (AnalyticsService.computeSummaryMetrics rows)
                 = AnalyticsService.avgCitationsByDomain
                     (AnalyticsService.computeSummaryMetrics rows')).
  { apply map_eq. intros d. rewrite !avgCitations_lookup. unfold meanCitations.
    pose proof (filter_perm (inDomain d) _ _ H) as Hd.
    by rewrite (Permutation_length Hd), (sumCitations_perm _ _ Hd). }
  assert (Hfully : Spec.count_if
                     (fun paper => bool_decide
                        (AnalyticsService.row_readingStage paper = FULLY_READ)) rows
                   = Spec.count_if
                       (fun paper => bool_decide
                          (AnalyticsService.row_readingStage paper = FULLY_READ)) rows')
    by apply count_if_perm, H.
  unfold AnalyticsService.computeSummaryMetrics in *.
  cbn [AnalyticsService.avgCitationsByDomain] in Havg.
  unfold Spec.count_if in Hfully.
  by rewrite Havg, Hfully, (Permutation_length H).
Qed.

(** X10: listing and analytics agree on what is in scope. For the same
    caller, filter and clock reading, the [total] of any page of the listing
    equals [totalPapers] of the analytics summary, and the scatter holds one
    entry per matching row, with its citation count and impact score, in an
    order that is the store's. In whatever order the store returns the
    matching rows, the funnel, the stacked bar and the summary are the same,
    and the scatter is the same up to order. *)
Theorem listing_and_analytics_agree (LocalTZA : Z) (caller : string)
    (f : PaperService.PaperFilters) (now : Z) (db : list Store.Paper) :
  let analytics :=
    AnalyticsService.getAnalytics LocalTZA caller (toAnalytics f) now db in
  let scope :=
    Spec.scopedPredicate caller (PaperService.readingStages f)
      (PaperService.researchDomains f) (PaperService.impactScores f)
      (Spec.window LocalTZA (PaperService.dateRange f) now) in
  (forall pagination,
      match PaperService.getPapers LocalTZA caller f pagination now db with
      | Some r => PaperService.total (PaperService.pagination r)
                  = AnalyticsService.totalPapers (AnalyticsService.summary analytics)
      | None => True
      end)
  /\ AnalyticsService.totalPapers (AnalyticsService.summary analytics)
     = Spec.count_if scope db
  /\ length (AnalyticsService.scatter analytics)
     = AnalyticsService.totalPapers (AnalyticsService.summary analytics)
  /\ AnalyticsService.scatter analytics
     ≡ₚ List.map (fun q => {| AnalyticsService.citationCount := Store.citationCount q;
                              AnalyticsService.impactScore := Store.impactScore q |})
                 (List.filter scope db)
  /\ (forall rows,
        rows ≡ₚ AnalyticsService.fetchPapers LocalTZA caller (toAnalytics f) now db ->
        AnalyticsService.computeFunnelData rows = AnalyticsService.funnel analytics
        /\ AnalyticsService.computeStackedBarData rows
           = AnalyticsService.stackedBar analytics
        /\ AnalyticsService.computeSummaryMetrics rows
           = AnalyticsService.summary analytics
        /\ AnalyticsService.computeScatterData rows
           ≡ₚ AnalyticsService.scatter analytics).
Proof.
  intros analytics scope.
  assert (Hrows : Store.findMany
                    (AnalyticsService.buildWhereClause LocalTZA caller (toAnalytics f) now) db
                  = List.filter scope db).
  { unfold Store.findMany. apply List.filter_ext. intros q.
    by rewrite where_clauses_agree, getPapersWhere_scoped. }
  assert (Htotal : AnalyticsService.totalPapers (AnalyticsService.summary analytics)
                   = Spec.count_if scope db).
  { subst analytics.
    unfold AnalyticsService.getAnalytics, AnalyticsService.fetchPapers.
    cbn [AnalyticsService.summary]. unfold AnalyticsService.computeSummaryMetrics.
    cbn [AnalyticsService.totalPapers]. by rewrite Hrows, length_map. }
  split; [|split; [exact Htotal|split; [|split]]].
  - intros pagination. rewrite Htotal. unfold PaperService.getPapers.
    destruct (Store.findManyPage _ _ _ db); simpl; [|done].
    unfold Store.count, Spec.count_if. f_equal.
    apply List.filter_ext. intros q. apply getPapersWhere_scoped.
  - subst analytics.
    unfold AnalyticsService.getAnalytics, AnalyticsService.computeScatterData.
    cbn [AnalyticsService.scatter AnalyticsService.summary].
    unfold AnalyticsService.computeSummaryMetrics.
    cbn [AnalyticsService.totalPapers]. by rewrite length_map.
  - subst analytics.
    unfold AnalyticsService.getAnalytics, AnalyticsService.computeScatterData,
      AnalyticsService.fetchPapers.
    cbn [AnalyticsService.scatter]. by rewrite Hrows, List.map_map.
  - intros rows Hperm. subst analytics. unfold AnalyticsService.getAnalytics.
    cbn [AnalyticsService.funnel AnalyticsService.stackedBar
         AnalyticsService.summary AnalyticsService.scatter].
    split; [by apply funnel_perm|]. split; [by apply bars_perm|].
    split; [by apply summary_perm|].
    unfold AnalyticsService.computeScatterData. by apply Permutation_map.
Qed.

(** ** The month windows *)

Section MonthFacts.
Import JSDate.

Lemma leap_flag y :
  DaysInYear y = 365 + (if DaysInYear y =? 366 then 1 else 0).
Proof.
  pose proof (DaysInYear_range y).
  destruct (Z.eqb_spec (DaysInYear y) 366); lia.
Qed.

(** The year of a day is the only year whose days contain it. *)
Lemma YearFromTime_unique t y :
  DayFromYear y <= Day t < DayFromYear (y + 1) -> YearFromTime t = y.
Proof.
  intros Hy. pose proof (YearFromTime_spec t) as HY.
  set (Y := YearFromTime t) in *. clearbody Y.
  unfold DayFromYear in *. Z.div_mod_to_equations. lia.
Qed.

Lemma daysBeforeMonth_next m leap :
  0 <= m <= 11 -> 0 <= leap <= 1 ->
  28 <= (if m =? 11 then 365 + leap else daysBeforeMonth (m + 1) leap)
        - daysBeforeMonth m leap <= 31.
Proof.
  intros Hm Hl.
  assert (Hc : m = 0 \/ m = 1 \/ m = 2 \/ m = 3 \/ m = 4 \/ m = 5 \/ m = 6
               \/ m = 7 \/ m = 8 \/ m = 9 \/ m = 10 \/ m = 11) by lia.
  repeat destruct Hc as [->|Hc]; try subst m; unfold daysBeforeMonth; simpl; lia.
Qed.

(** The month of a time is the month whose days contain its day of the
    year. *)
Lemma MonthFromTime_of_day t m :
  0 <= m <= 11 ->
  daysBeforeMonth m (InLeapYear t) <= DayWithinYear t
  < (if m =? 11 then 365 + InLeapYear t else daysBeforeMonth (m + 1) (InLeapYear t)) ->
  MonthFromTime t = m.
Proof.
  intros Hm Hd. unfold MonthFromTime.
  assert (Hl : 0 <= InLeapYear t <= 1).
  { unfold InLeapYear. destruct (DaysInYear (YearFromTime t) =? 366); lia. }
  set (leap := InLeapYear t) in *. set (d := DayWithinYear t) in *.
  clearbody leap d.
  assert (Hc : m = 0 \/ m = 1 \/ m = 2 \/ m = 3 \/ m = 4 \/ m = 5 \/ m = 6
               \/ m = 7 \/ m = 8 \/ m = 9 \/ m = 10 \/ m = 11) by lia.
  repeat destruct Hc as [->|Hc]; try subst m; unfold daysBeforeMonth in Hd;
    simpl in Hd;
    repeat match goal with
           | |- context [?a <? ?b] => destruct (Z.ltb_spec a b)
           end; lia.
Qed.

Lemma MonthFromTime_bounds t :
  daysBeforeMonth (MonthFromTime t) (InLeapYear t) <= DayWithinYear t
  < (if MonthFromTime t =? 11 then 365 + InLeapYear t
     else daysBeforeMonth (MonthFromTime t + 1) (InLeapYear t)).
Proof.
  pose proof (DayWithinYear_range t) as Hd.
  unfold MonthFromTime. unfold InLeapYear in *.
  rewrite (leap_flag (YearFromTime t)) in Hd.
  set (leap := if DaysInYear (YearFromTime t) =? 366 then 1 else 0) in *.
  set (d := DayWithinYear t) in *. clearbody leap d.
  repeat match goal with
         | |- context [?a <? ?b] => destruct (Z.ltb_spec a b)
         end; unfold daysBeforeMonth; simpl; lia.
Qed.

Lemma DateFromTime_range t : 1 <= DateFromTime t <= 31.
Proof.
  pose proof (MonthFromTime_bounds t) as Hb.
  pose proof (MonthFromTime_range t) as Hm.
  assert (Hl : 0 <= InLeapYear t <= 1).
  { unfold InLeapYear. destruct (DaysInYear (YearFromTime t) =? 366); lia. }
  pose proof (daysBeforeMonth_next _ _ Hm Hl).
  unfold DateFromTime. lia.
Qed.

(** The day number in terms of the fields of the date. *)
Lemma Day_fields t :
  Day t = DayFromYear (YearFromTime t)
          + daysBeforeMonth (MonthFromTime t) (InLeapYear t)
          + DateFromTime t - 1.
Proof. unfold DateFromTime, DayWithinYear. lia. Qed.

(** The fields of the date at day [MakeDay y m dt], when [dt] is a day of
    month [m] of year [y]. *)
Lemma fields_of_MakeDay t y m dt :
  0 <= m <= 11 -> 1 <= dt <= 28 ->
  Day t = MakeDay y m dt ->
  YearFromTime t = y /\ MonthFromTime t = m /\ DateFromTime t = dt.
Proof.
  intros Hm Hdt Hday. unfold MakeDay in Hday.
  replace (m / 12) with 0 in Hday by (Z.div_mod_to_equations; lia).
  replace (m mod 12) with m in Hday by (Z.div_mod_to_equations; lia).
  rewrite Z.add_0_r in Hday.
  set (leap := if DaysInYear y =? 366 then 1 else 0) in *.
  assert (Hl : 0 <= leap <= 1) by (subst leap; destruct (_ =? _); lia).
  pose proof (daysBeforeMonth_next m leap Hm Hl) as Hnext.
  assert (Hlast : (if m =? 11 then 365 + leap else daysBeforeMonth (m + 1) leap)
                  <= 365 + leap).
  { assert (Hc : m = 0 \/ m = 1 \/ m = 2 \/ m = 3 \/ m = 4 \/ m = 5 \/ m = 6
                 \/ m = 7 \/ m = 8 \/ m = 9 \/ m = 10 \/ m = 11) by lia.
    repeat destruct Hc as [->|Hc]; try subst m; unfold daysBeforeMonth; simpl; lia. }
  assert (Hfirst : 0 <= daysBeforeMonth m leap).
  { assert (Hc : m = 0 \/ m = 1 \/ m = 2 \/ m = 3 \/ m = 4 \/ m = 5 \/ m = 6
                 \/ m = 7 \/ m = 8 \/ m = 9 \/ m = 10 \/ m = 11) by lia.
    repeat destruct Hc as [->|Hc]; try subst m; unfold daysBeforeMonth; simpl; lia. }
  assert (Hy : YearFromTime t = y).
  { apply YearFromTime_unique. rewrite DayFromYear_step, (leap_flag y).
    fold leap. lia. }
  assert (Hleap : InLeapYear t = leap).
  { unfold InLeapYear. by rewrite Hy. }
  assert (Hdwy : DayWithinYear t = daysBeforeMonth m leap + dt - 1).
  { unfold DayWithinYear. rewrite Hy. lia. }
  assert (Hmonth : MonthFromTime t = m).
  { apply MonthFromTime_of_day; [done|]. rewrite Hleap, Hdwy. lia. }
  split; [done|]. split; [done|].
  unfold DateFromTime. rewrite Hmonth, Hleap, Hdwy. lia.
Qed.

Variable LocalTZA : Z.

Lemma Day_of_midnight d time :
  0 <= time < msPerDay -> Day (d * msPerDay + time) = d.
Proof. unfold Day, msPerDay. intros H. Z.div_mod_to_equations. lia. Qed.

Lemma TimeWithinDay_range t : 0 <= TimeWithinDay t < msPerDay.
Proof. unfold TimeWithinDay, msPerDay. Z.div_mod_to_equations. lia. Qed.

End MonthFacts.

Lemma MakeDay_first t :
  JSDate.MakeDay (JSDate.YearFromTime t) (JSDate.MonthFromTime t) 1
  = JSDate.Day t - (JSDate.DateFromTime t - 1).
Proof.
  pose proof (MakeDay_fields t (1 - JSDate.DateFromTime t)) as H.
  replace (JSDate.DateFromTime t + (1 - JSDate.DateFromTime t)) with 1 in H by lia.
  lia.
Qed.

Lemma setHours_midnight_value LocalTZA d time :
  0 <= time < JSDate.msPerDay ->
  JSDate.setHours LocalTZA (JSDate.UTC LocalTZA (JSDate.MakeDate d time)) 0 0 0 0
  = d * JSDate.msPerDay - LocalTZA.
Proof.
  intros Htime. unfold JSDate.setHours, JSDate.UTC, JSDate.LocalTime.
  replace (JSDate.MakeDate d time - LocalTZA + LocalTZA)
    with (d * JSDate.msPerDay + time) by (unfold JSDate.MakeDate; lia).
  rewrite Day_of_midnight by done.
  unfold JSDate.MakeDate, JSDate.MakeTime. lia.
Qed.

Lemma getDateRangeStart_this_month LocalTZA now :
  ~ (0 <= JSDate.getFullYear LocalTZA now <= 99) ->
  PaperService.getDateRangeStart LocalTZA "THIS_MONTH" now
  = Some ((JSDate.Day (JSDate.LocalTime LocalTZA now)
           - (JSDate.getDate LocalTZA now - 1)) * JSDate.msPerDay - LocalTZA).
Proof.
  intros Hyear.
  unfold PaperService.getDateRangeStart. simpl String.eqb. cbv iota.
  f_equal. unfold JSDate.newDate.
  replace ((0 <=? JSDate.getFullYear LocalTZA now)
           && (JSDate.getFullYear LocalTZA now <=? 99)) with false
    by (symmetry; apply andb_false_iff; lia).
  rewrite setHours_midnight_value by (unfold JSDate.MakeTime, JSDate.msPerDay; lia).
  unfold JSDate.getFullYear, JSDate.getMonth, JSDate.getDate.
  by rewrite MakeDay_first.
Qed.

(** X11: THIS_MONTH resolves, in both services, to the local midnight that
    begins the first day of the current month: a midnight not after [now]
    whose day of month is 1 and whose month and year are those of [now].
    The clock must not read a year from 0 to 99, which [new Date(y, m, d)]
    takes for 1900 + y. *)
Theorem this_month_is_first_of_month (LocalTZA now : Z) :
  ~ (0 <= JSDate.getFullYear LocalTZA now <= 99) ->
  exists start,
    PaperService.getDateRangeStart LocalTZA "THIS_MONTH" now = Some start
    /\ AnalyticsService.getDateRangeStart LocalTZA "THIS_MONTH" now = Some start
    /\ JSDate.TimeWithinDay (JSDate.LocalTime LocalTZA start) = 0
    /\ JSDate.getDate LocalTZA start = 1
    /\ JSDate.getMonth LocalTZA start = JSDate.getMonth LocalTZA now
    /\ JSDate.getFullYear LocalTZA start = JSDate.getFullYear LocalTZA now
    /\ start <= now.
Proof.
  intros Hyear. eexists.
  split; [by apply getDateRangeStart_this_month|].
  split; [by apply (getDateRangeStart_this_month LocalTZA now)|].
  set (t := JSDate.LocalTime LocalTZA now).
  set (d0 := JSDate.Day t - (JSDate.getDate LocalTZA now - 1)).
  assert (Hlocal : JSDate.LocalTime LocalTZA (d0 * JSDate.msPerDay - LocalTZA)
                   = d0 * JSDate.msPerDay + 0).
  { unfold JSDate.LocalTime. lia. }
  assert (Hday : JSDate.Day (JSDate.LocalTime LocalTZA (d0 * JSDate.msPerDay - LocalTZA))
                 = d0).
  { rewrite Hlocal. apply Day_of_midnight. unfold JSDate.msPerDay. lia. }
  pose proof (MonthFromTime_range t) as Hm.
  pose proof (DateFromTime_range t) as Hd.
  assert (Hfields := fields_of_MakeDay
                       (JSDate.LocalTime LocalTZA (d0 * JSDate.msPerDay - LocalTZA))
                       (JSDate.YearFromTime t) (JSDate.MonthFromTime t) 1 Hm
                       ltac:(lia)).
  destruct Hfields as (Hy & Hmo & Hda).
  { rewrite Hday. unfold d0, JSDate.getDate. fold t.
    by rewrite MakeDay_first. }
  split.
  { rewrite Hlocal. unfold JSDate.TimeWithinDay, JSDate.msPerDay.
    Z.div_mod_to_equations. lia. }
  split; [exact Hda|]. split; [exact Hmo|]. split; [exact Hy|].
  assert (Ht : JSDate.Day t * JSDate.msPerDay <= t).
  { unfold JSDate.Day, JSDate.msPerDay. Z.div_mod_to_equations. lia. }
  unfold d0, JSDate.getDate. fold t. unfold t, JSDate.LocalTime in *.
  unfold JSDate.msPerDay in *. nia.
Qed.

Lemma this_month_is_first_of_month_witness :
  exists start,
    PaperService.getDateRangeStart 0 "THIS_MONTH" 1793547000000 = Some start
    /\ AnalyticsService.getDateRangeStart 0 "THIS_MONTH" 1793547000000 = Some start
    /\ JSDate.TimeWithinDay (JSDate.LocalTime 0 start) = 0
    /\ JSDate.getDate 0 start = 1
    /\ JSDate.getMonth 0 start = JSDate.getMonth 0 1793547000000
    /\ JSDate.getFullYear 0 start = JSDate.getFullYear 0 1793547000000
    /\ start <= 1793547000000.
Proof.
  apply (this_month_is_first_of_month 0 1793547000000).
  vm_compute. intros [_ H]. by apply H.
Defined.

Lemma getDateRangeStart_last_3_months LocalTZA now :
  PaperService.getDateRangeStart LocalTZA "LAST_3_MONTHS" now
  = Some (JSDate.MakeDay (JSDate.getFullYear LocalTZA now)
                         (JSDate.getMonth LocalTZA now - 3)
                         (JSDate.getDate LocalTZA now)
          * JSDate.msPerDay - LocalTZA).
Proof.
  unfold PaperService.getDateRangeStart. simpl String.eqb. cbv iota.
  f_equal. unfold JSDate.setMonth.
  rewrite setHours_midnight_value by apply TimeWithinDay_range.
  reflexivity.
Qed.

(** Three months back, counted in days: between 89 and 92. *)
Lemma three_months_in_days t :
  89 <= JSDate.Day t
        - JSDate.MakeDay (JSDate.YearFromTime t) (JSDate.MonthFromTime t - 3)
                         (JSDate.DateFromTime t)
     <= 92.
Proof.
  pose proof (Day_fields t) as Hday.
  pose proof (MonthFromTime_range t) as Hm.
  unfold JSDate.InLeapYear, JSDate.MakeDay in *.
  set (y := JSDate.YearFromTime t) in *. set (m := JSDate.MonthFromTime t) in *.
  set (dt := JSDate.DateFromTime t) in *. set (d := JSDate.Day t) in *.
  clearbody y m dt d.
  pose proof (DayFromYear_step (y - 1)) as Hstep.
  replace (y - 1 + 1) with y in Hstep by lia.
  rewrite (leap_flag (y - 1)) in Hstep.
  assert (Hc : m = 0 \/ m = 1 \/ m = 2 \/ m = 3 \/ m = 4 \/ m = 5 \/ m = 6
               \/ m = 7 \/ m = 8 \/ m = 9 \/ m = 10 \/ m = 11) by lia.
  repeat destruct Hc as [->|Hc]; try subst m;
    match goal with
    | |- context [(?a - 3) / 12] =>
        let q := eval vm_compute in ((a - 3) / 12) in
        let r := eval vm_compute in ((a - 3) mod 12) in
        change ((a - 3) / 12) with q; change ((a - 3) mod 12) with r
    end;
    rewrite ?Z.add_0_r; change (y + -1) with (y - 1);
    unfold JSDate.daysBeforeMonth in *; simpl Z.eqb in *; cbv iota in *;
    destruct (JSDate.DaysInYear y =? 366);
    destruct (JSDate.DaysInYear (y - 1) =? 366); lia.
Qed.

(** X12: LAST_3_MONTHS resolves, in both services, to a local midnight
    that lies between 89 and 92 days before the midnight that began today,
    and so never after [now]. *)
Theorem last_three_months_is_89_to_92_days (LocalTZA now : Z) :
  exists start,
    PaperService.getDateRangeStart LocalTZA "LAST_3_MONTHS" now = Some start
    /\ AnalyticsService.getDateRangeStart LocalTZA "LAST_3_MONTHS" now = Some start
    /\ JSDate.TimeWithinDay (JSDate.LocalTime LocalTZA start) = 0
    /\ 89 <= JSDate.Day (JSDate.LocalTime LocalTZA now)
             - JSDate.Day (JSDate.LocalTime LocalTZA start) <= 92
    /\ start <= now.
Proof.
  eexists.
  split; [apply getDateRangeStart_last_3_months|].
  split; [apply (getDateRangeStart_last_3_months LocalTZA now)|].
  unfold JSDate.getFullYear, JSDate.getMonth, JSDate.getDate.
  set (t := JSDate.LocalTime LocalTZA now).
  pose proof (three_months_in_days t) as Hdays.
  set (d0 := JSDate.MakeDay _ _ _) in *.
  assert (Hlocal : JSDate.LocalTime LocalTZA (d0 * JSDate.msPerDay - LocalTZA)
                   = d0 * JSDate.msPerDay + 0).
  { unfold JSDate.LocalTime. lia. }
  rewrite Hlocal, Day_of_midnight by (unfold JSDate.msPerDay; lia).
  split.
  { unfold JSDate.TimeWithinDay, JSDate.msPerDay. Z.div_mod_to_equations. lia. }
  split; [exact Hdays|].
  assert (Ht : JSDate.Day t * JSDate.msPerDay <= t).
  { unfold JSDate.Day, JSDate.msPerDay. Z.div_mod_to_equations. lia. }
  unfold t, JSDate.LocalTime, JSDate.msPerDay in *. lia.
Qed.

Lemma MakeDay_normal y m dt :
  JSDate.MakeDay y m dt = JSDate.MakeDay (y + m / 12) (m mod 12) dt.
Proof.
  unfold JSDate.MakeDay.
  replace (m mod 12 / 12) with 0 by (Z.div_mod_to_equations; lia).
  replace ((m mod 12) mod 12) with (m mod 12) by (Z.div_mod_to_equations; lia).
  by rewrite Z.add_0_r.
Qed.

(** X13: when today's day of month is at most 28, LAST_3_MONTHS resolves
    to the midnight that began the same day of month three calendar months
    earlier, in the year before for January, February and March. *)
Theorem last_three_months_keeps_day_of_month (LocalTZA now : Z) :
  JSDate.getDate LocalTZA now <= 28 ->
  exists start,
    PaperService.getDateRangeStart LocalTZA "LAST_3_MONTHS" now = Some start
    /\ JSDate.TimeWithinDay (JSDate.LocalTime LocalTZA start) = 0
    /\ JSDate.getDate LocalTZA start = JSDate.getDate LocalTZA now
    /\ JSDate.getMonth LocalTZA start = (JSDate.getMonth LocalTZA now - 3) mod 12
    /\ JSDate.getFullYear LocalTZA start
       = JSDate.getFullYear LocalTZA now
         - (if JSDate.getMonth LocalTZA now <? 3 then 1 else 0).
Proof.
  intros Hdate. eexists.
  split; [apply getDateRangeStart_last_3_months|].
  unfold JSDate.getFullYear, JSDate.getMonth, JSDate.getDate in *.
  set (t := JSDate.LocalTime LocalTZA now) in *.
  set (d0 := JSDate.MakeDay _ _ _).
  assert (Hlocal : JSDate.LocalTime LocalTZA (d0 * JSDate.msPerDay - LocalTZA)
                   = d0 * JSDate.msPerDay + 0).
  { unfold JSDate.LocalTime. lia. }
  assert (Hday : JSDate.Day (JSDate.LocalTime LocalTZA (d0 * JSDate.msPerDay - LocalTZA))
                 = d0).
  { rewrite Hlocal. apply Day_of_midnight. unfold JSDate.msPerDay. lia. }
  pose proof (MonthFromTime_range t) as Hm.
  pose proof (DateFromTime_range t) as Hd.
  destruct (fields_of_MakeDay
              (JSDate.LocalTime LocalTZA (d0 * JSDate.msPerDay - LocalTZA))
              (JSDate.YearFromTime t + (JSDate.MonthFromTime t - 3) / 12)
              ((JSDate.MonthFromTime t - 3) mod 12)
              (JSDate.DateFromTime t))
    as (Hy & Hmo & Hda).
  { Z.div_mod_to_equations. lia. }
  { lia. }
  { rewrite Hday. unfold d0. apply MakeDay_normal. }
  split.
  { rewrite Hlocal. unfold JSDate.TimeWithinDay, JSDate.msPerDay.
    Z.div_mod_to_equations. lia. }
  split; [exact Hda|]. split; [exact Hmo|].
  rewrite Hy. destruct (Z.ltb_spec (JSDate.MonthFromTime t) 3);
    Z.div_mod_to_equations; lia.
Qed.

Lemma last_three_months_keeps_day_of_month_witness :
  exists start,
    PaperService.getDateRangeStart 0 "LAST_3_MONTHS" 1793547000000 = Some start
    /\ JSDate.TimeWithinDay (JSDate.LocalTime 0 start) = 0
    /\ JSDate.getDate 0 start = JSDate.getDate 0 1793547000000
    /\ JSDate.getMonth 0 start = (JSDate.getMonth 0 1793547000000 - 3) mod 12
    /\ JSDate.getFullYear 0 start
       = JSDate.getFullYear 0 1793547000000
         - (if JSDate.getMonth 0 1793547000000 <? 3 then 1 else 0).
Proof.
  apply (last_three_months_keeps_day_of_month 0 1793547000000).
  by vm_compute.
Defined.

(** ** Page numbers written as numerals *)

Lemma digitsPrefix_numeral d acc :
  0 <= acc ->
  JS.digitsPrefix (Some acc) (DecimalString.NilEmpty.string_of_uint d)
  = Some (Z.of_nat (Nat.of_uint_acc d (Z.to_nat acc))).
Proof.
  revert acc. induction d as [|d IH|d IH|d IH|d IH|d IH|d IH|d IH|d IH|d IH|d IH];
    intros acc Hacc; simpl DecimalString.NilEmpty.string_of_uint;
    [simpl; f_equal; lia|..];
    cbn [JS.digitsPrefix];
    match goal with
    | |- context [JS.digitValue ?c] =>
        let v := eval vm_compute in (JS.digitValue c) in
        change (JS.digitValue c) with v
    end;
    cbn [default from_option id];
    rewrite IH by lia; f_equal; f_equal;
    cbn [Nat.of_uint_acc]; rewrite Nat.tail_mul_spec; f_equal; lia.
Qed.

Lemma parseInt10_toString (n : nat) :
  JS.parseInt10 (JSString.toString n) = JS.Num (Z.of_nat n).
Proof.
  unfold JSString.toString.
  rewrite <- (DecimalNat.Unsigned.of_to n) at 2.
  unfold Nat.of_uint. generalize (Nat.to_uint n). intros d.
  destruct d; [reflexivity|..];
    unfold DecimalString.NilZero.string_of_uint;
    cbn [DecimalString.NilEmpty.string_of_uint];
    unfold JS.parseInt10; cbn [JS.trimStart];
    match goal with
    | |- context [JS.isWhiteSpace ?c] =>
        let v := eval vm_compute in (JS.isWhiteSpace c) in
        change (JS.isWhiteSpace c) with v
    end; cbv iota; cbn [JS.digitsPrefix];
    match goal with
    | |- context [JS.digitValue ?c] =>
        let v := eval vm_compute in (JS.digitValue c) in
        change (JS.digitValue c) with v
    end;
    cbn [default from_option id];
    rewrite digitsPrefix_numeral by lia;
    cbn [Nat.of_uint_acc]; f_equal; rewrite Z.mul_1_l; f_equal; f_equal;
    rewrite Nat.tail_mul_spec; lia.
Qed.

Lemma toString_not_empty (n : nat) : String.eqb (JSString.toString n) "" = false.
Proof.
  unfold JSString.toString. by destruct (Nat.to_uint n).
Qed.

(** X14: a page number and a page size that are safe integers and are
    written as decimal numerals, the way [n.toString()] writes them, are
    read back as the same numbers, zero included; for a page number from 1
    on the listing then answers with that page and page size in its
    pagination. *)
Theorem numerals_are_read_back (page pageSize : nat) :
  safeInteger page ->
  safeInteger pageSize ->
  let query :=
    {| Query.readingStages := None; Query.domains := None;
       Query.impactScores := None; Query.dateRange := None;
       Query.page := Some (Query.QOne (Query.QStr (JSString.toString page)));
       Query.pageSize := Some (Query.QOne (Query.QStr (JSString.toString pageSize))) |} in
  JS.parseInt10 (JSString.toString page) = JS.Num (Z.of_nat page)
  /\ PaperController.parsePagination query
     = {| PaperService.page := Some (JS.Num (Z.of_nat page));
          PaperService.pageSize := Some (JS.Num (Z.of_nat pageSize)) |}
  /\ forall LocalTZA owner f now db,
       (1 <= page)%nat ->
       exists r,
         PaperService.getPapers LocalTZA owner f
           (PaperController.parsePagination query) now db = Some r
         /\ PaperService.pagination_page (PaperService.pagination r)
            = JS.Num (Z.of_nat page)
         /\ PaperService.pagination_pageSize (PaperService.pagination r)
            = JS.Num (Z.of_nat pageSize).
Proof.
  intros _ _ query.
  assert (Hq : PaperController.parsePagination query
               = {| PaperService.page := Some (JS.Num (Z.of_nat page));
                    PaperService.pageSize := Some (JS.Num (Z.of_nat pageSize)) |}).
  { unfold PaperController.parsePagination, query, parseNumber. simpl.
    by rewrite !toString_not_empty, !parseInt10_toString. }
  split; [apply parseInt10_toString|]. split; [exact Hq|].
  intros LocalTZA owner f now db Hpage. rewrite Hq, getPapers_page by done.
  eexists. by split.
Qed.

Lemma numerals_are_read_back_witness :
  exists r,
    PaperService.getPapers 0 "k1" noFilters
      (PaperController.parsePagination
         {| Query.readingStages := None; Query.domains := None;
            Query.impactScores := None; Query.dateRange := None;
            Query.page := Some (Query.QOne (Query.QStr (JSString.toString 2)));
            Query.pageSize := Some (Query.QOne (Query.QStr (JSString.toString 25))) |})
      0 sampleTable = Some r
    /\ PaperService.pagination_page (PaperService.pagination r) = JS.Num (Z.of_nat 2)
    /\ PaperService.pagination_pageSize (PaperService.pagination r)
       = JS.Num (Z.of_nat 25).
Proof.
  assert (H2 : safeInteger 2) by (unfold safeInteger; lia).
  assert (H25 : safeInteger 25) by (unfold safeInteger; lia).
  apply (proj2 (proj2 (numerals_are_read_back 2 25 H2 H25))
           0 "k1" noFilters 0 sampleTable).
  lia.
Defined.

(** ** The rate limiter *)

Section RateLimiterFacts.
Variables READ_LIMIT WRITE_LIMIT : Z.

Lemma putInfo_present user ty info store l :
  store !! user = Some l ->
  RateLimiter.putInfo user ty info store = <[user := withInfo l ty info]> store.
Proof. intros H. unfold RateLimiter.putInfo. rewrite H. by destruct ty. Qed.

Lemma infoOf_withInfo l ty info :
  RateLimiter.infoOf (withInfo l ty info) ty = info
  /\ RateLimiter.infoOf (withInfo l ty info) (otherType ty)
     = RateLimiter.infoOf l (otherType ty).
Proof. by destruct ty. Qed.

Lemma withInfo_withInfo l ty a b : withInfo (withInfo l ty a) ty b = withInfo l ty b.
Proof. by destruct ty. Qed.

(** One request of a caller who has an entry. *)
Lemma rateLimiter_present method user now0 now1 now2 store l :
  store !! user = Some l ->
  let ty := RateLimiter.getRequestType method in
  let info := RateLimiter.resetIfExpired (RateLimiter.infoOf l ty) now2 in
  RateLimiter.rateLimiter READ_LIMIT WRITE_LIMIT method user now0 now1 now2 store
  = if RateLimiter.getLimit READ_LIMIT WRITE_LIMIT ty <=? RateLimiter.count info
    then (Some tooManyRequests, <[user := withInfo l ty info]> store)
    else (None,
          <[user := withInfo l ty
                      {| RateLimiter.count := RateLimiter.count info + 1;
                         RateLimiter.resetTime := RateLimiter.resetTime info |}]> store).
Proof.
  intros Hl ty info.
  unfold RateLimiter.rateLimiter, RateLimiter.getRateLimitInfo. rewrite Hl.
  fold ty. fold info.
  rewrite (putInfo_present _ _ _ _ l Hl).
  destruct (_ <=? _); [done|].
  rewrite (putInfo_present _ _ _ _ (withInfo l ty info)) by apply lookup_insert_eq.
  by rewrite insert_insert_eq, withInfo_withInfo.
Qed.

(** The first request of a caller creates the entry and goes on as if it
    had been there. *)
Lemma rateLimiter_fresh method user now0 now1 now2 store :
  store !! user = None ->
  RateLimiter.rateLimiter READ_LIMIT WRITE_LIMIT method user now0 now1 now2 store
  = RateLimiter.rateLimiter READ_LIMIT WRITE_LIMIT method user now0 now1 now2
      (<[user := freshLimits now0 now1]> store).
Proof.
  intros Hnone.
  unfold RateLimiter.rateLimiter, RateLimiter.getRateLimitInfo.
  by rewrite Hnone, lookup_insert_eq.
Qed.

(** Requests inside the window: as many pass as the counter has room. *)
Lemma serve_inside_window method user readings store l k R :
  let ty := RateLimiter.getRequestType method in
  let limit := RateLimiter.getLimit READ_LIMIT WRITE_LIMIT ty in
  store !! user = Some l ->
  RateLimiter.infoOf l ty = {| RateLimiter.count := k; RateLimiter.resetTime := R |} ->
  0 <= k <= limit ->
  Forall (fun r => r.2 < R) readings ->
  fst (RateLimiter.serve READ_LIMIT WRITE_LIMIT method user readings store)
  = replicate (Nat.min (length readings) (Z.to_nat (limit - k))) None
    ++ replicate (length readings - Z.to_nat (limit - k)) (Some tooManyRequests).
Proof.
  intros ty limit. revert store l k.
  induction readings as [|[[now0 now1] now2] rest IH]; intros store l k Hl Hinfo Hk Hall.
  - done.
  - apply list.Forall_cons in Hall as [Hnow Hall]. simpl in Hnow.
    cbn [RateLimiter.serve].
    rewrite (rateLimiter_present _ _ _ _ _ _ l Hl). fold ty. fold limit.
    rewrite Hinfo. unfold RateLimiter.resetIfExpired.
    cbn [RateLimiter.resetTime RateLimiter.count].
    destruct (Z.leb_spec R now2) as [?|_]; [lia|].
    cbn [RateLimiter.resetTime RateLimiter.count].
    destruct (Z.leb_spec limit k) as [Hfull|Hroom].
    + specialize (IH (<[user := withInfo l ty {| RateLimiter.count := k;
                                                 RateLimiter.resetTime := R |}]> store)
                     (withInfo l ty {| RateLimiter.count := k;
                                       RateLimiter.resetTime := R |}) k).
      destruct (RateLimiter.serve _ _ _ _ rest _) as [ds st] eqn:E.
      cbn [fst] in *. rewrite IH; try done.
      * replace (Z.to_nat (limit - k)) with 0%nat by lia.
        rewrite !Nat.min_0_r, !Nat.sub_0_r. done.
      * apply lookup_insert_eq.
      * apply infoOf_withInfo.
    + specialize (IH (<[user := withInfo l ty {| RateLimiter.count := k + 1;
                                                 RateLimiter.resetTime := R |}]> store)
                     (withInfo l ty {| RateLimiter.count := k + 1;
                                       RateLimiter.resetTime := R |}) (k + 1)).
      destruct (RateLimiter.serve _ _ _ _ rest _) as [ds st] eqn:E.
      cbn [fst] in *. rewrite IH; try done.
      * replace (Z.to_nat (limit - k)) with (S (Z.to_nat (limit - (k + 1)))) by lia.
        cbn [length]. rewrite <- Nat.succ_min_distr. done.
      * apply lookup_insert_eq.
      * apply infoOf_withInfo.
      * lia.
Qed.

(** X15: within the window a first request opens, exactly [limit] requests
    of a caller pass. For a caller without an entry and a run of requests
    of one method whose clock readings all fall before the opening reading
    plus 60 seconds, the first [limit] requests go on to the handler and
    every later one is answered 429 RATE_LIMITED. *)
Theorem limit_requests_pass_per_window (method user : string)
    (now0 now1 now2 : Z) (rest : list (Z * Z * Z))
    (store : gmap string RateLimiter.UserRateLimits) :
  let ty := RateLimiter.getRequestType method in
  let limit := RateLimiter.getLimit READ_LIMIT WRITE_LIMIT ty in
  let opening := match ty with RateLimiter.read => now0 | RateLimiter.write => now1 end in
  let readings := (now0, now1, now2) :: rest in
  0 <= limit ->
  store !! user = None ->
  Forall (fun r => r.2 < opening + RateLimiter.WINDOW_DURATION_MS) readings ->
  fst (RateLimiter.serve READ_LIMIT WRITE_LIMIT method user readings store)
  = replicate (Nat.min (length readings) (Z.to_nat limit)) None
    ++ replicate (length readings - Z.to_nat limit) (Some tooManyRequests).
Proof.
  intros ty limit opening readings Hlimit Hnone Hall.
  assert (Hserve :
            RateLimiter.serve READ_LIMIT WRITE_LIMIT method user readings store
            = RateLimiter.serve READ_LIMIT WRITE_LIMIT method user readings
                (<[user := freshLimits now0 now1]> store)).
  { unfold readings. cbn [RateLimiter.serve]. by rewrite rateLimiter_fresh. }
  rewrite Hserve.
  rewrite (serve_inside_window method user readings _ (freshLimits now0 now1) 0
             (opening + RateLimiter.WINDOW_DURATION_MS)).
  - fold ty. fold limit. by rewrite Z.sub_0_r.
  - apply lookup_insert_eq.
  - unfold opening. fold ty. by destruct ty.
  - fold ty. fold limit. lia.
  - exact Hall.
Qed.
End RateLimiterFacts.

Lemma limit_requests_pass_per_window_witness :
  fst (RateLimiter.serve 3 2 "GET" "k1"
         [(1000, 1000, 1001); (0, 0, 2000); (0, 0, 30000); (0, 0, 60000); (0, 0, 60999)]
         ∅)
  = replicate (Nat.min 5 (Z.to_nat 3)) None
    ++ replicate (5 - Z.to_nat 3) (Some tooManyRequests).
Proof.
  apply (limit_requests_pass_per_window 3 2 "GET" "k1" 1000 1000 1001
           [(0, 0, 2000); (0, 0, 30000); (0, 0, 60000); (0, 0, 60999)] ∅).
  - simpl. lia.
  - apply lookup_empty.
  - repeat (apply list.Forall_cons; split; [simpl; unfold RateLimiter.WINDOW_DURATION_MS; lia|]).
    apply Forall_nil_2.
Defined.

Lemma type_cases (ty ty' : RateLimiter.RequestType) :
  ty' = ty \/ ty' = otherType ty.
Proof. destruct ty, ty'; auto. Qed.

Section RateLimiterWindows.
Variables READ_LIMIT WRITE_LIMIT : Z.

(** X16: when the window of a caller has run out, the next request starts
    a new one: if the clock has reached the [resetTime] of the caller's
    counter and the limit is positive, the request passes whatever the
    counter held, the counter becomes 1 and the window ends 60 seconds
    after this request; the caller's counter of the other kind is not
    touched. *)
Theorem expired_window_starts_anew (method user : string) (now0 now1 now2 : Z)
    (store : gmap string RateLimiter.UserRateLimits)
    (l : RateLimiter.UserRateLimits) :
  let ty := RateLimiter.getRequestType method in
  store !! user = Some l ->
  RateLimiter.resetTime (RateLimiter.infoOf l ty) <= now2 ->
  0 < RateLimiter.getLimit READ_LIMIT WRITE_LIMIT ty ->
  exists l',
    RateLimiter.rateLimiter READ_LIMIT WRITE_LIMIT method user now0 now1 now2 store
    = (None, <[user := l']> store)
    /\ RateLimiter.infoOf l' ty
       = {| RateLimiter.count := 1; RateLimiter.resetTime := now2 + 60000 |}
    /\ RateLimiter.infoOf l' (otherType ty) = RateLimiter.infoOf l (otherType ty).
Proof.
  intros ty Hl Hexpired Hlimit.
  rewrite (rateLimiter_present READ_LIMIT WRITE_LIMIT _ _ _ _ _ _ l Hl). fold ty.
  unfold RateLimiter.resetIfExpired.
  destruct (Z.leb_spec (RateLimiter.resetTime (RateLimiter.infoOf l ty)) now2);
    [|lia].
  cbn [RateLimiter.count RateLimiter.resetTime].
  destruct (Z.leb_spec (RateLimiter.getLimit READ_LIMIT WRITE_LIMIT ty) 0); [lia|].
  eexists. split; [reflexivity|]. apply infoOf_withInfo.
Qed.

(** X17: the limiter keeps every counter between 0 and its limit, and a
    request touches one counter only: after any request the store is still
    bounded, the entries of all other callers are as they were, and so is
    the caller's counter of the other kind if the caller had an entry. *)
Theorem limiter_touches_one_counter (method user : string) (now0 now1 now2 : Z)
    (store : gmap string RateLimiter.UserRateLimits) :
  let ty := RateLimiter.getRequestType method in
  let store' :=
    snd (RateLimiter.rateLimiter READ_LIMIT WRITE_LIMIT method user now0 now1 now2 store) in
  bounded READ_LIMIT WRITE_LIMIT store ->
  bounded READ_LIMIT WRITE_LIMIT store'
  /\ (forall u, u <> user -> store' !! u = store !! u)
  /\ (forall l, store !! user = Some l ->
        exists l', store' !! user = Some l'
          /\ RateLimiter.infoOf l' (otherType ty) = RateLimiter.infoOf l (otherType ty)).
Proof.
  intros ty store' Hb.
  assert (Hstep : forall st l,
             st !! user = Some l ->
             (forall ty', 0 <= RateLimiter.count (RateLimiter.infoOf l ty')
                          <= Z.max 0 (RateLimiter.getLimit READ_LIMIT WRITE_LIMIT ty')) ->
             exists l',
               snd (RateLimiter.rateLimiter READ_LIMIT WRITE_LIMIT method user
                      now0 now1 now2 st) = <[user := l']> st
               /\ RateLimiter.infoOf l' (otherType ty)
                  = RateLimiter.infoOf l (otherType ty)
               /\ 0 <= RateLimiter.count (RateLimiter.infoOf l' ty)
                    <= Z.max 0 (RateLimiter.getLimit READ_LIMIT WRITE_LIMIT ty)).
  { intros st l Hl Hbl.
    rewrite (rateLimiter_present READ_LIMIT WRITE_LIMIT _ _ _ _ _ _ l Hl). fold ty.
    set (info := RateLimiter.resetIfExpired (RateLimiter.infoOf l ty) now2).
    assert (Hinfo : 0 <= RateLimiter.count info
                    <= Z.max 0 (RateLimiter.getLimit READ_LIMIT WRITE_LIMIT ty)).
    { unfold info, RateLimiter.resetIfExpired.
      destruct (_ <=? _); [simpl; lia|apply Hbl]. }
    destruct (Z.leb_spec (RateLimiter.getLimit READ_LIMIT WRITE_LIMIT ty)
                         (RateLimiter.count info)).
    - eexists. split; [reflexivity|].
      destruct (infoOf_withInfo l ty info) as [-> ->]. by split.
    - eexists. split; [reflexivity|].
      destruct (infoOf_withInfo l ty
                  {| RateLimiter.count := RateLimiter.count info + 1;
                     RateLimiter.resetTime := RateLimiter.resetTime info |})
        as [-> ->].
      split; [done|]. simpl. lia. }
  assert (Hshape : exists st l l',
             (st = store \/ (store !! user = None /\ st = <[user := l]> store))
             /\ st !! user = Some l
             /\ (forall ty', 0 <= RateLimiter.count (RateLimiter.infoOf l ty')
                             <= Z.max 0 (RateLimiter.getLimit READ_LIMIT WRITE_LIMIT ty'))
             /\ store' = <[user := l']> st
             /\ RateLimiter.infoOf l' (otherType ty) = RateLimiter.infoOf l (otherType ty)
             /\ 0 <= RateLimiter.count (RateLimiter.infoOf l' ty)
                  <= Z.max 0 (RateLimiter.getLimit READ_LIMIT WRITE_LIMIT ty)).
  { destruct (store !! user) as [l|] eqn:Hl.
    - destruct (Hstep store l Hl) as (l' & H1 & H2 & H3); [intros; by eapply Hb|].
      exists store, l, l'. split; [by left|]. split; [done|].
      split; [intros; by eapply Hb|]. split; [exact H1|]. by split.
    - assert (Hf : forall ty', 0 <= RateLimiter.count
                                      (RateLimiter.infoOf (freshLimits now0 now1) ty')
                               <= Z.max 0 (RateLimiter.getLimit READ_LIMIT WRITE_LIMIT ty')).
      { intros []; simpl; lia. }
      destruct (Hstep (<[user := freshLimits now0 now1]> store) (freshLimits now0 now1))
        as (l' & H1 & H2 & H3); [apply lookup_insert_eq|exact Hf|].
      exists (<[user := freshLimits now0 now1]> store), (freshLimits now0 now1), l'.
      split; [by right|]. split; [apply lookup_insert_eq|]. split; [exact Hf|].
      split; [|by split].
      unfold store'. by rewrite rateLimiter_fresh. }
  destruct Hshape as (st & l & l' & Hst & Hl & Hbl & -> & Hother & Hcount).
  assert (Hbst : bounded READ_LIMIT WRITE_LIMIT st).
  { destruct Hst as [->|[_ ->]]; [done|].
    intros u lu ty' Hu. destruct (decide (u = user)) as [->|Hne].
    - rewrite lookup_insert_eq in Hu. simplify_eq. apply Hbl.
    - rewrite lookup_insert_ne in Hu by done. by eapply Hb. }
  split; [|split].
  - intros u lu ty' Hu. destruct (decide (u = user)) as [->|Hne].
    + rewrite lookup_insert_eq in Hu. simplify_eq.
      destruct (type_cases ty ty') as [->| ->]; [done|].
      rewrite Hother. apply Hbl.
    + rewrite lookup_insert_ne in Hu by done. by eapply Hbst.
  - intros u Hne. rewrite lookup_insert_ne by done.
    destruct Hst as [->|[_ ->]]; [done|]. by rewrite lookup_insert_ne.
  - intros l0 Hl0. exists l'. split; [apply lookup_insert_eq|].
    destruct Hst as [->|[Hnone _]]; [|congruence].
    rewrite Hl0 in Hl. by simplify_eq.
Qed.
End RateLimiterWindows.

Lemma expired_window_starts_anew_witness :
  exists l',
    RateLimiter.rateLimiter 3 2 "POST" "k1" 0 0 70000
      (<["k1"%string := freshLimits 1000 1000]> ∅)
    = (None, <["k1"%string := l']> (<["k1"%string := freshLimits 1000 1000]> ∅))
    /\ RateLimiter.infoOf l' (RateLimiter.getRequestType "POST")
       = {| RateLimiter.count := 1; RateLimiter.resetTime := 70000 + 60000 |}
    /\ RateLimiter.infoOf l' (otherType (RateLimiter.getRequestType "POST"))
       = RateLimiter.infoOf (freshLimits 1000 1000)
           (otherType (RateLimiter.getRequestType "POST")).
Proof.
  apply (expired_window_starts_anew 3 2 "POST" "k1" 0 0 70000
           (<["k1"%string := freshLimits 1000 1000]> ∅) (freshLimits 1000 1000)).
  - apply lookup_insert_eq.
  - simpl. unfold RateLimiter.WINDOW_DURATION_MS. lia.
  - simpl. lia.
Defined.

Lemma limiter_touches_one_counter_witness :
  let store' := snd (RateLimiter.rateLimiter 3 2 "GET" "k1" 5 6 7 twoCallers) in
  bounded 3 2 store'
  /\ store' !! "k2"%string = twoCallers !! "k2"%string
  /\ exists l', store' !! "k1"%string = Some l'
       /\ RateLimiter.limits_write l'
          = {| RateLimiter.count := 1; RateLimiter.resetTime := 90000 |}.
Proof.
  destruct (limiter_touches_one_counter 3 2 "GET" "k1" 5 6 7 twoCallers)
    as (Hbounded & Hothers & Hkind).
  - intros u l ty Hu. unfold twoCallers in Hu.
    apply lookup_insert_Some in Hu as [[_ <-]|[_ Hu]].
    + destruct ty; simpl; lia.
    + apply lookup_insert_Some in Hu as [[_ <-]|[_ Hu]].
      * destruct ty; simpl; lia.
      * by rewrite lookup_empty in Hu.
  - split; [exact Hbounded|]. split; [by apply Hothers|].
    destruct (Hkind _ (lookup_insert_eq _ _ _)) as (l' & Hl' & Hwrite).
    exists l'. split; [exact Hl'|exact Hwrite].
Defined.

(** ** Registration and authentication *)

Section UserFacts.
Variable hashApiKey : string -> string.

Lemma find_app_none {A} (f : A -> bool) (l : list A) (x : A) :
  List.find f l = None -> List.find f (l ++ [x]) = if f x then Some x else None.
Proof.
  induction l as [|y l IH]; simpl; [done|].
  destruct (f y); [done|]. exact IH.
Qed.

Lemma find_app_some {A} (f : A -> bool) (l : list A) (x y : A) :
  List.find f l = Some y -> List.find f (l ++ [x]) = Some y.
Proof.
  induction l as [|z l IH]; simpl; [done|].
  destruct (f z); [done|]. exact IH.
Qed.

(** X18: a key handed out by the registration authenticates its holder.
    When the e-mail is not registered yet and no row holds the hash of the
    drawn key, [registerUser] returns the new id with the key, the key then
    passes [apiKeyAuth] and resolves to that id, every key that resolved
    before resolves to the same id as before, and a second registration of
    the e-mail throws EMAIL_EXISTS and leaves the table alone. *)
Theorem registered_key_authenticates (email apiKey newId : string)
    (users : list Users.UserAccessKey) :
  Users.findByEmail email users = None ->
  Users.findByHashedKey (hashApiKey apiKey) users = None ->
  apiKey <> ""%string ->
  exists users',
    Users.registerUser hashApiKey email apiKey newId users
    = (Store.Returns (newId, apiKey), users')
    /\ Users.apiKeyAuth hashApiKey (Some apiKey) users' = inr newId
    /\ (forall key userId,
          Users.apiKeyAuth hashApiKey (Some key) users = inr userId ->
          Users.apiKeyAuth hashApiKey (Some key) users' = inr userId)
    /\ (forall apiKey' newId',
          Users.registerUser hashApiKey email apiKey' newId' users'
          = (Store.Throws "EMAIL_EXISTS", users')).
Proof.
  intros Hemail Hhash Hkey. eexists.
  unfold Users.registerUser at 1. rewrite Hemail. split; [reflexivity|].
  split; [|split].
  - unfold Users.apiKeyAuth.
    destruct (String.eqb_spec apiKey ""); [done|].
    unfold Users.findByHashedKey in *.
    rewrite (find_app_none _ _ _ Hhash). simpl.
    by rewrite bool_decide_eq_true_2.
  - intros key userId. unfold Users.apiKeyAuth.
    destruct (String.eqb key ""); [done|].
    unfold Users.findByHashedKey.
    destruct (List.find _ users) as [u|] eqn:Hu; [|done].
    intros Hid. by rewrite (find_app_some _ _ _ _ Hu).
  - intros apiKey' newId'. unfold Users.registerUser, Users.findByEmail in *.
    rewrite (find_app_none _ _ _ Hemail). simpl.
    by rewrite bool_decide_eq_true_2.
Qed.
End UserFacts.

Lemma registered_key_authenticates_witness :
  exists users',
    Users.registerUser markKey "a@b.c" "key1" "u1" oneUser
    = (Store.Returns ("u1", "key1")%string, users')
    /\ Users.apiKeyAuth markKey (Some "key1"%string) users' = inr "u1"%string
    /\ Users.apiKeyAuth markKey (Some "key0"%string) users' = inr "u0"%string
    /\ Users.registerUser markKey "a@b.c" "key2" "u2" users'
       = (Store.Throws "EMAIL_EXISTS", users').
Proof.
  destruct (registered_key_authenticates markKey "a@b.c" "key1" "u1" oneUser)
    as (users' & Hreg & Hnew & Hold & Hagain).
  - reflexivity.
  - reflexivity.
  - discriminate.
  - exists users'. split; [exact Hreg|]. split; [exact Hnew|].
    split; [apply Hold; reflexivity|apply Hagain].
Defined.

(** ** The setup handler *)

Section EmailFacts.

Lemma lowerChar_plain c :
  EmailRegex.plain (JSString.lowerChar c) = EmailRegex.plain c.
Proof. destruct c as [[] [] [] [] [] [] [] []]; vm_compute; reflexivity. Qed.

Lemma lowerChar_at c : JSString.lowerChar c = "@"%char <-> c = "@"%char.
Proof.
  destruct c as [[] [] [] [] [] [] [] []]; vm_compute; split; congruence.
Qed.

Lemma lowerChar_dot c : JSString.lowerChar c = "."%char <-> c = "."%char.
Proof.
  destruct c as [[] [] [] [] [] [] [] []]; vm_compute; split; congruence.
Qed.

Lemma lowerChar_twice c :
  JSString.lowerChar (JSString.lowerChar c) = JSString.lowerChar c.
Proof. destruct c as [[] [] [] [] [] [] [] []]; vm_compute; reflexivity. Qed.

Lemma plain_no_space c :
  EmailRegex.plain c = true -> negb (JS.isWhiteSpace c) = true.
Proof. unfold EmailRegex.plain. by intros [? _]%andb_prop. Qed.

Lemma plain_no_at c : EmailRegex.plain c = true -> c <> "@"%char.
Proof.
  unfold EmailRegex.plain. intros [_ H]%andb_prop ->. discriminate H.
Qed.

Lemma chars_toLowerCase s :
  JSString.chars (JSString.toLowerCase s)
  = JSString.lowerChar <$> JSString.chars s.
Proof. induction s as [|c s IH]; simpl; [done|]. by rewrite IH. Qed.

Lemma toLowerCase_twice s :
  JSString.toLowerCase (JSString.toLowerCase s) = JSString.toLowerCase s.
Proof.
  induction s as [|c s IH]; simpl; [done|]. by rewrite IH, lowerChar_twice.
Qed.

Lemma run_lower l : EmailRegex.run (JSString.lowerChar <$> l) = EmailRegex.run l.
Proof.
  unfold EmailRegex.run. f_equal.
  - by destruct l.
  - induction l as [|c l IH]; [done|].
    rewrite fmap_cons. cbn [forallb]. by rewrite IH, lowerChar_plain.
Qed.

Lemma splitsAt_lower l i j :
  EmailRegex.splitsAt (JSString.lowerChar <$> l) i j = EmailRegex.splitsAt l i j.
Proof.
  unfold EmailRegex.splitsAt.
  rewrite <- fmap_take, <- fmap_drop, <- fmap_take, <- fmap_drop, !run_lower.
  do 5 f_equal.
  - apply bool_decide_ext. rewrite list_lookup_fmap.
    destruct (l !! i) as [c|]; simpl; [|done].
    split; intros [= H]; f_equal; by apply lowerChar_at.
  - apply bool_decide_ext. rewrite list_lookup_fmap.
    destruct (l !! j) as [c|]; simpl; [|done].
    split; intros [= H]; f_equal; by apply lowerChar_dot.
Qed.

Lemma existsb_pointwise {A} (f g : A -> bool) l :
  (forall x, f x = g x) -> existsb f l = existsb g l.
Proof. intros H. induction l as [|x l IH]; simpl; [done|]. by rewrite H, IH. Qed.

Lemma test_toLowerCase s :
  EmailRegex.test (JSString.toLowerCase s) = EmailRegex.test s.
Proof.
  unfold EmailRegex.test. cbv zeta.
  rewrite chars_toLowerCase, length_fmap.
  apply existsb_pointwise. intros i.
  apply existsb_pointwise. intros j. apply splitsAt_lower.
Qed.

(** A match of the pattern is [a @ b . c] for three runs. *)
Lemma test_shape s :
  EmailRegex.test s = true ->
  exists a b c,
    JSString.chars s = a ++ "@"%char :: b ++ "."%char :: c
    /\ EmailRegex.run a = true /\ EmailRegex.run b = true
    /\ EmailRegex.run c = true.
Proof.
  unfold EmailRegex.test. cbv zeta. set (l := JSString.chars s).
  intros (i & _ & (j & _ & H)%existsb_exists)%existsb_exists.
  unfold EmailRegex.splitsAt in H.
  apply andb_prop in H as [H Hc]. apply andb_prop in H as [H Hb].
  apply andb_prop in H as [H Ha]. apply andb_prop in H as [H Hij].
  apply andb_prop in H as [Hi Hj].
  apply bool_decide_eq_true_1 in Hi, Hj. apply Nat.ltb_lt in Hij.
  exists (take i l), (take (j - i - 1) (drop (i + 1) l)), (drop (j + 1) l).
  split; [|done].
  rewrite <- (take_drop i l) at 1. f_equal.
  rewrite (drop_S _ _ _ Hi). f_equal.
  replace (S i) with (i + 1)%nat by lia.
  rewrite <- (take_drop (j - i - 1) (drop (i + 1) l)) at 1. f_equal.
  rewrite drop_drop. replace (i + 1 + (j - i - 1))%nat with j by lia.
  rewrite (drop_S _ _ _ Hj). f_equal. f_equal. lia.
Qed.

Lemma run_no_space l :
  EmailRegex.run l = true ->
  forallb (fun c => negb (JS.isWhiteSpace c)) l = true.
Proof.
  unfold EmailRegex.run. intros [_ H]%andb_prop.
  induction l as [|c l IH]; simpl in *; [done|].
  apply andb_prop in H as [Hc H]. by rewrite (plain_no_space _ Hc), IH.
Qed.

Lemma run_no_at l :
  EmailRegex.run l = true -> filter (fun c => c = "@"%char) l = [].
Proof.
  unfold EmailRegex.run. intros [_ H]%andb_prop.
  induction l as [|c l IH]; simpl in *; [done|].
  apply andb_prop in H as [Hc H]. rewrite filter_cons.
  destruct (decide (c = "@"%char)) as [Hat|_]; [|by apply IH].
  by apply plain_no_at in Hc.
Qed.

Lemma test_noWhiteSpace s : EmailRegex.test s = true -> noWhiteSpace s = true.
Proof.
  intros (a & b & c & Hs & Ha & Hb & Hc)%test_shape.
  unfold noWhiteSpace. rewrite Hs.
  rewrite forallb_app. simpl. rewrite forallb_app. simpl.
  by rewrite !run_no_space.
Qed.

Lemma test_atSigns s : EmailRegex.test s = true -> atSigns s = 1%nat.
Proof.
  intros (a & b & c & Hs & Ha & Hb & Hc)%test_shape.
  unfold atSigns. rewrite Hs.
  rewrite list.filter_app, filter_cons, list.filter_app, filter_cons.
  rewrite !run_no_at by done.
  destruct (decide ("@"%char = "@"%char)); [|done].
  destruct (decide ("."%char = "@"%char)); [done|]. reflexivity.
Qed.

Lemma trimEnd_fixed s : noWhiteSpace s = true -> JSString.trimEnd s = s.
Proof.
  unfold noWhiteSpace. induction s as [|c s IH]; simpl; [done|].
  intros [Hc Hs]%andb_prop. rewrite (IH Hs).
  apply negb_true_iff in Hc. by rewrite Hc.
Qed.

Lemma trim_fixed s : noWhiteSpace s = true -> JSString.trim s = s.
Proof.
  intros H. unfold JSString.trim.
  replace (JS.trimStart s) with s; [by apply trimEnd_fixed|].
  destruct s as [|c s]; simpl; [done|].
  unfold noWhiteSpace in H. simpl in H. apply andb_prop in H as [Hc _].
  apply negb_true_iff in Hc. by rewrite Hc.
Qed.

Lemma test_not_empty s : EmailRegex.test s = true -> s <> ""%string.
Proof. intros H ->. discriminate H. Qed.

End EmailFacts.

Section SetupFacts.
Variable hashApiKey : string -> string.

Lemma handler_registers (email apiKey newId : string)
    (users users' : list Users.UserAccessKey) (resp : Users.SetupResponse) :
  Users.registerUserHandler hashApiKey (Users.BodyString email) apiKey newId users
  = (resp, users') ->
  Users.setup_statusCode resp = 201 ->
  EmailRegex.test (JSString.trim email) = true
  /\ Users.findByEmail (normalised email) users = None
  /\ users' = users ++ [{| Users.id := newId; Users.email := normalised email;
                           Users.hashedKey := hashApiKey apiKey |}].
Proof.
  unfold Users.registerUserHandler, Users.registerUser.
  fold (normalised email).
  destruct (JSString.isEmpty email || _); [by intros [= <- <-]|].
  destruct (EmailRegex.test (JSString.trim email)); simpl; [|by intros [= <- <-]].
  destruct (Users.findByEmail (normalised email) users); simpl;
    [by intros [= <- <-]|].
  by intros [= <- <-].
Qed.

(** X19: what the setup handler stores. When the drawn key is new to the
    table, the handler either answers 400 (e-mail required, or invalid
    format) or 409 (e-mail registered) and leaves the table unchanged, or
    answers 201 with the new id and the key and appends one row; the e-mail
    of that row was not in the table, matches the e-mail pattern, is fixed
    by [trim] and by [toLowerCase], and holds exactly one [@]. *)
Theorem setup_stores_normalised_email (body : Users.BodyValue)
    (apiKey newId : string) (users : list Users.UserAccessKey) :
  Users.findByHashedKey (hashApiKey apiKey) users = None ->
  let (resp, users') :=
    Users.registerUserHandler hashApiKey body apiKey newId users in
  ((resp = emailRequired \/ resp = invalidFormat \/ resp = emailExists)
   /\ users' = users)
  \/ exists email,
       body = Users.BodyString email
       /\ resp = userRegistered newId apiKey
       /\ users' = users ++ [{| Users.id := newId;
                                Users.email := normalised email;
                                Users.hashedKey := hashApiKey apiKey |}]
       /\ Users.findByEmail (normalised email) users = None
       /\ EmailRegex.test (normalised email) = true
       /\ JSString.trim (normalised email) = normalised email
       /\ JSString.toLowerCase (normalised email) = normalised email
       /\ atSigns (normalised email) = 1%nat.
Proof.
  intros _. destruct body as [|email|]; simpl; [left; auto| |left; auto].
  unfold Users.registerUser. fold (normalised email).
  destruct (JSString.isEmpty email || _); [left; auto|].
  destruct (EmailRegex.test (JSString.trim email)) eqn:Ht; simpl;
    [|left; auto].
  destruct (Users.findByEmail (normalised email) users) eqn:He; simpl;
    [left; auto|].
  right. exists email.
  assert (Hn : EmailRegex.test (normalised email) = true)
    by (unfold normalised; by rewrite test_toLowerCase).
  split; [done|]. split; [done|]. split; [done|]. split; [done|].
  split; [done|]. split; [|split].
  - apply trim_fixed, test_noWhiteSpace, Hn.
  - apply toLowerCase_twice.
  - apply test_atSigns, Hn.
Qed.

(** X20: a registered e-mail is refused in any case and with any padding.
    After the handler has answered 201 for [email], a request whose e-mail
    differs from it only in letter case and in white space around it is
    answered 409 EMAIL_EXISTS, whatever key and id are drawn, and the table
    stays as it is. *)
Theorem setup_rejects_same_email_in_any_case
    (email email' apiKey newId apiKey' newId' : string)
    (users users' : list Users.UserAccessKey) (resp : Users.SetupResponse) :
  Users.registerUserHandler hashApiKey (Users.BodyString email) apiKey newId users
  = (resp, users') ->
  Users.setup_statusCode resp = 201 ->
  normalised email' = normalised email ->
  Users.registerUserHandler hashApiKey (Users.BodyString email') apiKey' newId' users'
  = (emailExists, users').
Proof.
  intros Hfirst H201 Hsame.
  destruct (handler_registers _ _ _ _ _ _ Hfirst H201) as (Ht & He & ->).
  assert (Ht' : EmailRegex.test (JSString.trim email') = true).
  { rewrite <- test_toLowerCase. fold (normalised email'). rewrite Hsame.
    unfold normalised. by rewrite test_toLowerCase. }
  pose proof (test_not_empty _ Ht') as Hne.
  unfold Users.registerUserHandler, Users.registerUser.
  fold (normalised email'). rewrite Ht', Hsame.
  replace (JSString.isEmpty email' || _) with false; cycle 1.
  { destruct email' as [|c r]; [done|]. simpl.
    by destruct (JSString.trim (String c r)). }
  simpl. unfold Users.findByEmail in *.
  rewrite (find_app_none _ _ _ He). simpl.
  by rewrite bool_decide_eq_true_2.
Qed.
End SetupFacts.

Lemma setup_stores_normalised_email_witness :
  let (resp, users') :=
    Users.registerUserHandler markKey (Users.BodyString " Ann@B.c ") "key1" "u1" [] in
  ((resp = emailRequired \/ resp = invalidFormat \/ resp = emailExists)
   /\ users' = [])
  \/ exists email,
       Users.BodyString " Ann@B.c " = Users.BodyString email
       /\ resp = userRegistered "u1" "key1"
       /\ users' = [] ++ [{| Users.id := "u1";
                             Users.email := normalised email;
                             Users.hashedKey := markKey "key1" |}]
       /\ Users.findByEmail (normalised email) [] = None
       /\ EmailRegex.test (normalised email) = true
       /\ JSString.trim (normalised email) = normalised email
       /\ JSString.toLowerCase (normalised email) = normalised email
       /\ atSigns (normalised email) = 1%nat.
Proof.
  apply (setup_stores_normalised_email markKey
           (Users.BodyString " Ann@B.c ") "key1" "u1" []).
  reflexivity.
Defined.

Lemma setup_rejects_same_email_in_any_case_witness :
  Users.registerUserHandler markKey (Users.BodyString " ann@b.C") "key2" "u2"
    [{| Users.id := "u1"; Users.email := "ann@b.c";
        Users.hashedKey := markKey "key1" |}]
  = (emailExists,
     [{| Users.id := "u1"; Users.email := "ann@b.c";
         Users.hashedKey := markKey "key1" |}]).
Proof.
  apply (setup_rejects_same_email_in_any_case markKey
           "Ann@B.c" " ann@b.C" "key1" "u1" "key2" "u2" []
           _ (userRegistered "u1" "key1")).
  - reflexivity.
  - reflexivity.
  - reflexivity.
Defined.

(** ** Analytics: the charts agree with one another *)

(** The papers at a stage, told apart by domain. *)
Lemma cells_of_stage s papers :
  sum_list (List.map (fun d => cell d s papers) AnalyticsService.allDomains)
  = Spec.count_if (atStage s) papers.
Proof.
  induction papers as [|p papers IH]; [done|].
  unfold AnalyticsService.allDomains in *.
  cbn [List.map sum_list sum_list_with] in *. unfold id in *.
  rewrite !(cell_cons _ _ p papers), !cell_single, count_if_cons, <- IH.
  destruct (atStage s p); rewrite ?andb_true_r, ?andb_false_r; [|lia].
  unfold inDomain.
  destruct (AnalyticsService.row_researchDomain p); decide_members; lia.
Qed.

Lemma sparse_or_zero n : default 0%nat (sparse n) = n.
Proof. unfold sparse. by destruct n. Qed.

(** X21: the four parts of an analytics answer agree. For every list of
    rows the scatter has one point per paper, the funnel count of a stage is
    the sum over the six bars of the stage's count in the bar (0 where the
    stage is no key), and the funnel entry of Fully Read holds the
    [fullyRead] of the summary. *)
Theorem charts_agree (papers : list AnalyticsService.AnalyticsRow) :
  let funnel := AnalyticsService.computeFunnelData papers in
  let bars := AnalyticsService.computeStackedBarData papers in
  let summary := AnalyticsService.computeSummaryMetrics papers in
  length (AnalyticsService.computeScatterData papers)
  = AnalyticsService.totalPapers summary
  /\ Forall (fun e =>
               AnalyticsService.count e
               = sum_list
                   (List.map (fun b => AnalyticsService.getOrZero
                                         (AnalyticsService.stages b)
                                         (AnalyticsService.stage e))
                             bars))
            funnel
  /\ In {| AnalyticsService.stage := FULLY_READ;
           AnalyticsService.count := AnalyticsService.fullyRead summary |}
        funnel.
Proof.
  cbv zeta. split; [|split].
  - unfold AnalyticsService.computeScatterData. by rewrite length_map.
  - rewrite funnel_entries, bars_entries.
    apply Forall_forall. intros e [s [<- _]]%in_map_iff.
    cbn [AnalyticsService.count AnalyticsService.stage].
    rewrite List.map_map. cbn [AnalyticsService.stages].
    unfold AnalyticsService.getOrZero.
    rewrite <- cells_of_stage. f_equal.
    apply List.map_ext. intros d. by rewrite bars_lookup, sparse_or_zero.
  - rewrite funnel_entries. apply in_map_iff. exists FULLY_READ.
    split; [reflexivity|]. unfold AnalyticsService.allStages. simpl. tauto.
Qed.

(** ** The handlers of the writing routes *)

Lemma constrained_createPaper refuses owner data now newId db :
  ConstrainedService.createPaper refuses owner data now newId db
  = (if entryTaken owner (PaperService.title data) (PaperService.firstAuthor data) db
     then (Store.Throws "DUPLICATE_PAPER", db)
     else match refuses (createdRow owner data now newId) with
          | Some message => (Store.Throws message, db)
          | None => (Store.Returns newId, db ++ [createdRow owner data now newId])
          end).
Proof.
  unfold ConstrainedService.createPaper, Store.bind, Store.read,
    ConstrainedStore.create.
  pose proof (findFirst_entry owner (PaperService.title data)
                              (PaperService.firstAuthor data) db) as [H1 H2].
  fold (createdRow owner data now newId).
  destruct (Store.findFirst _ db) as [p|];
    destruct (entryTaken _ _ _ db); try done.
  - by specialize (H1 (mk_is_Some _ _ eq_refl)).
  - by destruct (H2 eq_refl) as [? ?].
  - by destruct (refuses (createdRow owner data now newId)).
Qed.

Lemma constrained_update refuses paperId owner d db :
  (await paper <- Store.read (Store.findUnique paperId);
   match paper with
   | None => Store.throw "NOT_FOUND"
   | Some paper =>
       if negb (String.eqb (Store.userKeyId paper) owner)
       then Store.throw "NOT_FOUND"
       else ConstrainedStore.update refuses paperId d
   end) db
  = match Store.findUnique paperId db with
    | Some p =>
        if bool_decide (Store.userKeyId p = owner)
        then match refuses (Store.applyUpdate d p) with
             | Some message => (Store.Throws message, db)
             | None =>
                 (Store.Returns tt,
                  List.map (fun q => if bool_decide (Store.id q = paperId)
                                     then Store.applyUpdate d q else q) db)
             end
        else (Store.Throws "NOT_FOUND", db)
    | None => (Store.Throws "NOT_FOUND", db)
    end.
Proof.
  unfold Store.bind, Store.read, ConstrainedStore.update.
  destruct (Store.findUnique paperId db) as [p|] eqn:Hp; [|done].
  destruct (String.eqb_spec (Store.userKeyId p) owner) as [Ho|Ho]; simpl.
  - rewrite bool_decide_eq_true_2 by done. rewrite Hp.
    by destruct (refuses (Store.applyUpdate d p)).
  - by rewrite bool_decide_eq_false_2.
Qed.

(** X22: what the handlers of POST /papers, PATCH /papers/:id and
    PATCH /papers/:id/archive answer over a store that may refuse a row,
    with messages that are not the codes of the services. The status is
    200, 201, 404, 409 or 500; with 404, 409 and 500 the table is the one
    before and [data] is null; the status is 201 exactly when the answer
    carries the id the store drew for a creation; it is 500 exactly when
    the checks of the service passed and the store refused the row; after
    200 and 201 the table is the one the service leaves on a store that
    takes every row, and over such a store the handlers answer as the
    handlers without constraints. *)
Theorem rejected_writes_change_nothing (refuses : Store.Paper -> option string)
    (owner : string) (w : Write) (db : list Store.Paper) :
  foreignMessages refuses ->
  let (resp, db') := respondUnder refuses owner w db in
  (statusCode resp = 200 \/ statusCode resp = 201
   \/ (statusCode resp = 404 \/ statusCode resp = 409 \/ statusCode resp = 500)
      /\ db' = db /\ data resp = None)
  /\ (statusCode resp = 201
      <-> exists newId, drawnId w = Some newId /\ data resp = Some newId)
  /\ (statusCode resp = 500
      <-> exists row, attempted owner w db = Some row /\ is_Some (refuses row))
  /\ (statusCode resp = 200 \/ statusCode resp = 201 -> db' = tableAfter owner w db)
  /\ ((forall row, refuses row = None) -> (resp, db') = respond owner w db).
Proof.
  intros Hforeign.
  destruct w as [body now newId|paperId body|paperId]; simpl.
  - unfold ConstrainedController.createPaper, PaperController.createPaper.
    rewrite constrained_createPaper, createPaper_table.
    destruct (entryTaken _ _ _ db); simpl.
    { split; [choose|]. split; [split; [done|by intros (? & _ & ?)]|].
      split; [split; [done|by intros (? & ? & _)]|].
      split; [by intros [?|?]|done]. }
    destruct (refuses (createdRow owner body now newId)) as [message|] eqn:Hr; simpl.
    + destruct (Hforeign _ _ Hr) as [Hdup _].
      apply String.eqb_neq in Hdup. rewrite Hdup. simpl.
      split; [choose|]. split; [split; [done|by intros (? & _ & ?)]|].
      split; [split; [intros _; eexists; split; [done|by rewrite Hr]|done]|].
      split; [by intros [?|?]|]. intros Hall. by rewrite Hall in Hr.
    + split; [choose|]. split; [split; [intros _; by exists newId|done]|].
      split; [split; [done|]|done].
      intros (row & [= <-] & Hsome). rewrite Hr in Hsome. by destruct Hsome.
  - unfold ConstrainedController.updatePaper, PaperController.updatePaper,
      ConstrainedService.updatePaper, attempted.
    rewrite constrained_update. fold (updatedRow body).
    destruct (Store.findUnique paperId db) as [p|] eqn:Hp; simpl.
    + destruct (decide (Store.userKeyId p = owner)) as [Ho|Ho].
      * rewrite (updatePaper_owned _ _ body _ p Hp Ho).
        rewrite bool_decide_eq_true_2 by done.
        change (Store.applyUpdate _ p) with (updatedRow body p).
        destruct (refuses (updatedRow body p)) as [message|] eqn:Hr; simpl.
        -- destruct (Hforeign _ _ Hr) as [_ Hnf].
           apply String.eqb_neq in Hnf. rewrite Hnf. simpl.
           split; [choose|]. split; [split; [done|by intros (? & ? & _)]|].
           split; [split; [intros _; eexists; split; [done|by rewrite Hr]|done]|].
           split; [by intros [?|?]|]. intros Hall. by rewrite Hall in Hr.
        -- split; [choose|]. split; [split; [done|by intros (? & ? & _)]|].
           split; [split; [done|]|done].
           intros (row & [= <-] & Hsome). rewrite Hr in Hsome. by destruct Hsome.
      * rewrite bool_decide_eq_false_2 by done.
        destruct (not_found_when paperId owner body db) as (-> & _).
        { by rewrite Hp. }
        simpl. split; [choose|]. split; [split; [done|by intros (? & ? & _)]|].
        split; [split; [done|by intros (? & ? & _)]|].
        split; [by intros [?|?]|done].
    + destruct (not_found_when paperId owner body db) as (-> & _).
      { by rewrite Hp. }
      simpl. split; [choose|]. split; [split; [done|by intros (? & ? & _)]|].
      split; [split; [done|by intros (? & ? & _)]|].
      split; [by intros [?|?]|done].
  - unfold ConstrainedController.archivePaper, PaperController.archivePaper,
      ConstrainedService.archivePaper, attempted.
    rewrite constrained_update. fold archivedRow.
    destruct (Store.findUnique paperId db) as [p|] eqn:Hp; simpl.
    + destruct (decide (Store.userKeyId p = owner)) as [Ho|Ho].
      * rewrite (archivePaper_owned _ _ _ p Hp Ho).
        rewrite bool_decide_eq_true_2 by done.
        change (Store.applyUpdate _ p) with (archivedRow p).
        destruct (refuses (archivedRow p)) as [message|] eqn:Hr; simpl.
        -- destruct (Hforeign _ _ Hr) as [_ Hnf].
           apply String.eqb_neq in Hnf. rewrite Hnf. simpl.
           split; [choose|]. split; [split; [done|by intros (? & ? & _)]|].
           split; [split; [intros _; eexists; split; [done|by rewrite Hr]|done]|].
           split; [by intros [?|?]|]. intros Hall. by rewrite Hall in Hr.
        -- split; [choose|]. split; [split; [done|by intros (? & ? & _)]|].
           split; [split; [done|]|done].
           intros (row & [= <-] & Hsome). rewrite Hr in Hsome. by destruct Hsome.
      * rewrite bool_decide_eq_false_2 by done.
        destruct (not_found_when paperId owner sampleUpdate db) as (_ & -> & _).
        { by rewrite Hp. }
        simpl. split; [choose|]. split; [split; [done|by intros (? & ? & _)]|].
        split; [split; [done|by intros (? & ? & _)]|].
        split; [by intros [?|?]|done].
    + destruct (not_found_when paperId owner sampleUpdate db) as (_ & -> & _).
      { by rewrite Hp. }
      simpl. split; [choose|]. split; [split; [done|by intros (? & ? & _)]|].
      split; [split; [done|by intros (? & ? & _)]|].
      split; [by intros [?|?]|done].
Qed.

(** A citation count of 2^31 on a store with a 32-bit column: the creation
    is answered 500 and writes nothing; with a count the column holds the
    paper is created. *)
Example out_of_range_create :
  respondUnder intColumn "k1" (Create largeCreate 40 "p4") sampleTable
  = (sendResponse 500 "INTERNAL_ERROR" None "Unexpected server error", sampleTable)
  /\ respondUnder intColumn "k1" (Create sampleCreate 40 "p4") sampleTable
     = (sendResponse 201 "PAPER_CREATED" (Some "p4"%string)
          "Paper created successfully",
        sampleTable ++ [createdRow "k1" sampleCreate 40 "p4"]).
Proof. by vm_compute. Qed.

Lemma rejected_writes_change_nothing_witness :
  let (resp, db') :=
    respondUnder intColumn "k1" (Create largeCreate 40 "p4") sampleTable in
  (statusCode resp = 200 \/ statusCode resp = 201
   \/ (statusCode resp = 404 \/ statusCode resp = 409 \/ statusCode resp = 500)
      /\ db' = sampleTable /\ data resp = None)
  /\ (statusCode resp = 201
      <-> exists newId,
            drawnId (Create largeCreate 40 "p4") = Some newId
            /\ data resp = Some newId)
  /\ (statusCode resp = 500
      <-> exists row,
            attempted "k1" (Create largeCreate 40 "p4") sampleTable = Some row
            /\ is_Some (intColumn row))
  /\ (statusCode resp = 200 \/ statusCode resp = 201 ->
      db' = tableAfter "k1" (Create largeCreate 40 "p4") sampleTable)
  /\ ((forall row, intColumn row = None) ->
      (resp, db') = respond "k1" (Create largeCreate 40 "p4") sampleTable).
Proof.
  apply (rejected_writes_change_nothing intColumn "k1"
           (Create largeCreate 40 "p4") sampleTable).
  intros row message. unfold intColumn.
  destruct (_ && _); [done|]. by intros [= <-].
Defined.
